(** * Telemetry simulation and alert reconciliation: a shallow embedding

    The development follows the Python sources

    - [services/external_apis.py]   ([MockInternalDataProvider]),
    - [database/logic.py]           ([retry_db_operation], [MetricsDB], [AlertsDB]),
    - [database/sql_queries.py]     ([CHECK_EXISTING_ALERT], [INSERT_ALERT]),
    - [services/background_services.py] ([DataAggregator]).

    Conventions.  Python floats are read as exact rationals ([Q]); Python
    ints are [Z].  The global generator [random] is an explicit stream of
    draws that is threaded through the code.  Exceptions are values of
    [outcome]; the database is an explicit [world] that every storage
    statement reads and writes. *)

From Stdlib Require Import ZArith QArith Qround Qabs Qpower Lqa Lia String Ascii List Bool.
From stdpp Require Import base gmap strings pretty.
Import ListNotations.

Local Open Scope Z_scope.

(* ================================================================== *)
(** * Python primitives *)
(* ================================================================== *)

Module Py.

(** [a < b] and [a >= b] on floats. *)
Definition ltb (a b : Q) : bool := negb (Qle_bool b a).
Definition geb (a b : Q) : bool := Qle_bool b a.

(** [max(a, b)] keeps its first argument unless the second is strictly
    larger; [min(a, b)] unless the second is strictly smaller. *)
Definition max (a b : Q) : Q := if ltb a b then b else a.
Definition min (a b : Q) : Q := if ltb b a then b else a.

(** [int(x)]: truncation toward zero. *)
Definition int (x : Q) : Z := Z.quot (Qnum x) (Zpos (Qden x)).

End Py.

(* ================================================================== *)
(** * Python floats where their rounding shows *)
(* ================================================================== *)

(** Floats are read as the rationals they stand for.  Where the code
    truncates or prints a float, the rounding of the operation before
    it decides the result, and the operation is taken as IEEE 754
    binary64 does it: operands are doubles, the exact result is rounded
    to the nearest double, ties to the even one.  The exponent range is
    left open above (no overflow to infinity). *)
Module Float.

(** The binade of a positive rational: the [e] with [2^e <= x < 2^(e+1)]. *)
Definition binade (x : Q) : Z :=
  let e0 := Z.log2 (Qnum x) - Z.log2 (Zpos (Qden x)) in
  if Qle_bool (2 ^ e0) x then e0 else e0 - 1.

(** Rounding to the nearest integer, ties to the even one. *)
Definition rne (y : Q) : Z :=
  let f := Qfloor y in
  match (y - inject_Z f ?= 1 # 2)%Q with
  | Lt => f
  | Gt => f + 1
  | Eq => if Z.even f then f else f + 1
  end.

(** The spacing of the doubles around [x > 0]: 53 significant bits, and
    the fixed spacing [2^-1074] of the subnormal range. *)
Definition ulp (x : Q) : Q := (2 ^ (Z.max (binade x) (-1022) - 52))%Q.

(** The double nearest to [x], ties to the even one. *)
Definition round (x : Q) : Q :=
  match (x ?= 0)%Q with
  | Eq => 0
  | Gt => inject_Z (rne (x / ulp x)) * ulp x
  | Lt => - (inject_Z (rne (- x / ulp (- x))) * ulp (- x))
  end%Q.

(** [a * b] and [a / b] on floats. *)
Definition mul (a b : Q) : Q := round (round a * round b).
Definition div (a b : Q) : Q := round (round a / round b).

End Float.

(* ================================================================== *)
(** * The random source *)
(* ================================================================== *)

(** A generator is the stream of the values [random.random()] will
    return; every draw consumes the head of the stream. *)
Definition rng := nat -> Q.

Module Random.

Definition tail (r : rng) : rng := fun n => r (S n).

(** [random.random()] *)
Definition random (r : rng) : Q * rng := (r O, tail r).

(** [random.uniform(a, b)] is [a + (b - a) * random()]. *)
Definition uniform (a b : Q) (r : rng) : Q * rng :=
  let (u, r') := random r in ((a + (b - a) * u)%Q, r').

(** [random.randint(a, b)]: an integer of [a .. b], chosen by the
    position of the draw in the unit interval. *)
Definition randint (a b : Z) (r : rng) : Z * rng :=
  let (u, r') := random r in (a + Qfloor (u * inject_Z (b - a + 1)), r').

(** [random.choice(seq)] *)
Definition choice {A : Type} (d : A) (l : list A) (r : rng) : A * rng :=
  let (u, r') := random r in
  (nth (Z.to_nat (Qfloor (u * inject_Z (Z.of_nat (length l))))) l d, r').

(** The contract of [random.random()]: every draw lies in [[0, 1)]. *)
Definition well_formed (r : rng) : Prop :=
  forall n, (0 <= r n)%Q /\ (r n < 1)%Q.

End Random.

(* ================================================================== *)
(** * [MockInternalDataProvider]: the simulated facility state *)
(* ================================================================== *)

Module Sim.

(** The per-facility dictionary stored in [facility_states]. *)
Record facility_state := mk_state {
  staffing_level : Z;
  productivity_rate : Q;
  equipment_status : string;
  delivery_timeliness : Q;
  downtime_minutes : Z;
  equipment_change_cooldown : Q;
  staffing_trend : Q;
  productivity_trend : Q
}.

Definition set_staffing_level (v : Z) (s : facility_state) :=
  mk_state v (productivity_rate s) (equipment_status s) (delivery_timeliness s)
    (downtime_minutes s) (equipment_change_cooldown s) (staffing_trend s)
    (productivity_trend s).
Definition set_productivity_rate (v : Q) (s : facility_state) :=
  mk_state (staffing_level s) v (equipment_status s) (delivery_timeliness s)
    (downtime_minutes s) (equipment_change_cooldown s) (staffing_trend s)
    (productivity_trend s).
Definition set_equipment_status (v : string) (s : facility_state) :=
  mk_state (staffing_level s) (productivity_rate s) v (delivery_timeliness s)
    (downtime_minutes s) (equipment_change_cooldown s) (staffing_trend s)
    (productivity_trend s).
Definition set_delivery_timeliness (v : Q) (s : facility_state) :=
  mk_state (staffing_level s) (productivity_rate s) (equipment_status s) v
    (downtime_minutes s) (equipment_change_cooldown s) (staffing_trend s)
    (productivity_trend s).
Definition set_downtime_minutes (v : Z) (s : facility_state) :=
  mk_state (staffing_level s) (productivity_rate s) (equipment_status s)
    (delivery_timeliness s) v (equipment_change_cooldown s) (staffing_trend s)
    (productivity_trend s).
Definition set_equipment_change_cooldown (v : Q) (s : facility_state) :=
  mk_state (staffing_level s) (productivity_rate s) (equipment_status s)
    (delivery_timeliness s) (downtime_minutes s) v (staffing_trend s)
    (productivity_trend s).
Definition set_staffing_trend (v : Q) (s : facility_state) :=
  mk_state (staffing_level s) (productivity_rate s) (equipment_status s)
    (delivery_timeliness s) (downtime_minutes s) (equipment_change_cooldown s) v
    (productivity_trend s).

Definition is_hub (facility_type : string) : bool :=
  String.eqb facility_type "hub".

(** [_initialize_facility_state] *)
Definition _initialize_facility_state (facility_type : string) (r : rng)
  : facility_state * rng :=
  let '(base_staffing, base_productivity, base_timeliness, r3) :=
    if is_hub facility_type then
      let (s, r1) := Random.randint 150 250 r in
      let (p, r2) := Random.uniform 0.85 1.05 r1 in
      let (t, r3) := Random.uniform 90.0 96.0 r2 in
      (s, p, t, r3)
    else
      let (s, r1) := Random.randint 15 25 r in
      let (p, r2) := Random.uniform 0.88 1.02 r1 in
      let (t, r3) := Random.uniform 92.0 98.0 r2 in
      (s, p, t, r3) in
  let equipment_statuses :=
    ["Operational"; "Operational"; "Operational"; "Maintenance"]%string in
  let (equipment_status, r4) :=
    Random.choice "Operational"%string equipment_statuses r3 in
  ({| staffing_level := base_staffing;
      productivity_rate := base_productivity;
      equipment_status := equipment_status;
      delivery_timeliness := base_timeliness;
      downtime_minutes := 0;
      equipment_change_cooldown := 0;
      staffing_trend := 0;
      productivity_trend := 0 |}, r4).

(** [_update_equipment_status] *)
Definition _update_equipment_status (state : facility_state)
    (hours_elapsed : Q) (r : rng) : facility_state * rng :=
  let current_status := equipment_status state in
  if String.eqb current_status "Operational" then
    let (u1, r1) := Random.random r in
    if Py.ltb u1 (0.001 * hours_elapsed) then
      let (u2, r2) := Random.random r1 in
      if Py.ltb u2 0.7 then
        let (c, r3) := Random.uniform 4 12 r2 in
        (set_equipment_change_cooldown c
           (set_equipment_status "Maintenance" state), r3)
      else
        let (c, r3) := Random.uniform 1 6 r2 in
        (set_equipment_change_cooldown c
           (set_equipment_status "Down" state), r3)
    else (state, r1)
  else if String.eqb current_status "Maintenance" then
    let (u1, r1) := Random.random r in
    if Py.ltb u1 (0.15 * hours_elapsed) then
      let (c, r2) := Random.uniform 24 72 r1 in
      (set_equipment_change_cooldown c
         (set_equipment_status "Operational" state), r2)
    else (state, r1)
  else if String.eqb current_status "Down" then
    let (u1, r1) := Random.random r in
    if Py.ltb u1 (0.25 * hours_elapsed) then
      let (u2, r2) := Random.random r1 in
      if Py.ltb u2 0.8 then
        let (c, r3) := Random.uniform 12 48 r2 in
        (set_equipment_change_cooldown c
           (set_equipment_status "Operational" state), r3)
      else
        let (c, r3) := Random.uniform 2 8 r2 in
        (set_equipment_change_cooldown c
           (set_equipment_status "Maintenance" state), r3)
    else (state, r1)
  else (state, r).

(** [_update_staffing_level].  The local [trend] is read before the
    trend is re-drawn, and it is this old value that drives the change. *)
Definition _update_staffing_level (state : facility_state)
    (facility_type : string) (hours_elapsed : Q) (r : rng)
  : facility_state * rng :=
  let current_staffing := staffing_level state in
  let trend := staffing_trend state in
  let (state1, r1) :=
    if Py.geb hours_elapsed 8 then
      let (u, r1) := Random.random r in
      if Py.ltb u 0.05 then
        if is_hub facility_type then
          let (trend_change, r2) := Random.uniform (-2) 2 r1 in
          (set_staffing_trend (Py.max (-5) (Py.min 5 (trend + trend_change))) state, r2)
        else
          let (trend_change, r2) := Random.uniform (-0.5) 0.5 r1 in
          (set_staffing_trend (Py.max (-2) (Py.min 2 (trend + trend_change))) state, r2)
      else (state, r1)
    else (state, r) in
  if negb (Qeq_bool trend 0) then
    let staffing_change := (trend * hours_elapsed)%Q in
    let new_staffing := (inject_Z current_staffing + staffing_change)%Q in
    let new_staffing :=
      if is_hub facility_type
      then Py.max 80 (Py.min 350 new_staffing)
      else Py.max 8 (Py.min 35 new_staffing) in
    let state2 := set_staffing_level (Py.int new_staffing) state1 in
    (set_staffing_trend (staffing_trend state2 * 0.95) state2, r1)
  else (state1, r1).

(** The lookup tables of [_update_productivity] and [_update_timeliness],
    with the default of [dict.get]. *)
Definition equipment_multiplier (status : string) : Q :=
  if String.eqb status "Operational" then 1.0
  else if String.eqb status "Maintenance" then 0.7
  else if String.eqb status "Down" then 0.1
  else if String.eqb status "Reduced Capacity" then 0.6
  else 1.0.

Definition equipment_factor (status : string) : Q :=
  if String.eqb status "Operational" then 1.0
  else if String.eqb status "Maintenance" then 0.85
  else if String.eqb status "Down" then 0.3
  else if String.eqb status "Reduced Capacity" then 0.75
  else 1.0.

Definition staffing_multiplier (staffing_ratio : Q) : Q :=
  (if Py.ltb staffing_ratio 0.7 then 0.6 + staffing_ratio * 0.4
   else if Py.ltb 1.3 staffing_ratio then 1.0 - (staffing_ratio - 1.3) * 0.3
   else 0.9 + staffing_ratio * 0.1)%Q.

(** [target_productivity] as computed inside [_update_productivity]. *)
Definition target_productivity (state : facility_state) (facility_type : string) : Q :=
  let optimal_staffing := (if is_hub facility_type then 200 else 20)%Q in
  let staffing_ratio := (inject_Z (staffing_level state) / optimal_staffing)%Q in
  let base_productivity := (if is_hub facility_type then 0.95 else 0.92)%Q in
  (base_productivity * equipment_multiplier (equipment_status state)
     * staffing_multiplier staffing_ratio)%Q.

(** [_update_productivity] *)
Definition _update_productivity (state : facility_state)
    (facility_type : string) (hours_elapsed : Q) : facility_state :=
  let current_productivity := productivity_rate state in
  let target_productivity := target_productivity state facility_type in
  let change_rate := (0.1 * hours_elapsed)%Q in
  let productivity_gap := (target_productivity - current_productivity)%Q in
  let new_productivity := (current_productivity + productivity_gap * change_rate)%Q in
  set_productivity_rate (Py.max 0.1 (Py.min 1.3 new_productivity)) state.

(** [target_timeliness] as computed inside [_update_timeliness]. *)
Definition target_timeliness (state : facility_state) (facility_type : string) : Q :=
  let productivity_factor := Py.min 1.0 (productivity_rate state) in
  let base_timeliness := (if is_hub facility_type then 96.0 else 94.0)%Q in
  (base_timeliness * productivity_factor * equipment_factor (equipment_status state))%Q.

(** [_update_timeliness] *)
Definition _update_timeliness (state : facility_state)
    (facility_type : string) (hours_elapsed : Q) : facility_state :=
  let current_timeliness := delivery_timeliness state in
  let target_timeliness := target_timeliness state facility_type in
  let change_rate := (0.2 * hours_elapsed)%Q in
  let timeliness_gap := (target_timeliness - current_timeliness)%Q in
  let new_timeliness := (current_timeliness + timeliness_gap * change_rate)%Q in
  set_delivery_timeliness (Py.max 60.0 (Py.min 99.9 new_timeliness)) state.

(** [_update_downtime]: [int] truncates the float product. *)
Definition _update_downtime (state : facility_state) (hours_elapsed : Q)
  : facility_state :=
  if String.eqb (equipment_status state) "Down" then
    let d := downtime_minutes state + Py.int (Float.mul hours_elapsed 60) in
    set_downtime_minutes (Z.min 480 d) state
  else if String.eqb (equipment_status state) "Operational" then
    let reduction := Py.int (Float.mul hours_elapsed 30) in
    set_downtime_minutes (Z.max 0 (downtime_minutes state - reduction)) state
  else state.

(** The first two statements of [_update_facility_state]: the cool-down
    is reduced, and only then tested. *)
Definition reduce_cooldown (state : facility_state) (hours_elapsed : Q) :=
  set_equipment_change_cooldown
    (Py.max 0 (equipment_change_cooldown state - hours_elapsed)) state.

Definition equipment_phase (state : facility_state) (hours_elapsed : Q) (r : rng)
  : facility_state * rng :=
  let state := reduce_cooldown state hours_elapsed in
  if Qle_bool (equipment_change_cooldown state) 0
  then _update_equipment_status state hours_elapsed r
  else (state, r).

(** [_update_facility_state], on the dictionary of one facility. *)
Definition _update_facility_state (state : facility_state)
    (facility_type : string) (hours_elapsed : Q) (r : rng)
  : facility_state * rng :=
  let (state, r) := equipment_phase state hours_elapsed r in
  let (state, r) := _update_staffing_level state facility_type hours_elapsed r in
  let state := _update_productivity state facility_type hours_elapsed in
  let state := _update_timeliness state facility_type hours_elapsed in
  let state := _update_downtime state hours_elapsed in
  (state, r).

(** [FacilityMetrics], the sample handed to the aggregator;
    [timestamp] is a string of whole seconds. *)
Module Metrics.
Record t := mk {
  facility_id : Z;
  staffing_level : Z;
  productivity_rate : Q;
  equipment_status : string;
  downtime_minutes : Z;
  delivery_timeliness : Q;
  timestamp : Z
}.
End Metrics.

(** The provider object: [failure_rate], [facility_states] and
    [last_update_time].  Times are seconds on the wall clock. *)
Record provider := mk_provider {
  failure_rate : Q;
  facility_states : gmap Z facility_state;
  last_update_time : gmap Z Q
}.

(** [MockInternalDataProvider.__init__] *)
Definition init : provider :=
  {| failure_rate := 0.05; facility_states := ∅; last_update_time := ∅ |}.

(** [get_facility_metrics].  [current_time] is [datetime.now()];
    [total_seconds()] and the division by 3600 are float operations, and
    [strftime] drops the fraction of the second. *)
Definition get_facility_metrics (p : provider) (facility_id : Z)
    (facility_type : string) (current_time : Q) (r : rng)
  : option Metrics.t * provider * rng :=
  let (u, r) := Random.random r in
  if Py.ltb u (failure_rate p) then (None, p, r)
  else
    let '(state, r) :=
      match facility_states p !! facility_id with
      | Some s => (s, r)
      | None => _initialize_facility_state facility_type r
      end in
    let last_update :=
      default (current_time - 3600)%Q (last_update_time p !! facility_id) in
    let hours_since_update := Float.div (current_time - last_update) 3600 in
    let (state, r) :=
      _update_facility_state state facility_type hours_since_update r in
    let p' := {| failure_rate := failure_rate p;
                 facility_states := <[facility_id := state]> (facility_states p);
                 last_update_time := <[facility_id := current_time]> (last_update_time p) |} in
    let minutes_offset := (facility_id * 17) mod 60 in
    let timestamp := Qfloor (current_time - inject_Z (60 * minutes_offset)) in
    (Some (Metrics.mk facility_id (staffing_level state) (productivity_rate state)
             (equipment_status state) (downtime_minutes state)
             (delivery_timeliness state) timestamp),
     p', r).

(** ** Documented ranges of the bounded fields *)

Definition staffing_bounds (facility_type : string) : Z * Z :=
  if is_hub facility_type then (80, 350) else (8, 35).

Definition in_bounds (facility_type : string) (s : facility_state) : Prop :=
  fst (staffing_bounds facility_type) <= staffing_level s
    <= snd (staffing_bounds facility_type)
  /\ (0.1 <= productivity_rate s /\ productivity_rate s <= 1.3)%Q
  /\ (60.0 <= delivery_timeliness s /\ delivery_timeliness s <= 99.9)%Q
  /\ 0 <= downtime_minutes s <= 480.

(** The state on which [_update_productivity] runs inside
    [_update_facility_state]: equipment and staffing are already
    updated. *)
Definition before_productivity (state : facility_state)
    (facility_type : string) (hours_elapsed : Q) (r : rng) : facility_state :=
  let (state, r) := equipment_phase state hours_elapsed r in
  fst (_update_staffing_level state facility_type hours_elapsed r).

(** The relaxation step in the words of the specification: the value
    moves by the fraction [min(1, rate * hours)] of the gap and is then
    clamped to [[lo, hi]]. *)
Definition spec_relax (lo hi rate current target hours_elapsed : Q) : Q :=
  Py.max lo
    (Py.min hi
       (current + (target - current) * Py.min 1 (rate * hours_elapsed))).

(** The downtime of a facility that is Down, in the words of the
    specification: [60 * hours] more minutes, at most 480. *)
Definition spec_downtime_down (downtime : Z) (hours_elapsed : Q) : Q :=
  Py.min 480 (inject_Z downtime + 60 * hours_elapsed).

(** A run of updates, one elapsed duration after the other. *)
Fixpoint run_updates (facility_type : string) (hours : list Q)
    (s : facility_state) (r : rng) : facility_state * rng :=
  match hours with
  | [] => (s, r)
  | h :: hs =>
      let (s', r') := _update_facility_state s facility_type h r in
      run_updates facility_type hs s' r'
  end.

End Sim.

(* ================================================================== *)
(** * Exceptions *)
(* ================================================================== *)

(** The errors of [sqlite3]: [OperationalError] and every other one. *)
Inductive sqlite_error :=
| OperationalError (msg : string)
| DatabaseError (msg : string).

Inductive exn :=
| Sqlite (e : sqlite_error)
| ZeroDivisionError
| ValueError (msg : string).

(** A call either returns a value or raises. *)
Inductive outcome (A : Type) :=
| Return (v : A)
| Raise (e : exn).
Arguments Return {A} v.
Arguments Raise {A} e.

Definition raised {A : Type} (o : outcome A) : bool :=
  match o with Return _ => false | Raise _ => true end.

Module Str.

(** [str.lower()], on the ASCII letters. *)
Definition lower_ascii (c : ascii) : ascii :=
  let n := nat_of_ascii c in
  if ((65 <=? n) && (n <=? 90))%nat then ascii_of_nat (n + 32) else c.

Fixpoint lower (s : string) : string :=
  match s with
  | EmptyString => EmptyString
  | String c t => String (lower_ascii c) (lower t)
  end.

(** [needle in hay] *)
Fixpoint contains (needle hay : string) : bool :=
  String.prefix needle hay ||
  match hay with
  | EmptyString => false
  | String _ t => contains needle t
  end.

(** [f"{q:.1%}"]: the float is multiplied by 100, a float product,
    and the product is printed with one decimal, correctly rounded from
    its exact value, ties to even. *)
Definition percent1 (q : Q) : string :=
  let t := Float.rne (Qabs (Float.mul q 100) * 10) in
  ((if Py.ltb q 0 then "-" else "") +:+ pretty (t / 10) +:+ "."
     +:+ pretty (t mod 10) +:+ "%")%string.

End Str.

(* ================================================================== *)
(** * [retry_db_operation] *)
(* ================================================================== *)

Module Retry.

(** What the wrapper does besides returning: it invokes the operation
    and it sleeps. *)
Inductive event :=
| Invoke (attempt : Z)
| Sleep (delay : Q).

Definition is_invoke (e : event) : bool :=
  match e with Invoke _ => true | Sleep _ => false end.
Definition is_sleep (e : event) : bool :=
  match e with Invoke _ => false | Sleep _ => true end.

Definition default_max_retries : Z := 3.
Definition default_base_delay : Q := 0.1.

Section Wrapper.
(** The operation is a closure over some state [W]. *)
Context {W A : Type}.

Definition operation := W -> outcome A * W.

(** [value] is [Return (Some v)] when an invocation returned [v] (which
    may itself be Python's [None]), [Raise e] when one raised [e], and
    [Return None] when the function falls off the end of its loop. *)
Record result := mk_result {
  value : outcome (option A);
  final : W;
  rand : rng;
  trace : list event
}.

Definition after (evs : list event) (res : result) : result :=
  mk_result (value res) (final res) (rand res) (evs ++ trace res).

(** ["database is locked" in str(e).lower()] *)
Definition is_locked (msg : string) : bool :=
  Str.contains "database is locked" (Str.lower msg).

(** The body of [for attempt in range(max_retries)], over the
    attempts still to come. *)
Fixpoint loop (operation_func : operation) (max_retries : Z) (base_delay : Q)
    (attempts : list Z) (r : rng) (w : W) : result :=
  match attempts with
  | [] => mk_result (Return None) w r []
  | attempt :: rest =>
      match operation_func w with
      | (Return v, w') => mk_result (Return (Some v)) w' r [Invoke attempt]
      | (Raise (Sqlite (OperationalError msg)), w') =>
          if is_locked msg && (attempt <? max_retries - 1) then
            let (jitter, r') := Random.uniform 0 0.1 r in
            let delay := (base_delay * 2 ^ attempt + jitter)%Q in
            if Py.ltb delay 0 then
              (* [time.sleep] refuses a negative length *)
              mk_result (Raise (ValueError "sleep length must be non-negative"))
                w' r' [Invoke attempt]
            else
              after [Invoke attempt; Sleep delay]
                (loop operation_func max_retries base_delay rest r' w')
          else
            mk_result (Raise (Sqlite (OperationalError msg))) w' r [Invoke attempt]
      | (Raise e, w') => mk_result (Raise e) w' r [Invoke attempt]
      end
  end.

(** The one condition that is retried: an [OperationalError] that
    says the database is locked. *)
Definition transient (e : exn) : bool :=
  match e with
  | Sqlite (OperationalError msg) => is_locked msg
  | _ => false
  end.

Definition range (n : Z) : list Z := map Z.of_nat (seq 0 (Z.to_nat n)).

Definition retry_db_operation (operation_func : operation)
    (max_retries : Z) (base_delay : Q) (r : rng) (w : W) : result :=
  loop operation_func max_retries base_delay (range max_retries) r w.

Definition invocations (res : result) : nat :=
  length (List.filter is_invoke (trace res)).
Definition delays (res : result) : nat :=
  length (List.filter is_sleep (trace res)).

End Wrapper.

Arguments operation : clear implicits.
Arguments result : clear implicits.

End Retry.

(* ================================================================== *)
(** * The database as a world *)
(* ================================================================== *)

(** A row of the [facilities] table ([created_at], which nothing reads,
    is left out). *)
Module FacilityRow.
Record t := mk {
  id : Z;
  name : string;
  location : string;
  facility_type : string;
  status : string;
  max_capacity : Z;
  current_load : Z;
  staff_count : Z
}.
End FacilityRow.

(** A row of [GET_ALL_ACTIVE_FACILITIES_WITH_METRICS], with the columns
    the aggregator reads: those of the facility, and those of its latest
    metrics, which are NULL for a facility that has not reported yet. *)
Module Facility.
Record t := mk {
  id : Z;
  name : string;
  facility_type : string;
  max_capacity : Z;
  current_load : Z;
  productivity_rate : option Q;
  equipment_status : option string
}.
End Facility.

(** A row of the [alerts] table. *)
Module Alert.
Record t := mk {
  id : Z;
  facility_id : Z;
  alert_type : string;
  message : string;
  severity : string;
  resolved : bool;
  created_at : Z
}.

Definition resolve (a : t) : t :=
  mk (id a) (facility_id a) (alert_type a) (message a) (severity a) true
    (created_at a).
End Alert.

(** A row of the [facility_metrics] table; [timestamp] is the column
    default [CURRENT_TIMESTAMP], not the timestamp of the sample.  Every
    row is written by [INSERT_FACILITY_METRICS] from a sample, so no
    column of it is NULL. *)
Module MetricsRow.
Record t := mk {
  facility_id : Z;
  staffing_level : Z;
  productivity_rate : Q;
  equipment_status : string;
  downtime_minutes : Z;
  delivery_timeliness : Q;
  timestamp : Z
}.

Definition of_sample (m : Sim.Metrics.t) (now : Z) : t :=
  mk (Sim.Metrics.facility_id m) (Sim.Metrics.staffing_level m)
    (Sim.Metrics.productivity_rate m) (Sim.Metrics.equipment_status m)
    (Sim.Metrics.downtime_minutes m) (Sim.Metrics.delivery_timeliness m) now.
End MetricsRow.

(** Calls received by the metrics sink, kept as ghost state so that the
    order and number of calls can be stated. *)
Inductive sink_call :=
| BatchInsert (metrics_list : list Sim.Metrics.t)
| InsertOne (metrics : Sim.Metrics.t).

Module Store.

(** Everything outside the aggregator's own variables.  The tables
    hold their rows in rowid order.  [clock] counts seconds.  [env] is
    the environment's script: for each transaction to come, the seconds
    that pass before it runs and whether it fails. *)
Record world := mk_world {
  facilities : list FacilityRow.t;
  facility_metrics : list MetricsRow.t;
  alerts : list Alert.t;
  clock : Z;
  env : nat -> nat * option sqlite_error;
  rand : rng;
  internal_data : Sim.provider;
  calls : list sink_call
}.

Definition set_facility_metrics (v : list MetricsRow.t) (w : world) :=
  mk_world (facilities w) v (alerts w) (clock w) (env w) (rand w)
    (internal_data w) (calls w).
Definition set_alerts (v : list Alert.t) (w : world) :=
  mk_world (facilities w) (facility_metrics w) v (clock w) (env w) (rand w)
    (internal_data w) (calls w).
Definition set_rand (v : rng) (w : world) :=
  mk_world (facilities w) (facility_metrics w) (alerts w) (clock w) (env w) v
    (internal_data w) (calls w).
Definition set_internal_data (v : Sim.provider) (w : world) :=
  mk_world (facilities w) (facility_metrics w) (alerts w) (clock w) (env w)
    (rand w) v (calls w).
Definition record_call (c : sink_call) (w : world) :=
  mk_world (facilities w) (facility_metrics w) (alerts w) (clock w) (env w)
    (rand w) (internal_data w) (calls w ++ [c]).

(** ** The monad of the storage layer: state and exceptions *)

Definition M (A : Type) := world -> outcome A * world.

Definition ret {A : Type} (v : A) : M A := fun w => (Return v, w).
Definition raise {A : Type} (e : exn) : M A := fun w => (Raise e, w).
Definition bind {A B : Type} (m : M A) (k : A -> M B) : M B :=
  fun w =>
    match m w with
    | (Return v, w') => k v w'
    | (Raise e, w') => (Raise e, w')
    end.

(** [try: m  except Exception as e: handler e] *)
Definition try {A : Type} (m : M A) (handler : exn -> M A) : M A :=
  fun w =>
    match m w with
    | (Return v, w') => (Return v, w')
    | (Raise e, w') => handler e w'
    end.

(** [for x in l: body x] *)
Fixpoint for_each {X : Type} (l : list X) (body : X -> M unit) : M unit :=
  match l with
  | [] => ret tt
  | x :: rest => bind (body x) (fun _ => for_each rest body)
  end.

(** One transaction, from [get_db_connection()] to [conn.close()]: the
    clock moves on, and the transaction either fails, leaving the tables
    as they were, or takes effect as a whole. *)
Definition transaction {A : Type} (effect : world -> A * world) : M A :=
  fun w =>
    let (dt, fault) := env w O in
    let w1 := mk_world (facilities w) (facility_metrics w) (alerts w)
                (clock w + Z.of_nat dt) (fun n => env w (S n)) (rand w)
                (internal_data w) (calls w) in
    match fault with
    | Some e => (Raise (Sqlite e), w1)
    | None => let (v, w2) := effect w1 in (Return v, w2)
    end.

(** Running an operation under [retry_db_operation] with the default
    arguments; the caller drops the value. *)
Definition with_retry (operation_func : M unit) : M unit :=
  fun w =>
    let res := Retry.retry_db_operation operation_func
                 Retry.default_max_retries Retry.default_base_delay (rand w) w in
    (match Retry.value res with
     | Return _ => Return tt
     | Raise e => Raise e
     end,
     set_rand (Retry.rand res) (Retry.final res)).


(** The world as a transaction finds it: the clock has moved on and one
    entry of the script is used up. *)
Definition tick (w : world) : world :=
  mk_world (facilities w) (facility_metrics w) (alerts w)
    (clock w + Z.of_nat (fst (env w O))) (fun n => env w (S n)) (rand w)
    (internal_data w) (calls w).

(** Partial correctness of a computation of [M]. *)
Definition hoare {A : Type} (P : world -> Prop) (m : M A)
    (Q : outcome A -> world -> Prop) : Prop :=
  forall w, P w -> Q (fst (m w)) (snd (m w)).

(** The outcome of [m] is never a division by zero. *)
Definition no_zero_division {A : Type} (m : M A) : Prop :=
  forall w, fst (m w) <> Raise ZeroDivisionError.

(** [m] maintains [I], however it ends. *)
Definition preserves {A : Type} (I : world -> Prop) (m : M A) : Prop :=
  hoare I m (fun _ w => I w).

End Store.

Declare Scope store_scope.
Delimit Scope store_scope with store.
Notation "x <- m ;; k" := (Store.bind m (fun x => k))
  (at level 100, m at level 90, k at level 200, right associativity) : store_scope.
Notation "m ;; k" := (Store.bind m (fun _ => k))
  (at level 100, k at level 200, right associativity) : store_scope.

Module FacilityDB.
Import Store.

(** [WHERE f.status = 'active'] *)
Definition is_active (f : FacilityRow.t) : bool :=
  String.eqb (FacilityRow.status f) "active".

(** [SELECT id FROM facility_metrics fm2 WHERE fm2.facility_id = f.id
    ORDER BY timestamp DESC LIMIT 1]: the row of the facility with the
    greatest timestamp.  Among rows of one timestamp SQL leaves the
    choice open; the one stored first is taken. *)
Definition latest_metrics (facility_id : Z) (rows : list MetricsRow.t)
  : option MetricsRow.t :=
  fold_left
    (fun best row =>
       if MetricsRow.facility_id row =? facility_id then
         match best with
         | Some b =>
             if MetricsRow.timestamp b <? MetricsRow.timestamp row
             then Some row else Some b
         | None => Some row
         end
       else best)
    rows None.

(** The [LEFT JOIN] with its [WHERE] clause: a facility comes with its
    latest metrics row, or with NULLs when it has none. *)
Definition joined (rows : list MetricsRow.t) (f : FacilityRow.t) : Facility.t :=
  let fm := latest_metrics (FacilityRow.id f) rows in
  Facility.mk (FacilityRow.id f) (FacilityRow.name f) (FacilityRow.facility_type f)
    (FacilityRow.max_capacity f) (FacilityRow.current_load f)
    (option_map MetricsRow.productivity_rate fm)
    (option_map MetricsRow.equipment_status fm).

(** [ORDER BY f.name], bytewise.  Among rows of one name SQL leaves the
    order open; they keep the order of the table. *)
Fixpoint insert_by_name (f : Facility.t) (sorted : list Facility.t)
  : list Facility.t :=
  match sorted with
  | [] => [f]
  | g :: rest =>
      if String.leb (Facility.name f) (Facility.name g)
      then f :: sorted
      else g :: insert_by_name f rest
  end.

Definition order_by_name (l : list Facility.t) : list Facility.t :=
  fold_right insert_by_name [] l.

(** The result of [GET_ALL_ACTIVE_FACILITIES_WITH_METRICS]. *)
Definition rows (w : world) : list Facility.t :=
  order_by_name
    (map (joined (facility_metrics w)) (List.filter is_active (facilities w))).

(** [FacilityDB.get_all_active_facilities] *)
Definition get_all_active_facilities : M (list Facility.t) :=
  transaction (fun w => (rows w, w)).

End FacilityDB.

Module MetricsDB.
Import Store.

(** The closure [_insert] of [insert_metrics]. *)
Definition _insert (metrics : Sim.Metrics.t) : M unit :=
  transaction (fun w =>
    (tt, set_facility_metrics
           (facility_metrics w ++ [MetricsRow.of_sample metrics (clock w)]) w)).

(** [MetricsDB.insert_metrics] *)
Definition insert_metrics (metrics : Sim.Metrics.t) : M unit :=
  fun w => with_retry (_insert metrics) (record_call (InsertOne metrics) w).

End MetricsDB.

Module AlertsDB.
Import Store.

(** [AUTOINCREMENT]: one more than the largest id in use. *)
Definition next_id (l : list Alert.t) : Z :=
  1 + fold_right Z.max 0 (map Alert.id l).

(** The closure [_insert] of [insert_alert]; [resolved] and
    [created_at] take their column defaults. *)
Definition _insert (facility_id : Z) (alert_type message severity : string)
  : M unit :=
  transaction (fun w =>
    (tt, set_alerts
           (alerts w ++ [Alert.mk (next_id (alerts w)) facility_id alert_type
                           message severity false (clock w)]) w)).

(** [AlertsDB.insert_alert] *)
Definition insert_alert (facility_id : Z) (alert_type message severity : string)
  : M unit :=
  with_retry (_insert facility_id alert_type message severity).

(** [AlertsDB.resolve_alert] *)
Definition resolve_alert (alert_id : Z) : M unit :=
  transaction (fun w =>
    (tt, set_alerts
           (map (fun a => if Alert.id a =? alert_id then Alert.resolve a else a)
              (alerts w)) w)).

(** The [WHERE] clause of [CHECK_EXISTING_ALERT], at time [now]. *)
Definition matches_existing (facility_id : Z) (alert_type : string)
    (hours : Z) (now : Z) (a : Alert.t) : bool :=
  (Alert.facility_id a =? facility_id)
  && String.eqb (Alert.alert_type a) alert_type
  && negb (Alert.resolved a)
  && (now - hours * 3600 <? Alert.created_at a).

(** [AlertsDB.check_existing_alert] *)
Definition check_existing_alert (facility_id : Z) (alert_type : string)
    (hours : Z) : M bool :=
  transaction (fun w =>
    (existsb (matches_existing facility_id alert_type hours (clock w)) (alerts w),
     w)).

Definition default_hours : Z := 1.

End AlertsDB.

Module DataService.
Import Store.

(** [DataService.get_facility_metrics], on the global provider
    [internal_data]; [datetime.now()] reads the clock. *)
Definition get_facility_metrics (facility_id : Z) (facility_type : string)
  : M (option Sim.Metrics.t) :=
  fun w =>
    let '(metrics, p, r) :=
      Sim.get_facility_metrics (internal_data w) facility_id facility_type
        (inject_Z (clock w)) (rand w) in
    (Return metrics, set_rand r (set_internal_data p w)).

End DataService.

(* ================================================================== *)
(** * [DataAggregator] *)
(* ================================================================== *)

Module DataAggregator.
Import Store.
Local Open Scope store_scope.

(** ** Metrics collection *)

(** The first loop of [_collect_facility_metrics]. *)
Fixpoint collect (facilities : list Facility.t)
    (metrics_batch : list Sim.Metrics.t) : M (list Sim.Metrics.t) :=
  match facilities with
  | [] => ret metrics_batch
  | facility :: rest =>
      metrics <- try (DataService.get_facility_metrics (Facility.id facility)
                        (Facility.facility_type facility))
                     (fun _ => ret None) ;;
      collect rest
        match metrics with
        | Some m => metrics_batch ++ [m]
        | None => metrics_batch
        end
  end.

(** One [conn.execute(INSERT_FACILITY_METRICS, ...)] of the batch: a
    step of its own in the environment's script, whose row takes the
    [CURRENT_TIMESTAMP] of that statement. *)
Definition insert_statement (metrics : Sim.Metrics.t) : M unit :=
  transaction (fun w =>
    (tt, set_facility_metrics
           (facility_metrics w ++ [MetricsRow.of_sample metrics (clock w)]) w)).

(** The closure [_batch_insert]: one statement per sample, then
    [commit]; when a statement raises, the connection is closed without
    a commit and the rows of the batch are gone. *)
Definition _batch_insert (metrics_list : list Sim.Metrics.t) : M unit :=
  fun w =>
    match for_each metrics_list insert_statement w with
    | (Return v, w') => (Return v, w')
    | (Raise e, w') => (Raise e, set_facility_metrics (facility_metrics w) w')
    end.

(** [_batch_insert_metrics] *)
Definition _batch_insert_metrics (metrics_list : list Sim.Metrics.t) : M unit :=
  fun w => with_retry (_batch_insert metrics_list)
             (record_call (BatchInsert metrics_list) w).

(** The fallback loop: one [insert_metrics] per sample, each under its
    own [try]. *)
Definition individual_inserts (metrics_batch : list Sim.Metrics.t) : M unit :=
  for_each metrics_batch
    (fun metrics => try (MetricsDB.insert_metrics metrics) (fun _ => ret tt)).

(** The block under [if metrics_batch:]. *)
Definition insert_batch (metrics_batch : list Sim.Metrics.t) : M unit :=
  match metrics_batch with
  | [] => ret tt
  | _ => try (_batch_insert_metrics metrics_batch)
             (fun _ => individual_inserts metrics_batch)
  end.

(** [_collect_facility_metrics] *)
Definition _collect_facility_metrics : M unit :=
  facilities <- FacilityDB.get_all_active_facilities ;;
  metrics_batch <- collect facilities [] ;;
  insert_batch metrics_batch.

(** ** Alerts *)

(** [if not AlertsDB.check_existing_alert(..): AlertsDB.insert_alert(..)] *)
Definition open_unless_existing (facility_id : Z)
    (alert_type message severity : string) : M unit :=
  existing <- AlertsDB.check_existing_alert facility_id alert_type
                AlertsDB.default_hours ;;
  if negb existing
  then AlertsDB.insert_alert facility_id alert_type message severity
  else ret tt.

(** [equipment_status == s], where the column may be NULL. *)
Definition status_is (equipment_status : option string) (s : string) : bool :=
  match equipment_status with
  | Some x => String.eqb x s
  | None => false
  end.

Definition is_equipment_type (alert_type : string) : bool :=
  String.eqb alert_type "equipment_down"
  || String.eqb alert_type "equipment_maintenance".

(** [_resolve_equipment_alerts_for_facility]: the [UPDATE], inside a
    [try] that swallows every error. *)
Definition _resolve_equipment_alerts_for_facility (facility_id : Z) : M unit :=
  try
    (transaction (fun w =>
       (tt, set_alerts
              (map (fun a =>
                      if (Alert.facility_id a =? facility_id)
                         && is_equipment_type (Alert.alert_type a)
                         && negb (Alert.resolved a)
                      then Alert.resolve a else a)
                 (alerts w)) w)))
    (fun _ => ret tt).

Definition low_productivity_message (facility_name : string) (rate : Q) : string :=
  ("Facility " +:+ facility_name +:+ " productivity at " +:+ Str.percent1 rate)%string.

(** The loop body of [_check_productivity_alerts]. *)
Definition productivity_check (facility : Facility.t) : M unit :=
  match Facility.productivity_rate facility with
  | Some rate =>
      if Py.ltb rate 0.7 then
        open_unless_existing (Facility.id facility) "low_productivity"
          (low_productivity_message (Facility.name facility) rate) "warning"
      else ret tt
  | None => ret tt
  end.

(** [_check_productivity_alerts] *)
Definition _check_productivity_alerts : M unit :=
  facilities <- FacilityDB.get_all_active_facilities ;;
  for_each facilities productivity_check.

(** The loop body of [_check_equipment_alerts]. *)
Definition equipment_check (facility : Facility.t) : M unit :=
  let facility_id := Facility.id facility in
  let facility_name := Facility.name facility in
  let equipment_status := Facility.equipment_status facility in
  if status_is equipment_status "Down" then
    open_unless_existing facility_id "equipment_down"
      ("Equipment down at " +:+ facility_name)%string "critical"
  else if status_is equipment_status "Maintenance" then
    open_unless_existing facility_id "equipment_maintenance"
      ("Equipment under maintenance at " +:+ facility_name)%string "warning"
  else if status_is equipment_status "Operational" then
    _resolve_equipment_alerts_for_facility facility_id
  else ret tt.

(** [_check_equipment_alerts] *)
Definition _check_equipment_alerts : M unit :=
  facilities <- FacilityDB.get_all_active_facilities ;;
  for_each facilities equipment_check.

(** [a / b] on ints: true division, which raises on a zero divisor. *)
Definition true_div (a b : Z) : M Q :=
  if b =? 0 then raise ZeroDivisionError
  else ret (inject_Z a / inject_Z b)%Q.

(** The loop body of [_check_capacity_alerts]. *)
Definition capacity_check (facility : Facility.t) : M unit :=
  if 0 <? Facility.max_capacity facility then
    utilization <- true_div (Facility.current_load facility)
                     (Facility.max_capacity facility) ;;
    if Py.ltb 0.9 utilization then
      open_unless_existing (Facility.id facility) "high_capacity"
        ("Facility " +:+ Facility.name facility +:+ " at "
           +:+ Str.percent1 utilization +:+ " capacity")%string "warning"
    else ret tt
  else ret tt.

(** [_check_capacity_alerts] *)
Definition _check_capacity_alerts : M unit :=
  facilities <- FacilityDB.get_all_active_facilities ;;
  for_each facilities capacity_check.

(** [_check_for_alerts] *)
Definition _check_for_alerts : M unit :=
  try (_check_productivity_alerts ;;
       _check_equipment_alerts ;;
       _check_capacity_alerts)
      (fun _ => ret tt).

(** The loop body of [sync_alerts_with_current_data]. *)
Definition sync_facility (facility : Facility.t) : M unit :=
  let facility_id := Facility.id facility in
  let facility_name := Facility.name facility in
  let equipment_status := Facility.equipment_status facility in
  (if status_is equipment_status "Down" then
     open_unless_existing facility_id "equipment_down"
       ("Equipment down at " +:+ facility_name)%string "critical"
   else if status_is equipment_status "Maintenance" then
     open_unless_existing facility_id "equipment_maintenance"
       ("Equipment under maintenance at " +:+ facility_name)%string "warning"
   else if status_is equipment_status "Operational" then
     _resolve_equipment_alerts_for_facility facility_id
   else ret tt) ;;
  productivity_check facility.

(** [sync_alerts_with_current_data] *)
Definition sync_alerts_with_current_data : M unit :=
  try (facilities <- FacilityDB.get_all_active_facilities ;;
       for_each facilities sync_facility)
      (fun _ => ret tt).

(** One turn of [_collect_data_loop], without the sleeps. *)
Definition collect_data_once : M unit :=
  try (_collect_facility_metrics ;; _check_for_alerts) (fun _ => ret tt).

(** ** Properties of the alert ledger *)

Definition unresolved_of (facility_id : Z) (alert_type : string)
    (a : Alert.t) : bool :=
  (Alert.facility_id a =? facility_id)
  && String.eqb (Alert.alert_type a) alert_type
  && negb (Alert.resolved a).

(** The unresolved alerts of a (facility, type) pair. *)
Definition unresolved_alerts (facility_id : Z) (alert_type : string)
    (l : list Alert.t) : list Alert.t :=
  List.filter (unresolved_of facility_id alert_type) l.

(** ... and those created in the hour that ends at [t]. *)
Definition in_hour_before (t : Z) (a : Alert.t) : bool :=
  (t - 3600 <? Alert.created_at a) && (Alert.created_at a <=? t).

(** Two rows are apart when, if both are unresolved alerts of one
    (facility, type) pair, an hour or more lies between them. *)
Definition apart (a b : Alert.t) : Prop :=
  Alert.facility_id a = Alert.facility_id b ->
  Alert.alert_type a = Alert.alert_type b ->
  Alert.resolved a = false -> Alert.resolved b = false ->
  3600 <= Z.abs (Alert.created_at a - Alert.created_at b).

Fixpoint spaced (l : list Alert.t) : Prop :=
  match l with
  | [] => True
  | a :: rest => Forall (apart a) rest /\ spaced rest
  end.

(** The ledger invariant, as a property of worlds. *)
Definition ledger_spaced (w : world) : Prop := spaced (alerts w).

(** The ledger over time: the passes of the aggregator, a turn of its
    collection loop, the dashboard resolving an alert, and anything else,
    as long as it leaves the alerts table alone. *)
Inductive evolves : world -> world -> Prop :=
| evolves_refl (w : world) : evolves w w
| evolves_check (w w' : world) :
    evolves (snd (_check_for_alerts w)) w' -> evolves w w'
| evolves_sync (w w' : world) :
    evolves (snd (sync_alerts_with_current_data w)) w' -> evolves w w'
| evolves_turn (w w' : world) :
    evolves (snd (collect_data_once w)) w' -> evolves w w'
| evolves_resolve (alert_id : Z) (w w' : world) :
    evolves (snd (AlertsDB.resolve_alert alert_id w)) w' -> evolves w w'
| evolves_other (w w1 w' : world) :
    alerts w1 = alerts w -> evolves w1 w' -> evolves w w'.

(** A row-wise change that does nothing but resolve rows. *)
Definition only_resolves (f : Alert.t -> Alert.t) : Prop :=
  forall a, f a = a \/ f a = Alert.resolve a.

(** No unresolved alert of the pair is younger than an hour at [t]. *)
Definition quiet (facility_id : Z) (alert_type : string) (t : Z)
    (l : list Alert.t) : Prop :=
  Forall (fun a => unresolved_of facility_id alert_type a = true ->
                   Alert.created_at a <= t - 3600) l.

(** The equipment alerts of one facility. *)
Definition equipment_alerts (facility_id : Z) (l : list Alert.t) : list Alert.t :=
  List.filter (fun a => (Alert.facility_id a =? facility_id)
                   && is_equipment_type (Alert.alert_type a)) l.



End DataAggregator.

(* ================================================================== *)
(** * Weather and traffic: providers, fallback, recommendations *)
(* ================================================================== *)

Module Lookup.

(** [s in l], for a list of strings. *)
Definition member (s : string) (l : list string) : bool :=
  existsb (String.eqb s) l.

(** [table.get(key, default)], for a dict written as its items. *)
Fixpoint get {V : Type} (key : string) (table : list (string * V)) (default : V) : V :=
  match table with
  | [] => default
  | (k, v) :: rest => if String.eqb key k then v else get key rest default
  end.

(** [sep.join(l)] *)
Fixpoint join (sep : string) (l : list string) : string :=
  match l with
  | [] => ""
  | [s] => s
  | s :: rest => s +:+ sep +:+ join sep rest
  end.

End Lookup.

Module WeatherData.
Record t := mk {
  location : string;
  temperature : Q;
  conditions : string;
  wind_speed : Q;
  visibility : string;
  alerts : list string
}.
End WeatherData.

Module TrafficData.
Record t := mk {
  route_id : string;
  congestion_level : string;
  incidents : list string;
  estimated_delay_minutes : Z;
  alternative_routes : list string
}.
End TrafficData.

Module MockWeatherProvider.

Record t := mk {
  is_primary : bool;
  failure_rate : Q;
  provider_name : string
}.

(** [__init__] *)
Definition init (is_primary : bool) : t :=
  mk is_primary (if is_primary then 0.1 else 0.05)
    (if is_primary then "Primary Weather API" else "Secondary Weather API").

Definition conditions : list string :=
  ["Clear"; "Cloudy"; "Rain"; "Snow"; "Fog"; "Storm"]%string.

(** [get_weather_data] *)
Definition get_weather_data (self : t) (location : string) (r : rng)
  : option WeatherData.t * rng :=
  let (u, r) := Random.random r in
  if Py.ltb u (failure_rate self) then (None, r)
  else
    let (condition, r) := Random.choice "Clear"%string conditions r in
    let weather_alerts : list string := [] in
    let weather_alerts :=
      if Lookup.member condition ["Snow"; "Storm"]%string
      then weather_alerts ++ [("Severe weather warning: " +:+ condition)%string]
      else weather_alerts in
    let weather_alerts :=
      if String.eqb condition "Fog"
      then weather_alerts ++ ["Visibility reduced due to fog"%string]
      else weather_alerts in
    let (temperature, r) := Random.uniform (-10) 35 r in
    let (wind_speed, r) := Random.uniform 0 25 r in
    (Some (WeatherData.mk location temperature condition wind_speed
             (if negb (Lookup.member condition ["Fog"; "Storm"]%string)
              then "Good" else "Poor")
             weather_alerts),
     r).

End MockWeatherProvider.

Module MockTrafficProvider.

Record t := mk {
  is_primary : bool;
  failure_rate : Q;
  provider_name : string;
  highways : list (string * string)
}.

(** [__init__] *)
Definition init (is_primary : bool) : t :=
  mk is_primary (if is_primary then 0.15 else 0.08)
    (if is_primary then "Primary Highway API" else "Secondary Highway API")
    [("I-80 Chicago↔Denver", "I-80 Chicago → Denver Corridor");
     ("I-75 Chicago↔Atlanta", "I-75 Chicago → Atlanta Corridor");
     ("I-10 Phoenix↔Miami", "I-10 Phoenix → Miami Corridor")]%string.

Definition route_specific_incidents : list (string * list string) :=
  [("I-80 Chicago↔Denver",
    ["Winter weather closure near Des Moines";
     "Bridge construction in Nebraska - single lane";
     "High wind restrictions for high-profile vehicles";
     "Oversize load convoy - 30 min delays"]);
   ("I-75 Chicago↔Atlanta",
    ["Construction in Kentucky - lane restrictions";
     "Fog conditions in Tennessee valleys";
     "Multi-vehicle accident near Cincinnati";
     "Road work in Georgia - expect delays"]);
   ("I-10 Phoenix↔Miami",
    ["Dust storm warnings in Arizona";
     "Hurricane evacuation route - heavy traffic";
     "Bridge maintenance in Louisiana";
     "Flooding concerns in Texas panhandle"])]%string.

Definition default_route_incidents : list string :=
  ["Construction zone delays";
   "Weather-related restrictions";
   "Accident with lane closures"]%string.

Definition minor_incidents : list string :=
  ["Lane restrictions - maintain speed";
   "Temporary speed reduction";
   "Shoulder work - no truck restrictions"]%string.

Definition corridor_alternatives : list (string * list string) :=
  [("I-80 Chicago↔Denver",
    ["I-76 through Pennsylvania/Ohio (longer)";
     "I-70 through Kansas (southern route)";
     "Rail freight via BNSF recommended"]);
   ("I-75 Chicago↔Atlanta",
    ["I-65 through Alabama (western route)";
     "I-77 through West Virginia (eastern route)";
     "CSX rail service available"]);
   ("I-10 Phoenix↔Miami",
    ["I-40 to I-75 (northern route)";
     "I-20 through Texas/Louisiana";
     "Consider air freight for urgent shipments"])]%string.

Definition closure_detour : list string :=
  ["Major detour required (add 4-8 hours)";
   "Rail freight strongly recommended";
   "Delay all non-urgent shipments"]%string.

Definition heavy_detour : list string :=
  ["State route alternate available";
   "Off-peak travel recommended";
   "Split shipments to reduce impact"]%string.

Definition minor_advice : list string :=
  ["Monitor conditions hourly";
   "Allow extra 30-60 minutes";
   "Update customer delivery expectations"]%string.

Definition full_closure : string :=
  "FULL HIGHWAY CLOSURE - Both directions closed".

(** The incident draw: [incidents], [severity], [delay]. *)
Definition draw_issue (route_id : string) (r : rng)
  : list string * string * Z * rng :=
  let (issue_chance, r) := Random.random r in
  if Py.ltb issue_chance 0.05 then
    let (delay, r) := Random.randint 240 480 r in
    ([full_closure], "Severe"%string, delay, r)
  else if Py.ltb issue_chance 0.12 then
    let route_incidents :=
      Lookup.get route_id route_specific_incidents default_route_incidents in
    let (incident, r) := Random.choice ""%string route_incidents r in
    let (delay, r) := Random.randint 30 120 r in
    ([incident], "Heavy"%string, delay, r)
  else if Py.ltb issue_chance 0.25 then
    let (incident, r) := Random.choice ""%string minor_incidents r in
    let (delay, r) := Random.randint 5 30 r in
    ([incident], "Moderate"%string, delay, r)
  else ([], "Clear"%string, 0, r).

(** The alternative routes offered for the incidents drawn. *)
Definition choose_alternatives (route_id : string) (incidents : list string)
    (severity : string) : list string :=
  match incidents with
  | [] => []
  | first :: _ =>
      if Str.contains "CLOSURE" first then
        Lookup.get route_id corridor_alternatives closure_detour
      else if String.eqb severity "Heavy" then
        Lookup.get route_id corridor_alternatives heavy_detour
      else minor_advice
  end.

(** [get_traffic_data] *)
Definition get_traffic_data (self : t) (route_id : string) (r : rng)
  : option TrafficData.t * rng :=
  let (u, r) := Random.random r in
  if Py.ltb u (failure_rate self) then (None, r)
  else
    let '(incidents, severity, delay, r) := draw_issue route_id r in
    let highway_name :=
      Lookup.get route_id (highways self) ("Route " +:+ route_id)%string in
    let alternatives := choose_alternatives route_id incidents severity in
    (Some (TrafficData.mk highway_name severity incidents delay alternatives), r).

End MockTrafficProvider.

(** [DataService]: the weather and traffic calls with their fallback.
    Each returns what it printed along with its result. *)
Module DataServiceFallback.

(** The global providers. *)
Definition primary_weather := MockWeatherProvider.init true.
Definition secondary_weather := MockWeatherProvider.init false.
Definition primary_traffic := MockTrafficProvider.init true.
Definition secondary_traffic := MockTrafficProvider.init false.

(** [get_weather_with_fallback] *)
Definition get_weather_with_fallback (location : string) (r : rng)
  : option WeatherData.t * rng * list string :=
  match MockWeatherProvider.get_weather_data primary_weather location r with
  | (Some data, r) => (Some data, r, [])
  | (None, r) =>
      match MockWeatherProvider.get_weather_data secondary_weather location r with
      | (Some data, r) =>
          (Some data, r,
           [("WARNING: Using secondary weather provider for " +:+ location)%string])
      | (None, r) =>
          (None, r,
           [("ERROR: All weather providers failed for " +:+ location)%string])
      end
  end.

(** [get_traffic_with_fallback] *)
Definition get_traffic_with_fallback (route_id : string) (r : rng)
  : option TrafficData.t * rng * list string :=
  match MockTrafficProvider.get_traffic_data primary_traffic route_id r with
  | (Some data, r) => (Some data, r, [])
  | (None, r) =>
      match MockTrafficProvider.get_traffic_data secondary_traffic route_id r with
      | (Some data, r) =>
          (Some data, r,
           [("WARNING: Using secondary traffic provider for route "
               +:+ route_id)%string])
      | (None, r) =>
          (None, r,
           [("ERROR: All traffic providers failed for route " +:+ route_id)%string])
      end
  end.

End DataServiceFallback.

(** [RecommendationEngine.generate_recommendations], block by block; a
    recommendation is the dict the code appends, as its items.  The
    rerouting block, which ranks facilities by great-circle distance, is
    not part of this development. *)
Module RecommendationEngine.

Definition recommendation := list (string * string).

(** [rec.get(key)] *)
Fixpoint field (key : string) (rec : recommendation) : option string :=
  match rec with
  | [] => None
  | (k, v) :: rest => if String.eqb key k then Some v else field key rest
  end.

(** The columns of a facility row that the staffing block reads;
    [staffing_level] is NULL for a facility without metrics. *)
Module StaffRow.
Record t := mk {
  name : string;
  facility_type : string;
  staffing_level : option Z
}.
End StaffRow.

(** The body of the staffing loop: what it appends for one facility. *)
Definition staffing_check (facility : StaffRow.t) : list recommendation :=
  match StaffRow.staffing_level facility with
  | Some current_staff =>
      let facility_type := StaffRow.facility_type facility in
      if String.eqb facility_type "hub" && (current_staff <? 120) then
        [[("type", "staffing_shortage");
          ("priority", if (current_staff <? 100)%Z then "high" else "medium");
          ("source_facility", StaffRow.name facility);
          ("facility_type", "Hub");
          ("reason", "Hub staffing critically low at " +:+ pretty current_staff
                       +:+ " people (recommended minimum: 120)");
          ("suggested_action", "Contact temp agencies: Manpower, Adecco, or local staffing partners for warehouse/logistics workers");
          ("estimated_impact", "Increase staffing to 150-200 people to improve productivity")]]%string
      else if String.eqb facility_type "station" && (current_staff <? 15) then
        [[("type", "staffing_shortage");
          ("priority", "medium");
          ("source_facility", StaffRow.name facility);
          ("facility_type", "Station");
          ("reason", "Station staffing low at " +:+ pretty current_staff
                       +:+ " people (recommended minimum: 15)");
          ("suggested_action", "Contract temp agency for delivery drivers and package handlers");
          ("estimated_impact", "Increase to 18-22 staff to maintain delivery timeliness")]]%string
      else []
  | None => []
  end.

(** The staffing loop. *)
Definition staffing_block (all_facilities : list StaffRow.t) : list recommendation :=
  flat_map staffing_check all_facilities.

(** [weather_locations], in the order of its items. *)
Definition weather_locations : list (string * (list string * list string)) :=
  [("Chicago",
    (["Use I-80 west to I-76 through Ohio"; "Reroute via I-65 south to I-70"],
     ["Milwaukee"; "Indianapolis"; "Cincinnati"]));
   ("Denver",
    (["Use I-70 through Kansas"; "Reroute via I-25 south to I-40"],
     ["Colorado Springs"; "Kansas City"; "Albuquerque"]));
   ("Atlanta",
    (["Use I-20 west route"; "Reroute via I-77 through Carolinas"],
     ["Nashville"; "Charlotte"; "Birmingham"]))]%string.

(** What the weather loop appends for one report. *)
Definition weather_check (location : string)
    (alternatives : list string * list string) (weather : option WeatherData.t)
  : list recommendation :=
  match weather with
  | Some weather =>
      match WeatherData.alerts weather with
      | [] => []
      | _ :: _ =>
          let highway_options := firstn 2 (fst alternatives) in
          let facility_options := firstn 2 (snd alternatives) in
          let action_parts : list string := [] in
          let action_parts :=
            match highway_options with
            | [] => action_parts
            | _ => action_parts
                     ++ [("Highway alternatives: "
                            +:+ Lookup.join ", " highway_options)%string]
            end in
          let action_parts :=
            match facility_options with
            | [] => action_parts
            | _ => action_parts
                     ++ [("Offload to nearby facilities: "
                            +:+ Lookup.join ", " facility_options)%string]
            end in
          [[("type", "weather_advisory");
            ("priority",
             if Str.contains "Storm" (WeatherData.conditions weather)
                || Str.contains "Snow" (WeatherData.conditions weather)
             then "high" else "medium");
            ("location", location);
            ("source_facility", location +:+ " Area");
            ("facility_type", "Region");
            ("reason", "Weather alert: "
                         +:+ Lookup.join ", " (WeatherData.alerts weather));
            ("suggested_action", Lookup.join "; " action_parts);
            ("estimated_impact", "Prevent weather-related delays and maintain service levels")]]%string
      end
  | None => []
  end.

(** The weather loop, over the locations still to visit. *)
Fixpoint weather_loop (locations : list (string * (list string * list string)))
    (r : rng) : list recommendation * rng * list string :=
  match locations with
  | [] => ([], r, [])
  | (location, alternatives) :: rest =>
      let '(weather, r, printed) :=
        DataServiceFallback.get_weather_with_fallback location r in
      let '(recs, r, printed') := weather_loop rest r in
      (weather_check location alternatives weather ++ recs, r, printed ++ printed')
  end.

(** What the highway loop appends for one report.  The test
    ["CLOSURE" in str(traffic.incidents)] looks in the printed list; the
    needle has no quote, comma, bracket or escape in it, so it is found
    there exactly when it is found in one of the incidents. *)
Definition traffic_check (traffic : option TrafficData.t) : list recommendation :=
  match traffic with
  | Some traffic =>
      let delay := TrafficData.estimated_delay_minutes traffic in
      if 30 <? delay then
        let rec_type :=
          if existsb (Str.contains "CLOSURE") (TrafficData.incidents traffic)
          then "highway_closure" else "highway_incident" in
        let priority := if 120 <? delay then "high" else "medium" in
        [[("type", rec_type);
          ("priority", priority);
          ("location", TrafficData.route_id traffic);
          ("reason", "Highway issue: "
                       +:+ Lookup.join ", " (TrafficData.incidents traffic)
                       +:+ " (Delay: " +:+ pretty delay +:+ " min)");
          ("suggested_action", "Use alternatives: "
             +:+ Lookup.join ", " (firstn 2 (TrafficData.alternative_routes traffic)));
          ("estimated_impact", "Avoid " +:+ pretty delay +:+ " minute delays")]]%string
      else []
  | None => []
  end.

(** The highway loop, [for i in range(1, 6)], over the [i] still to
    visit. *)
Fixpoint traffic_loop (routes : list Z) (r : rng)
  : list recommendation * rng * list string :=
  match routes with
  | [] => ([], r, [])
  | i :: rest =>
      let '(traffic, r, printed) :=
        DataServiceFallback.get_traffic_with_fallback ("route-" +:+ pretty i) r in
      let '(recs, r, printed') := traffic_loop rest r in
      (traffic_check traffic ++ recs, r, printed ++ printed')
  end.

(** The last two blocks of [generate_recommendations]. *)
Definition advisories (r : rng) : list recommendation * rng * list string :=
  let '(weather_recs, r, printed) := weather_loop weather_locations r in
  let '(traffic_recs, r, printed') := traffic_loop [1; 2; 3; 4; 5] r in
  (weather_recs ++ traffic_recs, r, printed ++ printed').

End RecommendationEngine.

(* ================================================================== *)
(** * Further properties: vocabulary *)
(* ================================================================== *)

Module SimProps.

(** The statuses the simulator ever assigns. *)
Definition known_status (status : string) : Prop :=
  status = "Operational"%string \/ status = "Maintenance"%string
  \/ status = "Down"%string.

(** The bound the code puts on the staffing trend of a facility type. *)
Definition trend_bound (facility_type : string) : Q :=
  if Sim.is_hub facility_type then 5 else 2.

End SimProps.

Module RetryProps.

(** The seconds slept over a trace. *)
Fixpoint total_sleep (trace : list Retry.event) : Q :=
  match trace with
  | [] => 0
  | Retry.Sleep delay :: rest => delay + total_sleep rest
  | Retry.Invoke _ :: rest => total_sleep rest
  end.

(** The most that can be slept over the given attempts: after each one
    that may be retried, the back-off and the whole jitter window. *)
Fixpoint sleep_budget (max_retries : Z) (base_delay : Q) (attempts : list Z) : Q :=
  match attempts with
  | [] => 0
  | attempt :: rest =>
      (if attempt <? max_retries - 1 then base_delay * 2 ^ attempt + 0.1 else 0)
      + sleep_budget max_retries base_delay rest
  end.

End RetryProps.

Module LedgerProps.

(** [l'] continues [l]: the rows of [l] are still there, in place, each
    as it was or resolved, and rows may have been added after them. *)
Definition continues (l l' : list Alert.t) : Prop :=
  exists kept added,
    l' = kept ++ added
    /\ Forall2 (fun a a' => a' = a \/ a' = Alert.resolve a) l kept.

(** [l'] is [l] with some of its rows resolved: nothing is added,
    nothing is taken away. *)
Definition only_resolved (l l' : list Alert.t) : Prop :=
  Forall2 (fun a a' => a' = a \/ a' = Alert.resolve a) l l'.

(** The facility query returns [fs], and the equipment alerts of
    facility [facility_id] are those of [before], some of them
    resolved. *)
Definition guarded (facility_id : Z) (fs : list Facility.t)
    (before : list Alert.t) (w : Store.world) : Prop :=
  FacilityDB.rows w = fs
  /\ only_resolved before
       (DataAggregator.equipment_alerts facility_id (Store.alerts w)).

(** The kinds of alert the aggregator writes, with their severity. *)
Definition aggregator_kind (alert_type severity : string) : bool :=
  (String.eqb alert_type "low_productivity" && String.eqb severity "warning")
  || (String.eqb alert_type "equipment_down" && String.eqb severity "critical")
  || (String.eqb alert_type "equipment_maintenance" && String.eqb severity "warning")
  || (String.eqb alert_type "high_capacity" && String.eqb severity "warning").

Definition aggregator_alert (a : Alert.t) : Prop :=
  aggregator_kind (Alert.alert_type a) (Alert.severity a) = true.

(** A property of ledgers that survives the two things the aggregator
    and the dashboard do to the alerts table: appending a row of one of
    the aggregator's kinds, and resolving rows. *)
Definition ledger_closed (J : list Alert.t -> Prop) : Prop :=
  (forall l x, J l -> aggregator_alert x -> Alert.resolved x = false ->
               J (l ++ [x]))
  /\ (forall l f, DataAggregator.only_resolves f -> J l -> J (map f l)).

(** A property of worlds that survives every step an alert pass is made
    of: time passing, the generator advancing, a row appended to the
    alerts table, rows of it resolved. *)
Definition alert_pass_stable (I : Store.world -> Prop) : Prop :=
  (forall w, I w -> I (Store.tick w))
  /\ (forall w r, I w -> I (Store.set_rand r w))
  /\ (forall w x, I w -> aggregator_alert x -> Alert.resolved x = false ->
                  I (Store.set_alerts (Store.alerts w ++ [x]) w))
  /\ (forall w f, DataAggregator.only_resolves f -> I w ->
                  I (Store.set_alerts (map f (Store.alerts w)) w)).

(** ... and every step the metrics collection is made of. *)
Definition collection_stable (I : Store.world -> Prop) : Prop :=
  (forall w, I w -> I (Store.tick w))
  /\ (forall w r, I w -> I (Store.set_rand r w))
  /\ (forall w p, I w -> I (Store.set_internal_data p w))
  /\ (forall w rows, I w -> I (Store.set_facility_metrics rows w))
  /\ (forall w c, I w -> I (Store.record_call c w)).

(** The parts of the world the alert passes have no business with: the
    two tables the facility query reads, and so its rows, the simulator
    and the calls to the metrics sink. *)
Definition same_metrics_side (w w' : Store.world) : Prop :=
  Store.facilities w' = Store.facilities w
  /\ Store.facility_metrics w' = Store.facility_metrics w
  /\ FacilityDB.rows w' = FacilityDB.rows w
  /\ Store.internal_data w' = Store.internal_data w
  /\ Store.calls w' = Store.calls w.

(** The tables the metrics collection has no business with. *)
Definition same_alert_side (w w' : Store.world) : Prop :=
  Store.facilities w' = Store.facilities w
  /\ Store.alerts w' = Store.alerts w.

(** The rows of [rows] are samples of [batch], in the order of the batch,
    each at most once. *)
Inductive stored_from : list MetricsRow.t -> list Sim.Metrics.t -> Prop :=
| stored_nil (batch : list Sim.Metrics.t) : stored_from [] batch
| stored_skip (rows : list MetricsRow.t) (m : Sim.Metrics.t)
    (batch : list Sim.Metrics.t) :
    stored_from rows batch -> stored_from rows (m :: batch)
| stored_keep (now : Z) (rows : list MetricsRow.t) (m : Sim.Metrics.t)
    (batch : list Sim.Metrics.t) :
    stored_from rows batch ->
    stored_from (MetricsRow.of_sample m now :: rows) (m :: batch).

(** The rows of [rows] are the samples of [batch], one row per sample,
    in the order of the batch. *)
Definition stored_all (rows : list MetricsRow.t) (batch : list Sim.Metrics.t)
  : Prop :=
  Forall2 (fun row m => exists now, row = MetricsRow.of_sample m now) rows batch.

End LedgerProps.

Module AdvisoryProps.
Import RecommendationEngine.

(** The type of a weather or highway recommendation and the priorities
    that go with it. *)
Definition well_ranked (rec : recommendation) : Prop :=
  (field "type" rec = Some "weather_advisory"%string
   /\ (field "priority" rec = Some "high"%string
       \/ field "priority" rec = Some "medium"%string))
  \/ (field "type" rec = Some "highway_closure"%string
      /\ field "priority" rec = Some "high"%string)
  \/ (field "type" rec = Some "highway_incident"%string
      /\ field "priority" rec = Some "medium"%string).

(** What a loop of the engine hands on: its recommendations, the
    generator, the lines it printed. *)
Definition bounded_by (n : nat)
    (x : list recommendation * rng * list string) : Prop :=
  (length (fst (fst x)) <= n)%nat
  /\ (length (snd x) <= n)%nat
  /\ Random.well_formed (snd (fst x))
  /\ Forall well_ranked (fst (fst x)).

End AdvisoryProps.

(* ================================================================== *)
(** * Facts about the Python primitives *)
(* ================================================================== *)

Section FloatFacts.

Lemma pow2_pos (e : Z) : (0 < 2 ^ e)%Q.
Proof. apply Qpower_0_lt. reflexivity. Qed.

Lemma pow2_plus (a b : Z) : (2 ^ (a + b) == 2 ^ a * 2 ^ b)%Q.
Proof. apply Qpower_plus. discriminate. Qed.

Lemma pow2_mono (a b : Z) : a <= b -> (2 ^ a <= 2 ^ b)%Q.
Proof. intros H. apply Qpower_le_compat_l; [exact H | discriminate]. Qed.

Lemma pow2_inject (a : Z) : 0 <= a -> (inject_Z (2 ^ a) == 2 ^ a)%Q.
Proof. intros H. apply (Zpower_Qpower 2 a H). Qed.

Lemma log2_bounds (n : Z) :
  0 < n ->
  (2 ^ Z.log2 n <= inject_Z n /\ inject_Z n < 2 ^ (Z.log2 n + 1))%Q.
Proof.
  intros Hn. destruct (Z.log2_spec n Hn) as [H1 H2].
  pose proof (Z.log2_nonneg n) as H0.
  rewrite <- !pow2_inject by lia. split.
  - rewrite <- Zle_Qle. exact H1.
  - rewrite <- Zlt_Qlt. unfold Z.succ in H2. exact H2.
Qed.

Lemma num_den (x : Q) : (x * inject_Z (Zpos (Qden x)) == inject_Z (Qnum x))%Q.
Proof.
  destruct x as [n d]. unfold Qeq. cbn. rewrite Pos.mul_1_r. ring.
Qed.

Lemma ratio_lt (x D N P B A : Q) :
  (0 < D)%Q -> (x * D == N)%Q -> (N < A)%Q -> (P * B == A)%Q -> (B <= D)%Q ->
  (0 < P)%Q -> (x < P)%Q.
Proof.
  intros HD Hx HN HP HB Hp. apply Qnot_le_lt. intros Hc.
  assert (P * D <= x * D)%Q by (apply Qmult_le_compat_r; lra).
  assert (P * B <= P * D)%Q by (apply Qmult_le_l; lra).
  lra.
Qed.

Lemma ratio_ge (x D N P B A : Q) :
  (0 < D)%Q -> (x * D == N)%Q -> (A <= N)%Q -> (P * B == A)%Q -> (D <= B)%Q ->
  (0 < P)%Q -> (P <= x)%Q.
Proof.
  intros HD Hx HN HP HB Hp. apply Qnot_lt_le. intros Hc.
  assert (x * D < P * D)%Q by (apply Qmult_lt_compat_r; lra).
  assert (P * D <= P * B)%Q by (apply Qmult_le_l; lra).
  lra.
Qed.

Lemma binade_spec (x : Q) :
  (0 < x)%Q ->
  (2 ^ Float.binade x <= x /\ x < 2 ^ (Float.binade x + 1))%Q.
Proof.
  intros Hx. unfold Float.binade.
  assert (Hn : 0 < Qnum x).
  { unfold Qlt in Hx. cbn in Hx. lia. }
  destruct (log2_bounds (Qnum x) Hn) as [A1 A2].
  destruct (log2_bounds (Zpos (Qden x)) ltac:(lia)) as [B1 B2].
  set (a := Z.log2 (Qnum x)) in *. set (b := Z.log2 (Zpos (Qden x))) in *.
  assert (Hxd : (x * inject_Z (Zpos (Qden x)) == inject_Z (Qnum x))%Q).
  { apply num_den. }
  assert (Hd : (0 < inject_Z (Zpos (Qden x)))%Q).
  { change 0%Q with (inject_Z 0). rewrite <- Zlt_Qlt. lia. }
  assert (Hup : (x < 2 ^ (a - b + 1))%Q).
  { apply (ratio_lt x _ _ _ (2 ^ b) (2 ^ (a + 1)) Hd Hxd A2);
      [| exact B1 | apply pow2_pos].
    rewrite <- pow2_plus. replace (a - b + 1 + b) with (a + 1) by lia. reflexivity. }
  assert (Hlo : (2 ^ (a - b - 1) <= x)%Q).
  { apply (ratio_ge x _ _ _ (2 ^ (b + 1)) (2 ^ a) Hd Hxd A1);
      [| apply Qlt_le_weak; exact B2 | apply pow2_pos].
    rewrite <- pow2_plus. replace (a - b - 1 + (b + 1)) with a by lia. reflexivity. }
  destruct (Qle_bool (2 ^ (a - b)) x) eqn:E.
  - apply Qle_bool_iff in E. split; [exact E | exact Hup].
  - assert (Hlt : (x < 2 ^ (a - b))%Q).
    { apply Qnot_le_lt. intros H. apply Qle_bool_iff in H. congruence. }
    replace (a - b - 1 + 1) with (a - b) by lia. split; [exact Hlo | exact Hlt].
Qed.

Lemma binade_unique (x : Q) (e : Z) :
  (2 ^ e <= x)%Q -> (x < 2 ^ (e + 1))%Q -> Float.binade x = e.
Proof.
  intros H1 H2.
  assert (Hx : (0 < x)%Q) by (pose proof (pow2_pos e); lra).
  destruct (binade_spec x Hx) as [B1 B2].
  assert (Float.binade x < e + 1).
  { apply (Qpower_lt_compat_l_inv 2); [lra | reflexivity]. }
  assert (e < Float.binade x + 1).
  { apply (Qpower_lt_compat_l_inv 2); [lra | reflexivity]. }
  lia.
Qed.

Lemma rne_ge (n : Z) (y : Q) : (inject_Z n <= y)%Q -> n <= Float.rne y.
Proof.
  intros H. assert (Hf : n <= Qfloor y).
  { rewrite <- (Qfloor_Z n). apply Qfloor_resp_le. exact H. }
  unfold Float.rne. destruct (_ ?= _)%Q; [destruct (Z.even _) | |]; lia.
Qed.

Lemma rne_le (n : Z) (y : Q) : (y <= inject_Z n)%Q -> Float.rne y <= n.
Proof.
  intros H. unfold Float.rne.
  assert (Hf : Qfloor y <= n).
  { rewrite <- (Qfloor_Z n). apply Qfloor_resp_le. exact H. }
  destruct (Z.eq_dec (Qfloor y) n) as [E | E].
  - assert (Hfrac : (y - inject_Z (Qfloor y) ?= 1 # 2)%Q = Lt).
    { apply (proj1 (Qlt_alt _ _)). rewrite E. lra. }
    rewrite Hfrac. lia.
  - destruct (_ ?= _)%Q; [destruct (Z.even _) | |]; lia.
Qed.

Lemma ulp_pos (x : Q) : (0 < Float.ulp x)%Q.
Proof. apply pow2_pos. Qed.

Lemma round_pos_eq (x : Q) :
  (0 < x)%Q ->
  Float.round x = (inject_Z (Float.rne (x / Float.ulp x)) * Float.ulp x)%Q.
Proof.
  intros H. unfold Float.round.
  apply (proj1 (Qgt_alt _ _)) in H. rewrite H. reflexivity.
Qed.

Lemma round_zero_eq (x : Q) : (x == 0)%Q -> Float.round x = 0%Q.
Proof.
  intros H. unfold Float.round. apply (proj1 (Qeq_alt _ _)) in H. rewrite H. reflexivity.
Qed.

(** A multiple of the spacing below [x] stays below its rounding, one
    above stays above. *)
Lemma round_ge_multiple (x c : Q) (k : Z) :
  (0 < x)%Q -> (c == inject_Z k * Float.ulp x)%Q -> (c <= x)%Q ->
  (c <= Float.round x)%Q.
Proof.
  intros Hx Hc Hle. rewrite round_pos_eq by exact Hx.
  pose proof (ulp_pos x) as Hu.
  assert (Hk : k <= Float.rne (x / Float.ulp x)).
  { apply rne_ge. apply Qle_shift_div_l; [exact Hu |]. rewrite <- Hc. exact Hle. }
  rewrite Hc. apply Qmult_le_compat_r; [| lra].
  rewrite <- Zle_Qle. exact Hk.
Qed.

Lemma round_le_multiple (x c : Q) (k : Z) :
  (0 < x)%Q -> (c == inject_Z k * Float.ulp x)%Q -> (x <= c)%Q ->
  (Float.round x <= c)%Q.
Proof.
  intros Hx Hc Hle. rewrite round_pos_eq by exact Hx.
  pose proof (ulp_pos x) as Hu.
  assert (Hk : Float.rne (x / Float.ulp x) <= k).
  { apply rne_le. apply Qle_shift_div_r; [exact Hu |]. rewrite <- Hc. exact Hle. }
  rewrite Hc. apply Qmult_le_compat_r; [| lra].
  rewrite <- Zle_Qle. exact Hk.
Qed.

Lemma round_nonneg (x : Q) : (0 <= x)%Q -> (0 <= Float.round x)%Q.
Proof.
  intros H. destruct (Qlt_le_dec 0 x) as [Hpos | Hle].
  - apply (round_ge_multiple x 0 0 Hpos); [ring | lra].
  - rewrite round_zero_eq by lra. lra.
Qed.

(** Below [2^53] the spacing divides 1: every integer is a double. *)
Lemma integer_multiple (x : Q) (n : Z) :
  (0 < x)%Q -> (x < 2 ^ 53)%Q ->
  exists k, (inject_Z n == inject_Z k * Float.ulp x)%Q.
Proof.
  intros Hx Hlt. destruct (binade_spec x Hx) as [B1 _].
  assert (He : Float.binade x < 53).
  { apply (Qpower_lt_compat_l_inv 2); [lra | reflexivity]. }
  unfold Float.ulp.
  set (e := Z.max (Float.binade x) (-1022)).
  assert (He' : 0 <= 52 - e) by lia.
  exists (n * 2 ^ (52 - e)).
  rewrite inject_Z_mult, pow2_inject by exact He'.
  rewrite <- Qmult_assoc, <- pow2_plus.
  replace (52 - e + (e - 52)) with 0 by lia. cbn. ring.
Qed.

Lemma round_floor_ceiling (x : Q) :
  (0 <= x)%Q -> (x < 2 ^ 53)%Q ->
  (inject_Z (Qfloor x) <= Float.round x
   /\ Float.round x <= inject_Z (Qceiling x))%Q.
Proof.
  intros H0 Hlt. destruct (Qlt_le_dec 0 x) as [Hpos | Hle].
  - split.
    + destruct (integer_multiple x (Qfloor x) Hpos Hlt) as [k Hk].
      apply (round_ge_multiple x _ k Hpos Hk). apply Qfloor_le.
    + destruct (integer_multiple x (Qceiling x) Hpos Hlt) as [k Hk].
      apply (round_le_multiple x _ k Hpos Hk). apply Qle_ceiling.
  - assert (Hz : (x == 0)%Q) by lra.
    rewrite (round_zero_eq x Hz).
    assert (Qfloor x = 0) by (rewrite Hz; reflexivity).
    assert (Qceiling x = 0) by (rewrite Hz; reflexivity).
    rewrite H, H1. split; apply Qle_refl.
Qed.

(** From [2^53] on the doubles are sparser, but none lies below. *)
Lemma round_large (x : Q) : (2 ^ 53 <= x)%Q -> (2 ^ 53 <= Float.round x)%Q.
Proof.
  intros H. assert (Hx : (0 < x)%Q) by (pose proof (pow2_pos 53); lra).
  destruct (binade_spec x Hx) as [B1 B2].
  assert (He : 53 < Float.binade x + 1).
  { apply (Qpower_lt_compat_l_inv 2); [lra | reflexivity]. }
  apply Qle_trans with (2 ^ Float.binade x)%Q; [apply pow2_mono; lia |].
  apply (round_ge_multiple x _ (2 ^ 52) Hx); [| exact B1].
  unfold Float.ulp. rewrite Z.max_l by lia.
  rewrite pow2_inject by lia. rewrite <- pow2_plus.
  replace (52 + (Float.binade x - 52)) with (Float.binade x) by lia. reflexivity.
Qed.

(** An integer up to [2^53] below [x] is below the rounding of [x]. *)
Lemma round_ge_integer (n : Z) (x : Q) :
  0 <= n <= 2 ^ 53 -> (inject_Z n <= x)%Q -> (inject_Z n <= Float.round x)%Q.
Proof.
  intros Hn Hle.
  assert (Hn' : (inject_Z n <= 2 ^ 53)%Q).
  { rewrite <- pow2_inject by lia. rewrite <- Zle_Qle. lia. }
  assert (H0 : (0 <= x)%Q).
  { apply Qle_trans with (inject_Z n); [| exact Hle].
    change 0%Q with (inject_Z 0). rewrite <- Zle_Qle. lia. }
  destruct (Qlt_le_dec x (2 ^ 53)) as [Hlt | Hge].
  - destruct (round_floor_ceiling x H0 Hlt) as [Hf _].
    apply Qle_trans with (inject_Z (Qfloor x)); [| exact Hf].
    rewrite <- Zle_Qle. rewrite <- (Qfloor_Z n). apply Qfloor_resp_le. exact Hle.
  - apply Qle_trans with (2 ^ 53)%Q; [exact Hn' | apply round_large; exact Hge].
Qed.

(** An integer below [2^53] is a double. *)
Lemma round_integer (n : Z) (x : Q) :
  0 <= n < 2 ^ 53 -> (x == inject_Z n)%Q -> (Float.round x == inject_Z n)%Q.
Proof.
  intros Hn Hx.
  assert (H0 : (0 <= x)%Q).
  { rewrite Hx. change 0%Q with (inject_Z 0). rewrite <- Zle_Qle. lia. }
  assert (Hlt : (x < 2 ^ 53)%Q).
  { rewrite Hx. rewrite <- pow2_inject by lia. rewrite <- Zlt_Qlt. lia. }
  destruct (round_floor_ceiling x H0 Hlt) as [Hf Hc].
  assert (Qfloor x = n) by (rewrite Hx; apply Qfloor_Z).
  assert (Qceiling x = n) by (rewrite Hx; apply Qceiling_Z).
  rewrite H in Hf. rewrite H1 in Hc. apply Qle_antisym; assumption.
Qed.

Lemma mul_nonneg (a b : Q) : (0 <= a)%Q -> (0 <= b)%Q -> (0 <= Float.mul a b)%Q.
Proof.
  intros Ha Hb. unfold Float.mul. apply round_nonneg.
  apply Qmult_le_0_compat; apply round_nonneg; assumption.
Qed.

(** A product of integers that lie below the factors lies below the
    float product. *)
Lemma mul_ge_integer (m n : Z) (a b : Q) :
  0 <= m <= 2 ^ 53 -> 0 <= n <= 2 ^ 53 -> m * n <= 2 ^ 53 ->
  (inject_Z m <= a)%Q -> (inject_Z n <= b)%Q ->
  (inject_Z (m * n) <= Float.mul a b)%Q.
Proof.
  intros Hm Hn Hmn Ha Hb. unfold Float.mul.
  pose proof (round_ge_integer m a Hm Ha) as Ra.
  pose proof (round_ge_integer n b Hn Hb) as Rb.
  apply round_ge_integer; [lia |].
  rewrite inject_Z_mult.
  assert (H0m : (0 <= inject_Z m)%Q)
    by (change 0%Q with (inject_Z 0); rewrite <- Zle_Qle; lia).
  assert (H0n : (0 <= inject_Z n)%Q)
    by (change 0%Q with (inject_Z 0); rewrite <- Zle_Qle; lia).
  apply Qle_trans with (inject_Z m * Float.round b)%Q.
  - rewrite (Qmult_comm (inject_Z m) (inject_Z n)),
      (Qmult_comm (inject_Z m) (Float.round b)).
    apply Qmult_le_compat_r; assumption.
  - apply Qmult_le_compat_r; [exact Ra | lra].
Qed.

End FloatFacts.

Section PyFacts.

Lemma ltb_lt (a b : Q) : Py.ltb a b = true <-> (a < b)%Q.
Proof.
  unfold Py.ltb. rewrite negb_true_iff. split; intros H.
  - destruct (Qlt_le_dec a b) as [Hlt | Hle]; [exact Hlt |].
    apply Qle_bool_iff in Hle. congruence.
  - destruct (Qle_bool b a) eqn:E; [| reflexivity].
    apply Qle_bool_iff in E. lra.
Qed.

Lemma ltb_ge (a b : Q) : Py.ltb a b = false <-> (b <= a)%Q.
Proof.
  unfold Py.ltb. rewrite negb_false_iff. apply Qle_bool_iff.
Qed.

Lemma max_lower (lo x : Q) : (lo <= Py.max lo x)%Q.
Proof.
  unfold Py.max. destruct (Py.ltb lo x) eqn:E; [apply ltb_lt in E | ]; lra.
Qed.

Lemma max_upper (lo x hi : Q) :
  (lo <= hi)%Q -> (x <= hi)%Q -> (Py.max lo x <= hi)%Q.
Proof.
  intros Hlo Hx. unfold Py.max. destruct (Py.ltb lo x); lra.
Qed.

Lemma min_upper (hi x : Q) : (Py.min hi x <= hi)%Q.
Proof.
  unfold Py.min. destruct (Py.ltb x hi) eqn:E; [apply ltb_lt in E | ]; lra.
Qed.

(** [max(lo, min(hi, x))] lands in [[lo, hi]]. *)
Lemma clamp_range (lo hi x : Q) :
  (lo <= hi)%Q ->
  (lo <= Py.max lo (Py.min hi x) /\ Py.max lo (Py.min hi x) <= hi)%Q.
Proof.
  intros H. split; [apply max_lower |].
  apply max_upper; [exact H | apply min_upper].
Qed.

(** [int] of a non-negative float is its floor. *)
Lemma int_floor (x : Q) : (0 <= x)%Q -> Py.int x = Qfloor x.
Proof.
  intros H. destruct x as [n d]. unfold Py.int, Qfloor. simpl.
  apply Z.quot_div_nonneg; [| lia].
  unfold Qle in H. simpl in H. lia.
Qed.

Lemma int_nonneg (x : Q) : (0 <= x)%Q -> 0 <= Py.int x.
Proof.
  intros H. rewrite int_floor by exact H.
  change 0 with (Qfloor 0). apply Qfloor_resp_le. exact H.
Qed.

(** Truncation stays between integer bounds. *)
Lemma int_range (a b : Z) (x : Q) :
  0 <= a -> (inject_Z a <= x)%Q -> (x <= inject_Z b)%Q ->
  a <= Py.int x <= b.
Proof.
  intros Ha Hlo Hhi.
  assert (H0 : (0 <= x)%Q).
  { apply Qle_trans with (inject_Z a); [| exact Hlo].
    change 0%Q with (inject_Z 0). rewrite <- Zle_Qle. exact Ha. }
  rewrite int_floor by exact H0. split.
  - rewrite <- (Qfloor_Z a). apply Qfloor_resp_le. exact Hlo.
  - rewrite <- (Qfloor_Z b). apply Qfloor_resp_le. exact Hhi.
Qed.

(** Truncation loses less than one unit. *)
Lemma int_close (x : Q) :
  (0 <= x)%Q -> (inject_Z (Py.int x) <= x /\ x < inject_Z (Py.int x) + 1)%Q.
Proof.
  intros H. rewrite int_floor by exact H. split; [apply Qfloor_le |].
  pose proof (Qlt_floor x) as Hf. rewrite inject_Z_plus in Hf. exact Hf.
Qed.

Lemma floor_below (x : Q) (n : Z) :
  (0 <= x)%Q -> (x < inject_Z n)%Q -> 0 <= Qfloor x < n.
Proof.
  intros H0 Hn. split.
  - change 0 with (Qfloor 0). apply Qfloor_resp_le. exact H0.
  - rewrite Zlt_Qlt. apply Qle_lt_trans with x; [apply Qfloor_le | exact Hn].
Qed.

End PyFacts.

Ltac case_ltb :=
  match goal with
  | |- context [Py.ltb ?a ?b] =>
      let E := fresh "E" in
      destruct (Py.ltb a b) eqn:E;
      [apply ltb_lt in E | apply ltb_ge in E]
  end.

(* ================================================================== *)
(** * The simulated state *)
(* ================================================================== *)

Section RandomFacts.

Lemma well_formed_tail (r : rng) :
  Random.well_formed r -> Random.well_formed (Random.tail r).
Proof. intros H n. apply (H (S n)). Qed.

Lemma randint_range (a b : Z) (r : rng) :
  Random.well_formed r -> a <= b ->
  a <= fst (Random.randint a b r) <= b.
Proof.
  intros Hr Hab. unfold Random.randint, Random.random. cbn [fst].
  destruct (Hr O) as [H0 H1].
  assert (Hn : (0 < inject_Z (b - a + 1))%Q).
  { change 0%Q with (inject_Z 0). rewrite <- Zlt_Qlt. lia. }
  assert (Hf : 0 <= Qfloor (r O * inject_Z (b - a + 1)) < b - a + 1).
  { apply floor_below.
    - apply Qmult_le_0_compat; lra.
    - apply Qlt_le_trans with (1 * inject_Z (b - a + 1))%Q.
      + apply Qmult_lt_compat_r; assumption.
      + rewrite Qmult_1_l. apply Qle_refl. }
  lia.
Qed.

Lemma uniform_range (a b : Q) (r : rng) :
  Random.well_formed r -> (a <= b)%Q ->
  (a <= fst (Random.uniform a b r) /\ fst (Random.uniform a b r) <= b)%Q.
Proof.
  intros Hr Hab. unfold Random.uniform, Random.random. cbn [fst].
  destruct (Hr O) as [H0 H1]. split; nra.
Qed.

End RandomFacts.

Ltac case_if :=
  match goal with
  | |- context [if ?b then _ else _] => destruct b eqn:?
  end.

Section SimFacts.
Import Sim.

(** ** What each phase of [_update_facility_state] leaves alone *)

Lemma equipment_phase_frame (s : facility_state) (h : Q) (r : rng) :
  let s' := fst (equipment_phase s h r) in
  staffing_level s' = staffing_level s
  /\ productivity_rate s' = productivity_rate s
  /\ delivery_timeliness s' = delivery_timeliness s
  /\ downtime_minutes s' = downtime_minutes s
  /\ staffing_trend s' = staffing_trend s.
Proof.
  unfold equipment_phase, reduce_cooldown, _update_equipment_status,
    Random.uniform, Random.random.
  cbn [equipment_status set_equipment_change_cooldown equipment_change_cooldown].
  repeat case_if; cbn; repeat split; reflexivity.
Qed.

Lemma staffing_frame (s : facility_state) (ft : string) (h : Q) (r : rng) :
  let s' := fst (_update_staffing_level s ft h r) in
  productivity_rate s' = productivity_rate s
  /\ equipment_status s' = equipment_status s
  /\ delivery_timeliness s' = delivery_timeliness s
  /\ downtime_minutes s' = downtime_minutes s
  /\ equipment_change_cooldown s' = equipment_change_cooldown s.
Proof.
  unfold _update_staffing_level, Random.uniform, Random.random.
  repeat case_if; cbn; repeat split; reflexivity.
Qed.

Lemma staffing_range (s : facility_state) (ft : string) (h : Q) (r : rng) :
  fst (staffing_bounds ft) <= staffing_level s <= snd (staffing_bounds ft) ->
  let s' := fst (_update_staffing_level s ft h r) in
  fst (staffing_bounds ft) <= staffing_level s' <= snd (staffing_bounds ft).
Proof.
  intros Hs. unfold _update_staffing_level, staffing_bounds,
    Random.uniform, Random.random in *.
  destruct (is_hub ft); cbn [fst snd] in *;
    repeat case_if; cbn; try exact Hs;
    apply int_range; try lia;
    match goal with
    | |- context [Py.max ?lo (Py.min ?hi ?x)] =>
        destruct (clamp_range lo hi x ltac:(lra)); assumption
    end.
Qed.

Lemma productivity_frame (s : facility_state) (ft : string) (h : Q) :
  let s' := _update_productivity s ft h in
  staffing_level s' = staffing_level s
  /\ equipment_status s' = equipment_status s
  /\ delivery_timeliness s' = delivery_timeliness s
  /\ downtime_minutes s' = downtime_minutes s
  /\ equipment_change_cooldown s' = equipment_change_cooldown s.
Proof. cbn. repeat split; reflexivity. Qed.

Lemma timeliness_frame (s : facility_state) (ft : string) (h : Q) :
  let s' := _update_timeliness s ft h in
  staffing_level s' = staffing_level s
  /\ equipment_status s' = equipment_status s
  /\ productivity_rate s' = productivity_rate s
  /\ downtime_minutes s' = downtime_minutes s
  /\ equipment_change_cooldown s' = equipment_change_cooldown s.
Proof. cbn. repeat split; reflexivity. Qed.

Lemma downtime_frame (s : facility_state) (h : Q) :
  let s' := _update_downtime s h in
  staffing_level s' = staffing_level s
  /\ equipment_status s' = equipment_status s
  /\ productivity_rate s' = productivity_rate s
  /\ delivery_timeliness s' = delivery_timeliness s
  /\ equipment_change_cooldown s' = equipment_change_cooldown s.
Proof.
  unfold _update_downtime. repeat case_if; repeat split; reflexivity.
Qed.

Lemma downtime_range (s : facility_state) (h : Q) :
  (0 <= h)%Q -> 0 <= downtime_minutes s <= 480 ->
  0 <= downtime_minutes (_update_downtime s h) <= 480.
Proof.
  intros Hh Hd. unfold _update_downtime.
  repeat case_if; cbn [downtime_minutes set_downtime_minutes]; try exact Hd.
  - assert (0 <= Py.int (Float.mul h 60))
      by (apply int_nonneg, mul_nonneg; lra). lia.
  - assert (0 <= Py.int (Float.mul h 30))
      by (apply int_nonneg, mul_nonneg; lra). lia.
Qed.

(** The update, phase by phase. *)
Lemma update_unfold (s : facility_state) (ft : string) (h : Q) (r : rng) :
  fst (_update_facility_state s ft h r) =
  _update_downtime
    (_update_timeliness
       (_update_productivity
          (fst (_update_staffing_level (fst (equipment_phase s h r)) ft h
                  (snd (equipment_phase s h r))))
          ft h) ft h) h.
Proof.
  unfold _update_facility_state.
  destruct (equipment_phase s h r) as [s1 r1]. cbn [fst snd].
  destruct (_update_staffing_level s1 ft h r1) as [s2 r2]. reflexivity.
Qed.

Lemma update_in_bounds (s : facility_state) (ft : string) (h : Q) (r : rng) :
  (0 <= h)%Q -> in_bounds ft s ->
  in_bounds ft (fst (_update_facility_state s ft h r)).
Proof.
  intros Hh (Hst & _ & _ & Hd). rewrite update_unfold.
  set (s1 := fst (equipment_phase s h r)).
  set (r1 := snd (equipment_phase s h r)).
  set (s2 := fst (_update_staffing_level s1 ft h r1)).
  set (s3 := _update_productivity s2 ft h).
  set (s4 := _update_timeliness s3 ft h).
  destruct (equipment_phase_frame s h r) as (E1 & _ & _ & E1d & _).
  destruct (staffing_frame s1 ft h r1) as (_ & _ & _ & E2d & _).
  fold s1 in E1, E1d. fold s2 in E2d.
  assert (H2 : fst (staffing_bounds ft) <= staffing_level s2
               <= snd (staffing_bounds ft)).
  { apply staffing_range. rewrite E1. exact Hst. }
  destruct (downtime_frame s4 h) as (F1 & _ & F2 & F3 & _).
  unfold in_bounds. rewrite F1, F2, F3. repeat split.
  - apply H2.
  - apply H2.
  - apply clamp_range. lra.
  - apply clamp_range. lra.
  - apply clamp_range. lra.
  - apply clamp_range. lra.
  - apply downtime_range; [exact Hh |]. cbn. rewrite E2d, E1d. exact Hd.
  - apply downtime_range; [exact Hh |]. cbn. rewrite E2d, E1d. exact Hd.
Qed.

Lemma initialize_in_bounds (ft : string) (r : rng) :
  Random.well_formed r ->
  in_bounds ft (fst (_initialize_facility_state ft r)).
Proof.
  intros Hr.
  pose proof (well_formed_tail _ Hr) as Hr1.
  pose proof (well_formed_tail _ Hr1) as Hr2.
  unfold _initialize_facility_state, in_bounds, staffing_bounds.
  destruct (is_hub ft).
  - pose proof (randint_range 150 250 r Hr ltac:(lia)) as Hs.
    pose proof (uniform_range 0.85 1.05 _ Hr1 ltac:(lra)) as Hp.
    pose proof (uniform_range 90.0 96.0 _ Hr2 ltac:(lra)) as Ht.
    unfold Random.randint, Random.uniform, Random.choice, Random.random in *.
    cbn [fst snd staffing_level productivity_rate delivery_timeliness
           downtime_minutes] in *.
    repeat split; try lia; try lra.
  - pose proof (randint_range 15 25 r Hr ltac:(lia)) as Hs.
    pose proof (uniform_range 0.88 1.02 _ Hr1 ltac:(lra)) as Hp.
    pose proof (uniform_range 92.0 98.0 _ Hr2 ltac:(lra)) as Ht.
    unfold Random.randint, Random.uniform, Random.choice, Random.random in *.
    cbn [fst snd staffing_level productivity_rate delivery_timeliness
           downtime_minutes] in *.
    repeat split; try lia; try lra.
Qed.

Lemma run_updates_in_bounds (ft : string) (hours : list Q) :
  Forall (fun h => (0 <= h)%Q) hours ->
  forall (s : facility_state) (r : rng),
    in_bounds ft s -> in_bounds ft (fst (run_updates ft hours s r)).
Proof.
  induction 1 as [| h hs Hh _ IH]; intros s r Hs; [exact Hs |].
  cbn [run_updates].
  pose proof (update_in_bounds s ft h r Hh Hs) as H1.
  destruct (_update_facility_state s ft h r) as [s' r']. apply IH. exact H1.
Qed.

End SimFacts.

(** C2.  Bounds invariant: starting from the cold-start state of a hub or
    of a station, after any run of updates with non-negative elapsed
    hours (whatever the random draws), staffing_level lies in [80,350]
    for a hub and in [8,35] for a station, productivity_rate in
    [0.1,1.3], delivery_timeliness in [60.0,99.9] and downtime_minutes
    in [0,480].  The run is arbitrary, so the bounds hold after every
    update of it. *)
Theorem bounds_invariant (facility_type : string) (r0 r : rng) (hours : list Q) :
  Random.well_formed r0 ->
  Forall (fun h => (0 <= h)%Q) hours ->
  Sim.in_bounds facility_type
    (fst (Sim.run_updates facility_type hours
            (fst (Sim._initialize_facility_state facility_type r0)) r)).
Proof.
  intros Hr Hh. apply run_updates_in_bounds; [exact Hh |].
  apply initialize_in_bounds. exact Hr.
Qed.

Lemma bounds_invariant_witness :
  Random.well_formed (fun _ => 0.5%Q)
  /\ Forall (fun h => (0 <= h)%Q) [1; 20; 0.25]%Q
  /\ Sim.in_bounds "hub"
       (fst (Sim.run_updates "hub" [1; 20; 0.25]%Q
               (fst (Sim._initialize_facility_state "hub" (fun _ => 0.5%Q)))
               (fun _ => 0%Q))).
Proof.
  assert (Hr : Random.well_formed (fun _ => 0.5%Q)) by (intros n; split; lra).
  assert (Hh : Forall (fun h => (0 <= h)%Q) [1; 20; 0.25]%Q)
    by (repeat constructor; lra).
  split; [exact Hr |]. split; [exact Hh |].
  exact (bounds_invariant "hub" (fun _ => 0.5%Q) (fun _ => 0%Q) [1; 20; 0.25]%Q Hr Hh).
Defined.

Section Cooldown.
Import Sim.

Lemma max_le_zero (x : Q) : Qle_bool (Py.max 0 x) 0 = true -> (x <= 0)%Q.
Proof.
  intros H. apply Qle_bool_iff in H. unfold Py.max in H.
  destruct (Py.ltb 0 x) eqn:E; [apply ltb_lt in E | apply ltb_ge in E]; lra.
Qed.

Lemma equipment_phase_gate (s : facility_state) (h : Q) (r : rng) :
  Random.well_formed r ->
  let s' := fst (equipment_phase s h r) in
  (equipment_status s' <> equipment_status s ->
   (equipment_change_cooldown s - h <= 0)%Q)
  /\ (0 <= equipment_change_cooldown s')%Q
  /\ (equipment_status s' = equipment_status s ->
      equipment_change_cooldown s'
      = Py.max 0 (equipment_change_cooldown s - h)).
Proof.
  intros Hr.
  pose proof (well_formed_tail _ Hr) as Hr1.
  pose proof (well_formed_tail _ Hr1) as Hr2.
  destruct (Hr1 O) as [Ha1 Hb1]. destruct (Hr2 O) as [Ha2 Hb2].
  unfold equipment_phase, reduce_cooldown.
  cbn [equipment_change_cooldown set_equipment_change_cooldown].
  destruct (Qle_bool (Py.max 0 (equipment_change_cooldown s - h)) 0) eqn:Hgate.
  - apply max_le_zero in Hgate.
    unfold _update_equipment_status, Random.uniform, Random.random.
    cbn [equipment_status set_equipment_change_cooldown].
    repeat case_if; cbn [fst equipment_status equipment_change_cooldown
                           set_equipment_change_cooldown set_equipment_status];
      (split; [intros _; exact Hgate |]);
      (split; [first [apply max_lower | nra] |]);
      intros Heq; try reflexivity.
    all: repeat match goal with
           | H : String.eqb _ _ = true |- _ => apply String.eqb_eq in H
           end; congruence.
  - cbn. split; [intros Hne; congruence |].
    split; [apply max_lower | reflexivity].
Qed.

(** The later phases touch neither the status nor the cool-down. *)
Lemma update_equipment_fields (s : facility_state) (ft : string) (h : Q) (r : rng) :
  let s' := fst (_update_facility_state s ft h r) in
  equipment_status s' = equipment_status (fst (equipment_phase s h r))
  /\ equipment_change_cooldown s'
     = equipment_change_cooldown (fst (equipment_phase s h r)).
Proof.
  cbv zeta. rewrite update_unfold.
  set (s1 := fst (equipment_phase s h r)).
  set (r1 := snd (equipment_phase s h r)).
  set (s2 := fst (_update_staffing_level s1 ft h r1)).
  set (s3 := _update_productivity s2 ft h).
  set (s4 := _update_timeliness s3 ft h).
  destruct (downtime_frame s4 h) as (_ & E4 & _ & _ & C4).
  destruct (timeliness_frame s3 ft h) as (_ & E3 & _ & _ & C3).
  destruct (productivity_frame s2 ft h) as (_ & E2 & _ & _ & C2).
  destruct (staffing_frame s1 ft h r1) as (_ & E1 & _ & _ & C1).
  fold s2 in E1, C1. fold s3 in E2, C2. fold s4 in E3, C3.
  split; congruence.
Qed.

End Cooldown.

(** C3, as the code has it.  One update changes equipment_status only
    when the cool-down left after subtracting the elapsed hours is <= 0,
    that is when equipment_change_cooldown <= elapsed_hours held before
    the call; the cool-down is never negative after the call; and when
    the status did not change the cool-down is the old one decreased by
    elapsed_hours and floored at 0. *)
Theorem cooldown_gate (s : Sim.facility_state) (facility_type : string)
    (hours_elapsed : Q) (r : rng) :
  Random.well_formed r ->
  let s' := fst (Sim._update_facility_state s facility_type hours_elapsed r) in
  (Sim.equipment_status s' <> Sim.equipment_status s ->
   (Sim.equipment_change_cooldown s <= hours_elapsed)%Q)
  /\ (0 <= Sim.equipment_change_cooldown s')%Q
  /\ (Sim.equipment_status s' = Sim.equipment_status s ->
      Sim.equipment_change_cooldown s'
      = Py.max 0 (Sim.equipment_change_cooldown s - hours_elapsed)).
Proof.
  intros Hr s'.
  destruct (update_equipment_fields s facility_type hours_elapsed r) as [Es Ec].
  destruct (equipment_phase_gate s hours_elapsed r Hr) as (G1 & G2 & G3).
  subst s'. rewrite Es, Ec. repeat split.
  - intros Hne. specialize (G1 Hne). lra.
  - exact G2.
  - exact G3.
Qed.

Lemma cooldown_gate_witness :
  Random.well_formed (fun _ => 0.5%Q)
  /\ let s := Sim.mk_state 200 0.9 "Maintenance" 95 0 2 0 0 in
     let s' := fst (Sim._update_facility_state s "hub" 3 (fun _ => 0.5%Q)) in
     (Sim.equipment_status s' <> Sim.equipment_status s ->
      (Sim.equipment_change_cooldown s <= 3)%Q)
     /\ (0 <= Sim.equipment_change_cooldown s')%Q
     /\ (Sim.equipment_status s' = Sim.equipment_status s ->
         Sim.equipment_change_cooldown s'
         = Py.max 0 (Sim.equipment_change_cooldown s - 3)).
Proof.
  assert (Hr : Random.well_formed (fun _ => 0.5%Q)) by (intros n; split; lra).
  split; [exact Hr |].
  exact (cooldown_gate (Sim.mk_state 200 0.9 "Maintenance" 95 0 2 0 0) "hub" 3
           (fun _ => 0.5%Q) Hr).
Defined.

(** C3 as stated fails: a facility under Maintenance with two hours of
    cool-down left, updated after three hours, returns to Operational in
    that very call, although its cool-down was positive before the call. *)
Lemma cooldown_gate_counterexample :
  let s := Sim.mk_state 200 0.9 "Maintenance" 95 0 2 0 0 in
  let s' := fst (Sim._update_facility_state s "hub" 3 (fun _ => 0%Q)) in
  (0 <= 3)%Q
  /\ Sim.equipment_status s = "Maintenance"%string
  /\ Sim.equipment_status s' = "Operational"%string
  /\ ~ (Sim.equipment_change_cooldown s <= 0)%Q.
Proof.
  cbv zeta. split; [lra |]. split; [reflexivity |]. split; [reflexivity |].
  cbn. lra.
Qed.

Section Relaxation.
Import Sim.

(** A step by a fraction [c] of the gap, with [0 <= c <= 1], lands
    between the current value and the target. *)
Lemma step_between (current target c : Q) :
  (0 <= c)%Q -> (c <= 1)%Q ->
  ((current <= target ->
    current <= current + (target - current) * c
    /\ current + (target - current) * c <= target)
   /\ (target <= current ->
       target <= current + (target - current) * c
       /\ current + (target - current) * c <= current))%Q.
Proof. intros H0 H1. split; intros Hg; split; nra. Qed.

Lemma min_one (x : Q) : (x <= 1)%Q -> (Py.min 1 x == x)%Q.
Proof.
  intros H. unfold Py.min. case_ltb; [reflexivity | lra].
Qed.

Lemma clamp_compat (lo hi x y : Q) :
  (x == y)%Q -> (Py.max lo (Py.min hi x) == Py.max lo (Py.min hi y))%Q.
Proof.
  intros H. unfold Py.min.
  destruct (Py.ltb x hi) eqn:E1; [apply ltb_lt in E1 | apply ltb_ge in E1];
    (destruct (Py.ltb y hi) eqn:E2; [apply ltb_lt in E2 | apply ltb_ge in E2]);
    unfold Py.max; repeat case_ltb; lra.
Qed.

Lemma before_productivity_rate (s : facility_state) (ft : string) (h : Q) (r : rng) :
  productivity_rate (before_productivity s ft h r) = productivity_rate s
  /\ delivery_timeliness (before_productivity s ft h r) = delivery_timeliness s.
Proof.
  unfold before_productivity.
  destruct (equipment_phase_frame s h r) as (_ & P1 & T1 & _).
  destruct (equipment_phase s h r) as [s1 r1]. cbn [fst] in *.
  destruct (staffing_frame s1 ft h r1) as (P2 & _ & T2 & _).
  split; congruence.
Qed.

Lemma update_via_before_productivity
    (s : facility_state) (ft : string) (h : Q) (r : rng) :
  fst (_update_facility_state s ft h r) =
  _update_downtime
    (_update_timeliness
       (_update_productivity (before_productivity s ft h r) ft h) ft h) h.
Proof.
  rewrite update_unfold. unfold before_productivity.
  destruct (equipment_phase s h r) as [s1 r1]. reflexivity.
Qed.

End Relaxation.

(** The relaxation steps as they are computed.  [_update_productivity]
    moves productivity_rate by [0.1 * hours_elapsed] times the gap to its
    target and clamps to [0.1,1.3]; [_update_timeliness] moves
    delivery_timeliness by [0.2 * hours_elapsed] times its gap and clamps
    to [60,99.9].  Inside a whole update the productivity target is taken
    from the state whose equipment and staffing are already updated and
    the timeliness target from the state whose productivity is updated
    too.  Up to 10 elapsed hours (productivity) and 5 elapsed hours
    (timeliness) this is the step of the specification, and the moved
    value lies between the current value and the target. *)
Lemma relaxation_step (s : Sim.facility_state) (facility_type : string)
    (hours_elapsed : Q) (r : rng) :
  let p := Sim.productivity_rate s in
  let t := Sim.delivery_timeliness s in
  let tp := Sim.target_productivity s facility_type in
  let tt := Sim.target_timeliness s facility_type in
  let moved_p := (p + (tp - p) * (0.1 * hours_elapsed))%Q in
  let moved_t := (t + (tt - t) * (0.2 * hours_elapsed))%Q in
  let s2 := Sim.before_productivity s facility_type hours_elapsed r in
  let s3 := Sim._update_productivity s2 facility_type hours_elapsed in
  let s' := fst (Sim._update_facility_state s facility_type hours_elapsed r) in
  Sim.productivity_rate (Sim._update_productivity s facility_type hours_elapsed)
    = Py.max 0.1 (Py.min 1.3 moved_p)
  /\ Sim.delivery_timeliness (Sim._update_timeliness s facility_type hours_elapsed)
     = Py.max 60.0 (Py.min 99.9 moved_t)
  /\ Sim.productivity_rate s'
     = Py.max 0.1
         (Py.min 1.3
            (p + (Sim.target_productivity s2 facility_type - p)
                 * (0.1 * hours_elapsed)))
  /\ Sim.delivery_timeliness s'
     = Py.max 60.0
         (Py.min 99.9
            (t + (Sim.target_timeliness s3 facility_type - t)
                 * (0.2 * hours_elapsed)))
  /\ ((0 <= hours_elapsed)%Q -> (hours_elapsed <= 10)%Q ->
      (Sim.productivity_rate (Sim._update_productivity s facility_type hours_elapsed)
       == Sim.spec_relax 0.1 1.3 0.1 p tp hours_elapsed)%Q
      /\ (p <= tp -> p <= moved_p /\ moved_p <= tp)%Q
      /\ (tp <= p -> tp <= moved_p /\ moved_p <= p)%Q)
  /\ ((0 <= hours_elapsed)%Q -> (hours_elapsed <= 5)%Q ->
      (Sim.delivery_timeliness (Sim._update_timeliness s facility_type hours_elapsed)
       == Sim.spec_relax 60.0 99.9 0.2 t tt hours_elapsed)%Q
      /\ (t <= tt -> t <= moved_t /\ moved_t <= tt)%Q
      /\ (tt <= t -> tt <= moved_t /\ moved_t <= t)%Q).
Proof.
  cbv zeta.
  destruct (before_productivity_rate s facility_type hours_elapsed r) as [Bp Bt].
  split; [reflexivity |]. split; [reflexivity |].
  split.
  { rewrite update_via_before_productivity.
    set (s2 := Sim.before_productivity s facility_type hours_elapsed r) in *.
    set (s3 := Sim._update_productivity s2 facility_type hours_elapsed).
    set (s4 := Sim._update_timeliness s3 facility_type hours_elapsed).
    destruct (downtime_frame s4 hours_elapsed) as (_ & _ & F & _).
    rewrite F. cbn. rewrite Bp. reflexivity. }
  split.
  { rewrite update_via_before_productivity.
    set (s2 := Sim.before_productivity s facility_type hours_elapsed r) in *.
    set (s3 := Sim._update_productivity s2 facility_type hours_elapsed).
    set (s4 := Sim._update_timeliness s3 facility_type hours_elapsed).
    destruct (downtime_frame s4 hours_elapsed) as (_ & _ & _ & F & _).
    rewrite F. cbn. rewrite Bt. reflexivity. }
  split.
  - intros H0 H10.
    destruct (step_between (Sim.productivity_rate s)
                (Sim.target_productivity s facility_type) (0.1 * hours_elapsed))
      as [Hup Hdown]; [lra | lra |].
    split; [| split; assumption].
    unfold Sim.spec_relax. cbn. apply clamp_compat.
    rewrite (min_one (0.1 * hours_elapsed)) by lra. reflexivity.
  - intros H0 H5.
    destruct (step_between (Sim.delivery_timeliness s)
                (Sim.target_timeliness s facility_type) (0.2 * hours_elapsed))
      as [Hup Hdown]; [lra | lra |].
    split; [| split; assumption].
    unfold Sim.spec_relax. cbn. apply clamp_compat.
    rewrite (min_one (0.2 * hours_elapsed)) by lra. reflexivity.
Qed.

(** C4.  The code departs from the claim, and from its own comment
    (gradual change toward target), once the elapsed time passes 10
    hours for productivity or 5 hours for timeliness: the multiplier
    [0.1 * hours_elapsed] (resp. [0.2 * hours_elapsed]) is applied with
    no cap at 1.  After 20 hours a hub at productivity 0.5 with target
    0.95 is moved to 1.4, past the target, and ends at the clamp 1.3
    where the claim gives 0.95; a hub at timeliness 70 with target 86.4
    ends at the clamp 99.9 where the claim gives 86.4.  The same through
    a whole update and through [get_facility_metrics] called 72000
    seconds after the previous call. *)
Theorem relaxation_overshoot :
  let s := Sim.mk_state 200 0.5 "Operational" 90 0 0 0 0 in
  let s2 := Sim.mk_state 200 0.9 "Operational" 70 0 0 0 0 in
  let r : rng := fun _ => 0.5%Q in
  let provider :=
    Sim.mk_provider 0.05 {[ 1 := s ]} {[ 1 := 8000%Q ]} in
  (Sim.target_productivity s "hub" == 0.95)%Q
  /\ (Sim.spec_relax 0.1 1.3 0.1 (Sim.productivity_rate s)
        (Sim.target_productivity s "hub") 20 == 0.95)%Q
  /\ (Sim.productivity_rate s
      + (Sim.target_productivity s "hub" - Sim.productivity_rate s) * (0.1 * 20)
      == 1.4)%Q
  /\ (Sim.productivity_rate (Sim._update_productivity s "hub" 20) == 1.3)%Q
  /\ (Sim.target_timeliness s2 "hub" == 86.4)%Q
  /\ (Sim.spec_relax 60.0 99.9 0.2 (Sim.delivery_timeliness s2)
        (Sim.target_timeliness s2 "hub") 20 == 86.4)%Q
  /\ (Sim.delivery_timeliness (Sim._update_timeliness s2 "hub" 20) == 99.9)%Q
  /\ (Sim.target_productivity (Sim.before_productivity s "hub" 20 r) "hub"
      == 0.95)%Q
  /\ (Sim.productivity_rate (fst (Sim._update_facility_state s "hub" 20 r))
      == 1.3)%Q
  /\ (Float.div (80000 - 8000) 3600 == 20)%Q
  /\ match fst (fst (Sim.get_facility_metrics provider 1 "hub" 80000 r)) with
     | Some m => (Sim.Metrics.productivity_rate m == 1.3)%Q
     | None => False
     end.
Proof.
  cbv zeta.
  do 10 (split; [vm_compute; reflexivity |]).
  vm_compute. reflexivity.
Qed.

Section Downtime.
Import Sim.

Lemma update_downtime_field (s : facility_state) (ft : string) (h : Q) (r : rng) :
  let s' := fst (_update_facility_state s ft h r) in
  exists s4,
    s' = _update_downtime s4 h
    /\ equipment_status s4 = equipment_status s'
    /\ downtime_minutes s4 = downtime_minutes s.
Proof.
  cbv zeta. rewrite update_unfold.
  set (s1 := fst (equipment_phase s h r)).
  set (r1 := snd (equipment_phase s h r)).
  set (s2 := fst (_update_staffing_level s1 ft h r1)).
  set (s3 := _update_productivity s2 ft h).
  set (s4 := _update_timeliness s3 ft h).
  exists s4.
  destruct (downtime_frame s4 h) as (_ & E4 & _).
  destruct (equipment_phase_frame s h r) as (_ & _ & _ & D1 & _).
  destruct (staffing_frame s1 ft h r1) as (_ & _ & _ & D2 & _).
  fold s1 in D1. fold s2 in D2.
  split; [reflexivity |]. split; [symmetry; exact E4 |].
  cbn. congruence.
Qed.

Lemma downtime_cases (s : facility_state) (h : Q) :
  (equipment_status s = "Down"%string ->
   downtime_minutes (_update_downtime s h)
   = Z.min 480 (downtime_minutes s + Py.int (Float.mul h 60)))
  /\ (equipment_status s = "Operational"%string ->
      downtime_minutes (_update_downtime s h)
      = Z.max 0 (downtime_minutes s - Py.int (Float.mul h 30)))
  /\ (equipment_status s <> "Down"%string ->
      equipment_status s <> "Operational"%string ->
      _update_downtime s h = s).
Proof.
  unfold _update_downtime. repeat split.
  - intros E. rewrite E. reflexivity.
  - intros E. rewrite E. reflexivity.
  - intros Hd Ho.
    destruct (String.eqb_spec (equipment_status s) "Down"); [contradiction |].
    destruct (String.eqb_spec (equipment_status s) "Operational");
      [contradiction | reflexivity].
Qed.

(** The truncated float product is within one of the exact product of
    the float with the whole factor. *)
Lemma int_mul_near (h : Q) (c : Z) :
  (0 <= h)%Q -> 0 <= c < 2 ^ 53 ->
  (Float.round h * inject_Z c < 2 ^ 53)%Q ->
  (Float.round h * inject_Z c - 1 < inject_Z (Py.int (Float.mul h (inject_Z c)))
   /\ inject_Z (Py.int (Float.mul h (inject_Z c)))
      < Float.round h * inject_Z c + 1)%Q.
Proof.
  intros Hh Hc Hlt.
  pose proof (round_nonneg h Hh) as Hrh.
  assert (Hrc : (Float.round (inject_Z c) == inject_Z c)%Q)
    by (apply round_integer; [exact Hc | reflexivity]).
  assert (H0c : (0 <= inject_Z c)%Q)
    by (change 0%Q with (inject_Z 0); rewrite <- Zle_Qle; lia).
  unfold Float.mul.
  set (y := (Float.round h * Float.round (inject_Z c))%Q).
  assert (Hy : (y == Float.round h * inject_Z c)%Q)
    by (unfold y; rewrite Hrc; reflexivity).
  assert (Hy0 : (0 <= y)%Q)
    by (rewrite Hy; apply Qmult_le_0_compat; assumption).
  assert (Hy53 : (y < 2 ^ 53)%Q) by (rewrite Hy; exact Hlt).
  destruct (round_floor_ceiling y Hy0 Hy53) as [Hf Hce].
  pose proof (round_nonneg y Hy0) as Hr0.
  rewrite int_floor by exact Hr0. rewrite <- Hy.
  pose proof (Qfloor_le (Float.round y)) as F1.
  pose proof (Qlt_floor y) as F2.
  pose proof (Qceiling_lt y) as F3.
  assert (F4 : Qfloor y <= Qfloor (Float.round y)).
  { rewrite <- (Qfloor_Z (Qfloor y)). apply Qfloor_resp_le. exact Hf. }
  rewrite Zle_Qle in F4.
  rewrite inject_Z_plus in F2. unfold Z.sub in F3. rewrite inject_Z_plus in F3.
  change (inject_Z 1) with 1%Q in F2. change (inject_Z (- (1))) with (-1)%Q in F3.
  split; lra.
Qed.

End Downtime.

(** C8, as the code has it.  In one update, for the equipment_status the
    update ends with: Down adds int(elapsed_hours * 60) minutes, capped at
    480; Operational subtracts int(elapsed_hours * 30) minutes, floored
    at 0; any other status, Maintenance among them, leaves
    downtime_minutes as it was.  The products are float products and
    int truncates them: for non-negative elapsed_hours (below 2^53
    minutes) the whole number added or subtracted is within one minute
    of 60, or 30, times the elapsed hours as the float holds them. *)
Theorem downtime_step (s : Sim.facility_state) (facility_type : string)
    (hours_elapsed : Q) (r : rng) :
  let s' := fst (Sim._update_facility_state s facility_type hours_elapsed r) in
  let up := Py.int (Float.mul hours_elapsed 60) in
  let down := Py.int (Float.mul hours_elapsed 30) in
  (Sim.equipment_status s' = "Down"%string ->
   Sim.downtime_minutes s' = Z.min 480 (Sim.downtime_minutes s + up))
  /\ (Sim.equipment_status s' = "Operational"%string ->
      Sim.downtime_minutes s' = Z.max 0 (Sim.downtime_minutes s - down))
  /\ (Sim.equipment_status s' = "Maintenance"%string ->
      Sim.downtime_minutes s' = Sim.downtime_minutes s)
  /\ (Sim.equipment_status s' <> "Down"%string ->
      Sim.equipment_status s' <> "Operational"%string ->
      Sim.downtime_minutes s' = Sim.downtime_minutes s)
  /\ ((0 <= hours_elapsed)%Q -> (Float.round hours_elapsed * 60 < 2 ^ 53)%Q ->
      (Float.round hours_elapsed * 60 - 1 < inject_Z up
       /\ inject_Z up < Float.round hours_elapsed * 60 + 1)%Q
      /\ (Float.round hours_elapsed * 30 - 1 < inject_Z down
          /\ inject_Z down < Float.round hours_elapsed * 30 + 1)%Q).
Proof.
  intros s' up down.
  destruct (update_downtime_field s facility_type hours_elapsed r)
    as (s4 & Es & Est & Ed).
  fold s' in Es, Est.
  destruct (downtime_cases s4 hours_elapsed) as (Hdown & Hop & Hother).
  assert (Hrest : Sim.equipment_status s' <> "Down"%string ->
                  Sim.equipment_status s' <> "Operational"%string ->
                  Sim.downtime_minutes s' = Sim.downtime_minutes s).
  { intros Hd Ho. rewrite Es, Hother by congruence. exact Ed. }
  split; [| split; [| split; [| split]]].
  - intros E. rewrite Es, Hdown by congruence. rewrite Ed. reflexivity.
  - intros E. rewrite Es, Hop by congruence. rewrite Ed. reflexivity.
  - intros E. apply Hrest; rewrite E; discriminate.
  - exact Hrest.
  - intros H0 H53. pose proof (round_nonneg hours_elapsed H0) as Hr. split.
    + apply (int_mul_near hours_elapsed 60 H0); [lia | exact H53].
    + apply (int_mul_near hours_elapsed 30 H0); [lia |].
      change (inject_Z 30) with 30%Q. lra.
Qed.

Lemma downtime_step_witness :
  let s := Sim.mk_state 200 0.9 "Down" 95 100 5 0 0 in
  let s' := fst (Sim._update_facility_state s "hub" 2 (fun _ => 0.5%Q)) in
  Sim.equipment_status s' = "Down"%string
  /\ Sim.downtime_minutes s' = 220
  /\ (0 <= 2)%Q /\ (Float.round 2 * 60 < 2 ^ 53)%Q
  /\ (Float.round 2 * 60 - 1 < inject_Z (Py.int (Float.mul 2 60)))%Q.
Proof.
  cbv zeta.
  assert (E : Sim.equipment_status
                (fst (Sim._update_facility_state
                        (Sim.mk_state 200 0.9 "Down" 95 100 5 0 0) "hub" 2
                        (fun _ => 0.5%Q))) = "Down"%string) by (vm_compute; reflexivity).
  assert (H0 : (0 <= 2)%Q) by lra.
  assert (H53 : (Float.round 2 * 60 < 2 ^ 53)%Q) by (vm_compute; reflexivity).
  split; [exact E |].
  destruct (downtime_step (Sim.mk_state 200 0.9 "Down" 95 100 5 0 0) "hub" 2
              (fun _ => 0.5%Q)) as (Hdown & _ & _ & _ & Hnear).
  split; [rewrite (Hdown E); vm_compute; reflexivity |].
  split; [exact H0 |]. split; [exact H53 |].
  exact (proj1 (proj1 (Hnear H0 H53))).
Defined.

(** C8 as stated fails.  A facility that is Down and is updated after a
    hundredth of an hour keeps its downtime of 0 minutes, where the claim
    has it grow by 60 * 0.01 = 0.6 minutes.  Nor are whole minutes safe:
    after a gap of 7380 seconds, 123 minutes, the float product is just
    below 123 and the update adds 122. *)
Lemma downtime_step_counterexample :
  let s := Sim.mk_state 200 0.9 "Down" 95 0 0 0 0 in
  (0 <= 0.01)%Q
  /\ Sim.equipment_status s = "Down"%string
  /\ Sim.downtime_minutes (Sim._update_downtime s 0.01) = 0
  /\ (Sim.spec_downtime_down (Sim.downtime_minutes s) 0.01 == 0.6)%Q
  /\ ~ (inject_Z (Sim.downtime_minutes (Sim._update_downtime s 0.01))
        == Sim.spec_downtime_down (Sim.downtime_minutes s) 0.01)%Q
  /\ Sim.downtime_minutes (Sim._update_downtime s (Float.div 7380 3600)) = 122
  /\ (Sim.spec_downtime_down (Sim.downtime_minutes s) (7380 / 3600) == 123)%Q.
Proof.
  cbv zeta. split; [lra |]. split; [reflexivity |].
  split; [vm_compute; reflexivity |].
  split; [vm_compute; reflexivity |].
  split; [intros H; vm_compute in H; discriminate |].
  split; vm_compute; reflexivity.
Qed.

Section Provider.
Import Sim.

Lemma get_unavailable (p : provider) (fid : Z) (ft : string) (now : Q) (r : rng) :
  Py.ltb (r O) (failure_rate p) = true ->
  get_facility_metrics p fid ft now r = (None, p, Random.tail r).
Proof.
  intros H. unfold get_facility_metrics, Random.random. rewrite H. reflexivity.
Qed.

Lemma get_available (p : provider) (fid : Z) (ft : string) (now : Q) (r : rng)
    (s : facility_state) (t0 : Q) :
  Py.ltb (r O) (failure_rate p) = false ->
  facility_states p !! fid = Some s ->
  last_update_time p !! fid = Some t0 ->
  let p' := snd (fst (get_facility_metrics p fid ft now r)) in
  facility_states p' !! fid
  = Some (fst (_update_facility_state s ft (Float.div (now - t0) 3600) (Random.tail r)))
  /\ last_update_time p' !! fid = Some now.
Proof.
  intros H Hs Ht. unfold get_facility_metrics, Random.random.
  rewrite H, Hs, Ht. cbn [default from_option]. unfold id.
  destruct (_update_facility_state s ft (Float.div (now - t0) 3600) (Random.tail r))
    as [s' r'].
  cbn [fst snd facility_states last_update_time].
  split; apply lookup_insert_eq.
Qed.

End Provider.

(** The failing call is the identity on the provider. *)
Lemma unavailable_is_identity (p : Sim.provider) (facility_id : Z)
    (facility_type : string) (now : Q) (r : rng) :
  fst (fst (Sim.get_facility_metrics p facility_id facility_type now r)) = None ->
  Sim.get_facility_metrics p facility_id facility_type now r
  = (None, p, Random.tail r).
Proof.
  unfold Sim.get_facility_metrics, Random.random.
  destruct (Py.ltb (r O) (Sim.failure_rate p)); [reflexivity |].
  destruct (match Sim.facility_states p !! facility_id with
            | Some s => (s, Random.tail r)
            | None => Sim._initialize_facility_state facility_type (Random.tail r)
            end) as [s0 r0].
  destruct (Sim._update_facility_state s0 facility_type _ r0) as [s1 r1].
  cbn. discriminate.
Qed.

(** C10.  When [get_facility_metrics] returns None, the provider it
    leaves behind (facility_states, last_update_time, failure_rate) is
    exactly the one it was called on.  A later call that succeeds, for a
    facility with stored state s last updated at t0, then evolves s by
    the hours elapsed since t0 (the float quotient of the seconds by
    3600), the skipped interval included, and only then moves
    last_update_time to its own time. *)
Theorem unavailable_keeps_state (p : Sim.provider) (facility_id : Z)
    (facility_type : string) (t1 : Q) (r : rng) :
  let call1 := Sim.get_facility_metrics p facility_id facility_type t1 r in
  fst (fst call1) = None ->
  snd (fst call1) = p
  /\ forall (t2 : Q) (s : Sim.facility_state) (t0 : Q),
       let call2 :=
         Sim.get_facility_metrics (snd (fst call1)) facility_id facility_type t2
           (snd call1) in
       fst (fst call2) <> None ->
       Sim.facility_states p !! facility_id = Some s ->
       Sim.last_update_time p !! facility_id = Some t0 ->
       Sim.facility_states (snd (fst call2)) !! facility_id
       = Some (fst (Sim._update_facility_state s facility_type (Float.div (t2 - t0) 3600)
                      (Random.tail (snd call1))))
       /\ Sim.last_update_time (snd (fst call2)) !! facility_id = Some t2.
Proof.
  intros call1 Hnone. subst call1.
  rewrite (unavailable_is_identity p facility_id facility_type t1 r Hnone).
  cbn [fst snd]. split; [reflexivity |].
  intros t2 s t0 Hsome Hs Ht.
  destruct (Py.ltb (Random.tail r O) (Sim.failure_rate p)) eqn:Hdraw.
  - rewrite get_unavailable in Hsome by exact Hdraw. contradiction.
  - apply get_available; assumption.
Qed.

Lemma unavailable_keeps_state_witness :
  let s := Sim.mk_state 200 0.9 "Operational" 95 0 0 0 0 in
  let p := Sim.mk_provider 0.05 {[ 7 := s ]} {[ 7 := 1000%Q ]} in
  let r : rng := fun n => match n with O => 0.01%Q | _ => 0.5%Q end in
  let call1 := Sim.get_facility_metrics p 7 "hub" 1600 r in
  let call2 := Sim.get_facility_metrics (snd (fst call1)) 7 "hub" 2200 (snd call1) in
  fst (fst call1) = None
  /\ snd (fst call1) = p
  /\ Sim.last_update_time (snd (fst call2)) !! 7 = Some 2200%Q.
Proof.
  cbv zeta.
  set (s := Sim.mk_state 200 0.9 "Operational" 95 0 0 0 0).
  set (p := Sim.mk_provider 0.05 {[ 7 := s ]} {[ 7 := 1000%Q ]}).
  set (r := fun n : nat => match n with O => 0.01%Q | _ => 0.5%Q end).
  assert (Hnone : fst (fst (Sim.get_facility_metrics p 7 "hub" 1600 r)) = None)
    by reflexivity.
  destruct (unavailable_keeps_state p 7 "hub" 1600 r Hnone) as [Hsame Hnext].
  split; [exact Hnone |]. split; [exact Hsame |].
  refine (proj2 (Hnext 2200%Q s 1000%Q _ _ _)).
  - vm_compute. discriminate.
  - apply lookup_singleton_eq.
  - apply lookup_singleton_eq.
Defined.

(* ================================================================== *)
(** * The retrying wrapper *)
(* ================================================================== *)

Section RetryFacts.
Context {W A : Type}.
Implicit Types (op : Retry.operation W A) (w : W) (r : rng).

(** The back-off delay is never negative for a non-negative base. *)
Lemma delay_nonneg (base_delay : Q) (attempt : Z) (r : rng) :
  (0 <= base_delay)%Q -> Random.well_formed r ->
  Py.ltb (base_delay * 2 ^ attempt + fst (Random.uniform 0 0.1 r)) 0 = false.
Proof.
  intros Hb Hr. apply ltb_ge.
  destruct (uniform_range 0 0.1 r Hr ltac:(lra)) as [Hj _].
  assert (Hp : (0 <= 2 ^ attempt)%Q) by (apply Qpower_0_le; lra).
  nra.
Qed.

(** One turn of the loop, case by case. *)
Lemma loop_return op max_retries base_delay attempt rest r w v w' :
  op w = (Return v, w') ->
  Retry.loop op max_retries base_delay (attempt :: rest) r w
  = Retry.mk_result (Return (Some v)) w' r [Retry.Invoke attempt].
Proof. intros H. cbn [Retry.loop]. rewrite H. reflexivity. Qed.

Lemma loop_raise op max_retries base_delay attempt rest r w e w' :
  op w = (Raise e, w') ->
  Retry.transient e && (attempt <? max_retries - 1) = false ->
  Retry.loop op max_retries base_delay (attempt :: rest) r w
  = Retry.mk_result (Raise e) w' r [Retry.Invoke attempt].
Proof.
  intros H Hno. cbn [Retry.loop]. rewrite H.
  destruct e as [[msg | msg] | | msg]; try reflexivity.
  cbn [Retry.transient] in Hno. rewrite Hno. reflexivity.
Qed.

Lemma loop_retry op max_retries base_delay attempt rest r w e w' :
  (0 <= base_delay)%Q -> Random.well_formed r ->
  op w = (Raise e, w') ->
  Retry.transient e = true -> attempt < max_retries - 1 ->
  Retry.loop op max_retries base_delay (attempt :: rest) r w
  = Retry.after
      [Retry.Invoke attempt;
       Retry.Sleep (base_delay * 2 ^ attempt + fst (Random.uniform 0 0.1 r))]
      (Retry.loop op max_retries base_delay rest (Random.tail r) w').
Proof.
  intros Hb Hr H Ht Hlt. cbn [Retry.loop]. rewrite H.
  destruct e as [[msg | msg] | | msg]; try discriminate.
  cbn [Retry.transient] in Ht. rewrite Ht.
  apply Z.ltb_lt in Hlt. rewrite Hlt. cbn [andb].
  pose proof (delay_nonneg base_delay attempt r Hb Hr) as Hd.
  unfold Random.uniform, Random.random in *. cbn [fst] in Hd.
  rewrite Hd. reflexivity.
Qed.

(** Whatever holds of the state before an attempt and survives a failed
    attempt still holds when the wrapper gives up. *)
Lemma loop_invariant (P Q : W -> Prop) op max_retries base_delay :
  (forall w, P w ->
     match op w with
     | (Return _, w') => Q w'
     | (Raise _, w') => P w'
     end) ->
  forall attempts r w, P w ->
    let res := Retry.loop op max_retries base_delay attempts r w in
    match Retry.value res with
    | Return (Some _) => Q (Retry.final res)
    | _ => P (Retry.final res)
    end.
Proof.
  intros Hop attempts. induction attempts as [| attempt rest IH]; intros r w Hw.
  - exact Hw.
  - cbn [Retry.loop]. specialize (Hop w Hw).
    destruct (op w) as [[v | e] w']; [exact Hop |].
    destruct e as [[msg | msg] | | msg]; try exact Hop.
    destruct (Retry.is_locked msg && (attempt <? max_retries - 1));
      [| exact Hop].
    unfold Random.uniform, Random.random.
    destruct (Py.ltb _ 0); [exact Hop |].
    apply (IH (Random.tail r) w' Hop).
Qed.

End RetryFacts.

(** C6.  With max_retries = 3, a non-negative base delay and a generator
    that keeps its contract: an operation that raises the locked-database
    error on every attempt is invoked exactly three times, with two
    back-off sleeps in between, and the error of the third attempt
    reaches the caller; an operation that raises it once and then
    returns is invoked twice with exactly one sleep of
    base_delay * 2^0 + jitter, and its value is returned; any other error
    reaches the caller after the single first attempt, with no sleep. *)
Theorem retry_bound {W A : Type} (operation_func : Retry.operation W A)
    (base_delay : Q) (r : rng) (w : W) :
  (0 <= base_delay)%Q -> Random.well_formed r ->
  let res := Retry.retry_db_operation operation_func 3 base_delay r w in
  let w1 := snd (operation_func w) in
  let w2 := snd (operation_func w1) in
  ((forall w', exists e,
       fst (operation_func w') = Raise e /\ Retry.transient e = true) ->
   Retry.invocations res = 3%nat
   /\ Retry.delays res = 2%nat
   /\ Retry.final res = snd (operation_func w2)
   /\ exists e, fst (operation_func w2) = Raise e /\ Retry.value res = Raise e)
  /\ (forall e v,
        fst (operation_func w) = Raise e -> Retry.transient e = true ->
        fst (operation_func w1) = Return v ->
        Retry.value res = Return (Some v)
        /\ Retry.final res = w2
        /\ Retry.trace res
           = [Retry.Invoke 0;
              Retry.Sleep (base_delay * 2 ^ 0 + fst (Random.uniform 0 0.1 r));
              Retry.Invoke 1]
        /\ Retry.invocations res = 2%nat
        /\ Retry.delays res = 1%nat)
  /\ (forall e,
        fst (operation_func w) = Raise e -> Retry.transient e = false ->
        Retry.value res = Raise e
        /\ Retry.final res = w1
        /\ Retry.trace res = [Retry.Invoke 0]
        /\ Retry.invocations res = 1%nat
        /\ Retry.delays res = 0%nat).
Proof.
  intros Hb Hr. cbv zeta. unfold Retry.retry_db_operation.
  change (Retry.range 3) with [0; 1; 2].
  pose proof (well_formed_tail _ Hr) as Hr1.
  split; [| split].
  - intros Hbusy.
    destruct (Hbusy w) as (e0 & E0 & T0).
    destruct (operation_func w) as [o0 w1] eqn:Op0. cbn [fst snd] in *. subst o0.
    destruct (Hbusy w1) as (e1 & E1 & T1).
    destruct (operation_func w1) as [o1 w2] eqn:Op1. cbn [fst snd] in *. subst o1.
    destruct (Hbusy w2) as (e2 & E2 & T2).
    destruct (operation_func w2) as [o2 w3] eqn:Op2. cbn [fst snd] in *. subst o2.
    rewrite (loop_retry _ _ _ _ _ _ _ _ _ Hb Hr Op0 T0) by lia.
    rewrite (loop_retry _ _ _ _ _ _ _ _ _ Hb Hr1 Op1 T1) by lia.
    rewrite (loop_raise _ _ _ _ _ _ _ _ _ Op2)
      by (rewrite T2; reflexivity).
    repeat split. exists e2. split; reflexivity.
  - intros e v E0 T0 E1.
    destruct (operation_func w) as [o0 w1] eqn:Op0. cbn [fst snd] in *. subst o0.
    destruct (operation_func w1) as [o1 w2] eqn:Op1. cbn [fst snd] in *. subst o1.
    rewrite (loop_retry _ _ _ _ _ _ _ _ _ Hb Hr Op0 T0) by lia.
    rewrite (loop_return _ _ _ _ _ _ _ _ _ Op1).
    repeat split.
  - intros e E0 T0.
    destruct (operation_func w) as [o0 w1] eqn:Op0. cbn [fst snd] in *. subst o0.
    rewrite (loop_raise _ _ _ _ _ _ _ _ _ Op0)
      by (rewrite T0; reflexivity).
    repeat split.
Qed.

Lemma retry_bound_witness :
  let busy : Retry.operation nat unit :=
    fun n => (Raise (Sqlite (OperationalError "Database is locked")), S n) in
  let r : rng := fun _ => 0.5%Q in
  (0 <= 0.1)%Q /\ Random.well_formed r
  /\ Retry.invocations (Retry.retry_db_operation busy 3 0.1 r O) = 3%nat
  /\ Retry.delays (Retry.retry_db_operation busy 3 0.1 r O) = 2%nat
  /\ Retry.final (Retry.retry_db_operation busy 3 0.1 r O) = 3%nat.
Proof.
  cbv zeta.
  set (busy := fun n : nat =>
                 (@Raise unit (Sqlite (OperationalError "Database is locked")), S n)).
  set (r := fun _ : nat => 0.5%Q).
  assert (Hb : (0 <= 0.1)%Q) by lra.
  assert (Hr : Random.well_formed r) by (intros n; split; unfold r; lra).
  destruct (retry_bound busy 0.1 r O Hb Hr) as (Hbusy & _).
  destruct Hbusy as (Hi & Hd & Hf & _).
  { intros w'. eexists. split; reflexivity. }
  repeat split; assumption.
Defined.

(* ================================================================== *)
(** * Reasoning about the storage monad *)
(* ================================================================== *)

Section StoreFacts.
Import Store.

Lemma transaction_eq {A : Type} (effect : world -> A * world) (w : world) :
  transaction effect w =
  match snd (env w O) with
  | Some e => (Raise (Sqlite e), tick w)
  | None => (Return (fst (effect (tick w))), snd (effect (tick w)))
  end.
Proof.
  unfold transaction, tick. destruct (env w O) as [dt fault]. cbn [fst snd].
  destruct fault; [reflexivity |].
  destruct (effect _) as [v w2]. reflexivity.
Qed.


Lemma clock_tick (w : world) : clock w <= clock (tick w).
Proof. cbn. lia. Qed.

Lemma hoare_bind {A B : Type} (P : world -> Prop) (m : M A) (k : A -> M B)
    (R : A -> world -> Prop) (Q : outcome B -> world -> Prop) :
  hoare P m (fun o w => match o with
                        | Return v => R v w
                        | Raise e => Q (Raise e) w
                        end) ->
  (forall v, hoare (R v) (k v) Q) ->
  hoare P (bind m k) Q.
Proof.
  intros Hm Hk w Hw. specialize (Hm w Hw). unfold bind.
  destruct (m w) as [[v | e] w']; cbn [fst snd] in *.
  - apply Hk. exact Hm.
  - exact Hm.
Qed.

Lemma hoare_try {A : Type} (P : world -> Prop) (m : M A) (handler : exn -> M A)
    (R : exn -> world -> Prop) (Q : outcome A -> world -> Prop) :
  hoare P m (fun o w => match o with
                        | Return v => Q (Return v) w
                        | Raise e => R e w
                        end) ->
  (forall e, hoare (R e) (handler e) Q) ->
  hoare P (try m handler) Q.
Proof.
  intros Hm Hh w Hw. specialize (Hm w Hw). unfold try.
  destruct (m w) as [[v | e] w']; cbn [fst snd] in *.
  - exact Hm.
  - apply Hh. exact Hm.
Qed.

Lemma preserves_ret {A : Type} (I : world -> Prop) (v : A) : preserves I (ret v).
Proof. intros w Hw. exact Hw. Qed.

Lemma preserves_bind {A B : Type} (I : world -> Prop) (m : M A) (k : A -> M B) :
  preserves I m -> (forall v, preserves I (k v)) -> preserves I (bind m k).
Proof.
  intros Hm Hk. apply hoare_bind with (R := fun _ w => I w).
  - intros w Hw. specialize (Hm w Hw). destruct (fst (m w)); exact Hm.
  - exact Hk.
Qed.

Lemma preserves_try {A : Type} (I : world -> Prop) (m : M A) (handler : exn -> M A) :
  preserves I m -> (forall e, preserves I (handler e)) ->
  preserves I (try m handler).
Proof.
  intros Hm Hh. apply hoare_try with (R := fun _ w => I w).
  - intros w Hw. specialize (Hm w Hw). destruct (fst (m w)); exact Hm.
  - exact Hh.
Qed.

Lemma preserves_for_each {X : Type} (I : world -> Prop) (l : list X)
    (body : X -> M unit) :
  (forall x, preserves I (body x)) -> preserves I (for_each l body).
Proof.
  intros Hb. induction l as [| x rest IH]; cbn [for_each].
  - apply preserves_ret.
  - apply preserves_bind; [apply Hb | intros _; exact IH].
Qed.

(** A transaction maintains what the passing of time maintains and its
    effect maintains. *)
Lemma preserves_transaction {A : Type} (I : world -> Prop)
    (effect : world -> A * world) :
  (forall w, I w -> I (tick w)) ->
  (forall w, I w -> I (snd (effect w))) ->
  preserves I (transaction effect).
Proof.
  intros Ht He w Hw. rewrite transaction_eq.
  destruct (snd (env w O)); cbn [snd]; [apply Ht | apply He, Ht]; exact Hw.
Qed.

(** The same under the retrying wrapper; the generator it advances is
    no part of [I]. *)
Lemma with_retry_cases (P Q : world -> Prop) (operation_func : M unit) :
  (forall w, P w ->
     match operation_func w with
     | (Return _, w') => Q w'
     | (Raise _, w') => P w'
     end) ->
  (forall w r, P w -> P (set_rand r w)) ->
  (forall w r, Q w -> Q (set_rand r w)) ->
  forall w, P w ->
    P (snd (with_retry operation_func w)) \/ Q (snd (with_retry operation_func w)).
Proof.
  intros Hop HP HQ w Hw. unfold with_retry, Retry.retry_db_operation.
  pose proof (loop_invariant P Q operation_func Retry.default_max_retries
                Retry.default_base_delay Hop
                (Retry.range Retry.default_max_retries) (rand w) w Hw) as H.
  cbv zeta in H. cbn [snd].
  destruct (Retry.value _) as [[v |] | e].
  - right. apply HQ. exact H.
  - left. apply HP. exact H.
  - left. apply HP. exact H.
Qed.

Lemma preserves_with_retry (I : world -> Prop) (operation_func : M unit) :
  preserves I operation_func ->
  (forall w r, I w -> I (set_rand r w)) ->
  preserves I (with_retry operation_func).
Proof.
  intros Hop Hr w Hw.
  destruct (with_retry_cases I I operation_func) with (w := w) as [H | H];
    try assumption.
  intros w0 Hw0. specialize (Hop w0 Hw0).
  destruct (operation_func w0) as [[v | e] w']; exact Hop.
Qed.


Lemma for_each_app {X : Type} (l1 l2 : list X) (body : X -> M unit) (w : world) :
  for_each (l1 ++ l2) body w
  = bind (for_each l1 body) (fun _ => for_each l2 body) w.
Proof.
  revert w. induction l1 as [| x rest IH]; intros w; cbn [for_each app].
  - reflexivity.
  - unfold bind. destruct (body x w) as [[[] | e] w1]; [| reflexivity].
    rewrite IH. reflexivity.
Qed.

(** The batch insert maintains what the passing of time maintains and
    any change of the metrics table maintains. *)
Lemma preserves_batch_insert (I : world -> Prop)
    (metrics_list : list Sim.Metrics.t) :
  (forall w, I w -> I (tick w)) ->
  (forall w rows, I w -> I (set_facility_metrics rows w)) ->
  preserves I (DataAggregator._batch_insert metrics_list).
Proof.
  intros Ht Hm w Hw. unfold DataAggregator._batch_insert.
  assert (Hloop : preserves I
                    (for_each metrics_list DataAggregator.insert_statement)).
  { apply preserves_for_each. intros m. apply preserves_transaction; [exact Ht |].
    intros w0 H. cbn [snd]. apply Hm, H. }
  specialize (Hloop w Hw).
  destruct (for_each metrics_list DataAggregator.insert_statement w)
    as [[v | e] w']; cbn [fst snd] in *; [exact Hloop |].
  apply Hm, Hloop.
Qed.

End StoreFacts.

(* ================================================================== *)
(** * Metrics: batch insert and its fallback *)
(* ================================================================== *)

Section MetricsFacts.
Import Store.

(** A retried transaction on the metrics table makes no call to the
    sink of its own. *)
Lemma with_retry_calls (operation_func : M unit) (w : world) :
  preserves (fun w0 => calls w0 = calls w) operation_func ->
  calls (snd (with_retry operation_func w)) = calls w.
Proof.
  intros Hop.
  apply (preserves_with_retry (fun w0 => calls w0 = calls w)).
  - exact Hop.
  - intros w0 r H. exact H.
  - reflexivity.
Qed.

Lemma insert_metrics_calls (metrics : Sim.Metrics.t) (w : world) :
  calls (snd (MetricsDB.insert_metrics metrics w))
  = calls w ++ [InsertOne metrics].
Proof.
  unfold MetricsDB.insert_metrics, MetricsDB._insert.
  rewrite with_retry_calls; [reflexivity |].
  apply preserves_transaction; intros w0 H; exact H.
Qed.

Lemma batch_insert_metrics_calls (metrics_list : list Sim.Metrics.t) (w : world) :
  calls (snd (DataAggregator._batch_insert_metrics metrics_list w))
  = calls w ++ [BatchInsert metrics_list].
Proof.
  unfold DataAggregator._batch_insert_metrics.
  rewrite with_retry_calls; [reflexivity |].
  apply preserves_batch_insert; [intros w0 H | intros w0 rows H]; exact H.
Qed.

Lemma guarded_insert_calls (metrics : Sim.Metrics.t) (w : world) :
  let guarded := try (MetricsDB.insert_metrics metrics) (fun _ => ret tt) in
  fst (guarded w) = Return tt
  /\ calls (snd (guarded w)) = calls w ++ [InsertOne metrics].
Proof.
  cbv zeta. unfold try. pose proof (insert_metrics_calls metrics w) as Hm.
  destruct (MetricsDB.insert_metrics metrics w) as [[[] | e] w1];
    cbn [fst snd] in *; split; (reflexivity || exact Hm).
Qed.

(** The fallback loop never raises and calls the sink once per sample,
    in the order of the batch, whatever each call does. *)
Lemma individual_inserts_calls (metrics_batch : list Sim.Metrics.t) (w : world) :
  fst (DataAggregator.individual_inserts metrics_batch w) = Return tt
  /\ calls (snd (DataAggregator.individual_inserts metrics_batch w))
     = calls w ++ map InsertOne metrics_batch.
Proof.
  unfold DataAggregator.individual_inserts.
  revert w. induction metrics_batch as [| m rest IH]; intros w.
  - cbn. rewrite app_nil_r. split; reflexivity.
  - cbn [for_each map]. unfold bind at 1 2.
    destruct (guarded_insert_calls m w) as [G1 G2].
    destruct (try (MetricsDB.insert_metrics m) (fun _ => ret tt) w) as [o w1].
    cbn [fst snd] in G1, G2. subst o.
    destruct (IH w1) as [IH1 IH2]. split; [exact IH1 |].
    rewrite IH2, G2, <- app_assoc. reflexivity.
Qed.

End MetricsFacts.

(** C7.  When the batch insert of a non-empty batch raises, the
    aggregator goes on to call [MetricsDB.insert_metrics] exactly once
    per sample, in the order of the batch, and nothing else; this holds
    whatever the individual inserts do, so a failing one does not stop
    the ones after it, and the block itself does not raise.  The same
    read on [_collect_facility_metrics], for the batch it collected. *)
Theorem batch_fallback (metrics_batch : list Sim.Metrics.t) (w : Store.world) :
  metrics_batch <> [] ->
  raised (fst (DataAggregator._batch_insert_metrics metrics_batch w)) = true ->
  let w' := snd (DataAggregator.insert_batch metrics_batch w) in
  fst (DataAggregator.insert_batch metrics_batch w) = Return tt
  /\ Store.calls w'
     = Store.calls w ++ BatchInsert metrics_batch :: map InsertOne metrics_batch
  /\ length (List.filter (fun c => match c with InsertOne _ => true | _ => false end)
               (map InsertOne metrics_batch)) = length metrics_batch
  /\ forall (w0 : Store.world) (facilities : list Facility.t) (w1 : Store.world),
       FacilityDB.get_all_active_facilities w0 = (Return facilities, w1) ->
       DataAggregator.collect facilities [] w1 = (Return metrics_batch, w) ->
       DataAggregator._collect_facility_metrics w0
       = (Return tt, w').
Proof.
  intros Hne Hfail. cbv zeta.
  assert (Hblock :
    fst (DataAggregator.insert_batch metrics_batch w) = Return tt
    /\ Store.calls (snd (DataAggregator.insert_batch metrics_batch w))
       = Store.calls w ++ BatchInsert metrics_batch :: map InsertOne metrics_batch).
  { unfold DataAggregator.insert_batch.
    destruct metrics_batch as [| m rest]; [contradiction |].
    unfold Store.try.
    pose proof (batch_insert_metrics_calls (m :: rest) w) as Hc.
    destruct (DataAggregator._batch_insert_metrics (m :: rest) w)
      as [[[] | e] w1]; cbn [fst snd raised] in *; [discriminate |].
    destruct (individual_inserts_calls (m :: rest) w1) as [H1 H2].
    split; [exact H1 |].
    rewrite H2, Hc, <- app_assoc. reflexivity. }
  destruct Hblock as [Hret Hcalls].
  split; [exact Hret |]. split; [exact Hcalls |]. split.
  - clear. induction metrics_batch as [| m rest IH]; cbn; [reflexivity |].
    rewrite IH. reflexivity.
  - intros w0 facilities w1 Hget Hcollect.
    unfold DataAggregator._collect_facility_metrics, Store.bind.
    rewrite Hget, Hcollect.
    destruct (DataAggregator.insert_batch metrics_batch w) as [o w2].
    cbn [fst snd] in *. rewrite Hret. reflexivity.
Qed.

Lemma batch_fallback_witness :
  let m1 := Sim.Metrics.mk 1 200 0.9 "Operational" 0 95 0 in
  let m2 := Sim.Metrics.mk 2 20 0.9 "Operational" 0 95 0 in
  let script : nat -> nat * option sqlite_error :=
    fun n => match n with
             | O => (O, Some (DatabaseError "disk I/O error"))
             | 1%nat => (O, Some (DatabaseError "constraint failed"))
             | _ => (1%nat, None)
             end in
  let w := Store.mk_world [] [] [] 0 script (fun _ => 0.5%Q) Sim.init [] in
  let w' := snd (DataAggregator.insert_batch [m1; m2] w) in
  [m1; m2] <> []
  /\ raised (fst (DataAggregator._batch_insert_metrics [m1; m2] w)) = true
  /\ Store.calls w' = [BatchInsert [m1; m2]; InsertOne m1; InsertOne m2]
  /\ map MetricsRow.facility_id (Store.facility_metrics w') = [2].
Proof.
  cbv zeta.
  set (m1 := Sim.Metrics.mk 1 200 0.9 "Operational" 0 95 0).
  set (m2 := Sim.Metrics.mk 2 20 0.9 "Operational" 0 95 0).
  set (script := fun n : nat =>
                   match n with
                   | O => (O, Some (DatabaseError "disk I/O error"))
                   | 1%nat => (O, Some (DatabaseError "constraint failed"))
                   | _ => (1%nat, None)
                   end).
  set (w := Store.mk_world [] [] [] 0 script (fun _ => 0.5%Q) Sim.init []).
  assert (Hne : [m1; m2] <> []) by discriminate.
  assert (Hfail : raised (fst (DataAggregator._batch_insert_metrics [m1; m2] w)) = true)
    by reflexivity.
  destruct (batch_fallback [m1; m2] w Hne Hfail) as (_ & Hcalls & _).
  split; [exact Hne |]. split; [exact Hfail |]. split; [exact Hcalls |].
  reflexivity.
Defined.

(* ================================================================== *)
(** * The alert ledger: de-duplication *)
(* ================================================================== *)

Section LedgerFacts.
Import Store DataAggregator.

Lemma spaced_snoc (l : list Alert.t) (x : Alert.t) :
  spaced l -> Forall (fun a => apart a x) l -> spaced (l ++ [x]).
Proof.
  induction l as [| a rest IH]; intros Hs Hx; cbn [app spaced].
  - split; [constructor | exact I].
  - destruct Hs as [Ha Hrest]. inversion Hx as [| ? ? Hax Hrx]; subst.
    split.
    + apply List.Forall_app. split; [exact Ha |].
      constructor; [exact Hax | constructor].
    + apply IH; assumption.
Qed.

Lemma apart_only_resolves (f : Alert.t -> Alert.t) (a b : Alert.t) :
  only_resolves f -> apart a b -> apart (f a) (f b).
Proof.
  intros Hf Hab.
  destruct (Hf a) as [Ea | Ea], (Hf b) as [Eb | Eb]; rewrite Ea, Eb;
    unfold apart in *; cbn; intros; try discriminate; auto.
Qed.

Lemma spaced_map (f : Alert.t -> Alert.t) (l : list Alert.t) :
  only_resolves f -> spaced l -> spaced (map f l).
Proof.
  intros Hf. induction l as [| a rest IH]; intros Hs; cbn [map spaced].
  - exact I.
  - destruct Hs as [Ha Hrest]. split; [| apply IH; exact Hrest].
    apply List.Forall_map. eapply List.Forall_impl; [| exact Ha].
    intros b Hab. apply apart_only_resolves; assumption.
Qed.

Lemma only_resolves_cond (c : Alert.t -> bool) :
  only_resolves (fun a => if c a then Alert.resolve a else a).
Proof. intros a. destruct (c a); [right | left]; reflexivity. Qed.

Lemma quiet_of_check (fid : Z) (ty : string) (now : Z) (l : list Alert.t) :
  existsb (AlertsDB.matches_existing fid ty AlertsDB.default_hours now) l = false ->
  quiet fid ty now l.
Proof.
  intros H. apply List.Forall_forall. intros a Ha Hu.
  destruct (Z.ltb_spec (now - 3600) (Alert.created_at a)) as [Hlt | Hge]; [| exact Hge].
  assert (Hex : existsb (AlertsDB.matches_existing fid ty AlertsDB.default_hours now) l
                = true).
  { apply existsb_exists. exists a. split; [exact Ha |].
    unfold AlertsDB.matches_existing, AlertsDB.default_hours.
    unfold unresolved_of in Hu. rewrite Hu. cbn [andb].
    apply Z.ltb_lt. lia. }
  congruence.
Qed.

Lemma quiet_new_apart (fid : Z) (ty : string) (t : Z) (l : list Alert.t)
    (x : Alert.t) :
  quiet fid ty t l ->
  Alert.facility_id x = fid -> Alert.alert_type x = ty ->
  t <= Alert.created_at x ->
  Forall (fun a => apart a x) l.
Proof.
  intros Hq Hfid Hty Ht. eapply List.Forall_impl; [| exact Hq].
  intros a Ha Hf Hy Hra Hrx.
  assert (Hu : unresolved_of fid ty a = true).
  { unfold unresolved_of. rewrite Hra. cbn [negb andb]. rewrite andb_true_r.
    apply andb_true_intro. split.
    - apply Z.eqb_eq. congruence.
    - apply String.eqb_eq. congruence. }
  specialize (Ha Hu). lia.
Qed.

Lemma preserves_get_facilities :
  preserves ledger_spaced FacilityDB.get_all_active_facilities.
Proof.
  apply preserves_transaction; intros w H; exact H.
Qed.

Lemma preserves_open (fid : Z) (ty msg sev : string) :
  preserves ledger_spaced (open_unless_existing fid ty msg sev).
Proof.
  unfold open_unless_existing.
  apply hoare_bind with
    (R := fun existing w =>
            ledger_spaced w
            /\ (existing = false -> quiet fid ty (clock w) (alerts w))).
  - intros w Hw. unfold AlertsDB.check_existing_alert. rewrite transaction_eq.
    destruct (snd (env w O)); cbn [fst snd].
    + exact Hw.
    + split; [exact Hw |]. apply quiet_of_check.
  - intros existing w [Hw Hq]. destruct existing; cbn [negb]; [exact Hw |].
    specialize (Hq eq_refl).
    unfold AlertsDB.insert_alert.
    destruct (with_retry_cases
                (fun w0 => alerts w0 = alerts w /\ clock w <= clock w0)
                ledger_spaced
                (AlertsDB._insert fid ty msg sev)) with (w := w) as [[Ha _] | H].
    + intros w0 [Ha Hc]. unfold AlertsDB._insert. rewrite transaction_eq.
      destruct (snd (env w0 O)); cbn [fst snd].
      * split; [exact Ha |]. pose proof (clock_tick w0). lia.
      * unfold ledger_spaced. cbn [alerts set_alerts tick]. rewrite Ha.
        apply spaced_snoc; [exact Hw |].
        apply quiet_new_apart with (fid := fid) (ty := ty) (t := clock w);
          [exact Hq | reflexivity | reflexivity |].
        cbn [Alert.created_at]. pose proof (clock_tick w0). lia.
    + intros w0 r H. exact H.
    + intros w0 r H. exact H.
    + split; [reflexivity | lia].
    + unfold ledger_spaced. rewrite Ha. exact Hw.
    + exact H.
Qed.

Lemma preserves_resolve_equipment (fid : Z) :
  preserves ledger_spaced (_resolve_equipment_alerts_for_facility fid).
Proof.
  unfold _resolve_equipment_alerts_for_facility.
  apply preserves_try; [| intros e; apply preserves_ret].
  apply preserves_transaction; [intros w H; exact H |].
  intros w H. unfold ledger_spaced. cbn [snd alerts set_alerts].
  apply spaced_map; [apply only_resolves_cond | exact H].
Qed.

Lemma preserves_resolve_alert (alert_id : Z) :
  preserves ledger_spaced (AlertsDB.resolve_alert alert_id).
Proof.
  unfold AlertsDB.resolve_alert.
  apply preserves_transaction; [intros w H; exact H |].
  intros w H. unfold ledger_spaced. cbn [snd alerts set_alerts].
  apply spaced_map; [apply only_resolves_cond | exact H].
Qed.

Lemma preserves_productivity_check (facility : Facility.t) :
  preserves ledger_spaced (productivity_check facility).
Proof.
  unfold productivity_check.
  destruct (Facility.productivity_rate facility) as [rate |];
    [| apply preserves_ret].
  destruct (Py.ltb rate 0.7); [apply preserves_open | apply preserves_ret].
Qed.

Lemma preserves_equipment_check (facility : Facility.t) :
  preserves ledger_spaced (equipment_check facility).
Proof.
  unfold equipment_check.
  repeat case_if;
    first [apply preserves_open | apply preserves_resolve_equipment
          | apply preserves_ret].
Qed.

Lemma preserves_capacity_check (facility : Facility.t) :
  preserves ledger_spaced (capacity_check facility).
Proof.
  unfold capacity_check, true_div.
  destruct (0 <? Facility.max_capacity facility); [| apply preserves_ret].
  apply preserves_bind.
  - destruct (Facility.max_capacity facility =? 0);
      intros w H; exact H.
  - intros utilization.
    destruct (Py.ltb 0.9 utilization); [apply preserves_open | apply preserves_ret].
Qed.

Lemma preserves_sync_facility (facility : Facility.t) :
  preserves ledger_spaced (sync_facility facility).
Proof.
  unfold sync_facility. apply preserves_bind.
  - repeat case_if;
      first [apply preserves_open | apply preserves_resolve_equipment
            | apply preserves_ret].
  - intros _. apply preserves_productivity_check.
Qed.

Lemma preserves_pass (body : Facility.t -> M unit) :
  (forall facility, preserves ledger_spaced (body facility)) ->
  preserves ledger_spaced
    (bind FacilityDB.get_all_active_facilities
       (fun facilities => for_each facilities body)).
Proof.
  intros Hb. apply preserves_bind; [apply preserves_get_facilities |].
  intros facilities. apply preserves_for_each. exact Hb.
Qed.

Lemma preserves_check_for_alerts : preserves ledger_spaced _check_for_alerts.
Proof.
  unfold _check_for_alerts.
  apply preserves_try; [| intros e; apply preserves_ret].
  apply preserves_bind; [apply preserves_pass, preserves_productivity_check |].
  intros _.
  apply preserves_bind; [apply preserves_pass, preserves_equipment_check |].
  intros _. apply preserves_pass, preserves_capacity_check.
Qed.

Lemma preserves_sync : preserves ledger_spaced sync_alerts_with_current_data.
Proof.
  unfold sync_alerts_with_current_data.
  apply preserves_try; [| intros e; apply preserves_ret].
  apply preserves_pass, preserves_sync_facility.
Qed.

End LedgerFacts.

Section LedgerCollect.
Import Store DataAggregator.

Lemma preserves_get_metrics (fid : Z) (ft : string) :
  preserves ledger_spaced (DataService.get_facility_metrics fid ft).
Proof.
  intros w H. unfold DataService.get_facility_metrics.
  destruct (Sim.get_facility_metrics _ _ _ _ _) as [[m p] r]. exact H.
Qed.

Lemma preserves_collect (facilities : list Facility.t) :
  forall batch, preserves ledger_spaced (collect facilities batch).
Proof.
  induction facilities as [| f rest IH]; intros batch; cbn [collect].
  - apply preserves_ret.
  - apply preserves_bind.
    + apply preserves_try; [apply preserves_get_metrics |].
      intros e. apply preserves_ret.
    + intros metrics. apply IH.
Qed.

Lemma preserves_metrics_write (c : sink_call) (operation_func : M unit) :
  preserves ledger_spaced operation_func ->
  preserves ledger_spaced
    (fun w => with_retry operation_func (record_call c w)).
Proof.
  intros Hop w Hw.
  apply (preserves_with_retry ledger_spaced operation_func).
  - exact Hop.
  - intros w0 r H. exact H.
  - exact Hw.
Qed.

Lemma preserves_collect_facility_metrics :
  preserves ledger_spaced _collect_facility_metrics.
Proof.
  unfold _collect_facility_metrics.
  apply preserves_bind; [apply preserves_get_facilities |]. intros facilities.
  apply preserves_bind; [apply preserves_collect |]. intros batch.
  unfold insert_batch. destruct batch as [| m rest]; [apply preserves_ret |].
  apply preserves_try.
  - apply (preserves_metrics_write (BatchInsert (m :: rest))).
    apply preserves_batch_insert; [intros w H | intros w rows H]; exact H.
  - intros e. unfold individual_inserts. apply preserves_for_each.
    intros metrics. apply preserves_try; [| intros e2; apply preserves_ret].
    apply (preserves_metrics_write (InsertOne metrics)).
    apply preserves_transaction; intros w H; exact H.
Qed.

Lemma preserves_collect_data_once : preserves ledger_spaced collect_data_once.
Proof.
  unfold collect_data_once.
  apply preserves_try; [| intros e; apply preserves_ret].
  apply preserves_bind; [apply preserves_collect_facility_metrics |].
  intros _. apply preserves_check_for_alerts.
Qed.

(** In a spaced ledger no hour holds two unresolved alerts of a pair. *)
Lemma spaced_hour (l : list Alert.t) (fid : Z) (ty : string) (t : Z) :
  spaced l ->
  (length (List.filter (in_hour_before t) (unresolved_alerts fid ty l)) <= 1)%nat.
Proof.
  unfold unresolved_alerts.
  induction l as [| a rest IH]; intros Hs; cbn [List.filter length]; [lia |].
  destruct Hs as [Ha Hrest]. specialize (IH Hrest).
  destruct (unresolved_of fid ty a) eqn:Hu; [| exact IH].
  cbn [List.filter]. destruct (in_hour_before t a) eqn:Hh; [| exact IH].
  cbn [length].
  assert (Hnone : List.filter (in_hour_before t)
                    (List.filter (unresolved_of fid ty) rest) = []).
  { clear IH Hrest. induction Ha as [| b rest' Hab _ IHa]; [reflexivity |].
    cbn [List.filter]. destruct (unresolved_of fid ty b) eqn:Hub; [| exact IHa].
    cbn [List.filter]. destruct (in_hour_before t b) eqn:Hhb; [| exact IHa].
    exfalso.
    unfold unresolved_of in Hu, Hub. unfold in_hour_before in Hh, Hhb.
    apply andb_prop in Hu as [Hu1 Hu3]. apply andb_prop in Hu1 as [Hu1 Hu2].
    apply andb_prop in Hub as [Hb1 Hb3]. apply andb_prop in Hb1 as [Hb1 Hb2].
    apply andb_prop in Hh as [Hh1 Hh2]. apply andb_prop in Hhb as [Hhb1 Hhb2].
    apply Z.eqb_eq in Hu1, Hb1. apply String.eqb_eq in Hu2, Hb2.
    apply negb_true_iff in Hu3, Hb3.
    apply Z.ltb_lt in Hh1, Hhb1. apply Z.leb_le in Hh2, Hhb2.
    assert (Hgap : 3600 <= Z.abs (Alert.created_at a - Alert.created_at b))
      by (apply Hab; congruence).
    lia. }
  rewrite Hnone. cbn. lia.
Qed.

(** An alert is opened only past the check: if the ledger changed, the
    check had found no unresolved alert of the pair younger than an
    hour. *)
Lemma open_gate (fid : Z) (ty msg sev : string) (w : world) :
  alerts (snd (open_unless_existing fid ty msg sev w)) <> alerts w ->
  snd (env w O) = None
  /\ existsb (AlertsDB.matches_existing fid ty 1 (clock (tick w))) (alerts w)
     = false.
Proof.
  unfold open_unless_existing, bind, AlertsDB.check_existing_alert.
  rewrite transaction_eq.
  destruct (snd (env w O)); cbn [fst snd]; [intros H; contradiction H; reflexivity |].
  change (alerts (tick w)) with (alerts w).
  destruct (existsb _ (alerts w)); cbn [negb].
  - intros H. contradiction H. reflexivity.
  - intros _. split; reflexivity.
Qed.

End LedgerCollect.

Lemma evolves_spaced (w w' : Store.world) :
  DataAggregator.evolves w w' ->
  DataAggregator.ledger_spaced w -> DataAggregator.ledger_spaced w'.
Proof.
  induction 1 as [w | w w' _ IH | w w' _ IH | w w' _ IH | alert_id w w' _ IH
                 | w w1 w' Halerts _ IH]; intros Hs.
  - exact Hs.
  - apply IH. apply (preserves_check_for_alerts w Hs).
  - apply IH. apply (preserves_sync w Hs).
  - apply IH. apply (preserves_collect_data_once w Hs).
  - apply IH. apply (preserves_resolve_alert alert_id w Hs).
  - apply IH. unfold DataAggregator.ledger_spaced. rewrite Halerts. exact Hs.
Qed.

(** C1, as the code has it.  [check_existing_alert] looks back one hour
    only.  Starting from a ledger in which any two unresolved alerts of
    one (facility_id, alert_type) pair are created at least an hour
    apart (the empty ledger is one), the ledger stays so through any
    succession of periodic checks, startup syncs, turns of the collection
    loop and resolutions from the dashboard, whatever storage faults
    occur; hence at any time no hour holds more than one unresolved
    alert of a pair.  And a path opens an alert only when the check, made
    at that moment, found no unresolved alert of the pair younger than
    one hour. *)
Theorem alert_dedup_hour (w w' : Store.world) :
  DataAggregator.spaced (Store.alerts w) ->
  DataAggregator.evolves w w' ->
  DataAggregator.spaced (Store.alerts w')
  /\ (forall facility_id alert_type t,
        (length (List.filter (DataAggregator.in_hour_before t)
                   (DataAggregator.unresolved_alerts facility_id alert_type
                      (Store.alerts w'))) <= 1)%nat)
  /\ (forall facility_id alert_type message severity,
        Store.alerts (snd (DataAggregator.open_unless_existing facility_id alert_type
                             message severity w')) <> Store.alerts w' ->
        existsb (AlertsDB.matches_existing facility_id alert_type 1
                   (Store.clock (Store.tick w'))) (Store.alerts w') = false).
Proof.
  intros Hs Hev.
  pose proof (evolves_spaced w w' Hev Hs) as Hs'.
  split; [exact Hs' |]. split.
  - intros fid ty t. apply spaced_hour. exact Hs'.
  - intros fid ty msg sev H. apply (open_gate fid ty msg sev w' H).
Qed.

Lemma alert_dedup_hour_witness :
  let f := FacilityRow.mk 1 "Chicago Hub" "Chicago, IL" "hub" "active" 1000 400 150 in
  let m := MetricsRow.mk 1 150 0.9 "Down" 60 95 6900 in
  let a := Alert.mk 1 1 "equipment_down" "Equipment down at Chicago Hub" "critical"
             false 7000 in
  let w := Store.mk_world [f] [m] [a] 7200 (fun _ => (1%nat, None)) (fun _ => 0.5%Q)
             Sim.init [] in
  let w' := snd (DataAggregator.sync_alerts_with_current_data
                   (snd (DataAggregator._check_for_alerts w))) in
  DataAggregator.spaced (Store.alerts w)
  /\ DataAggregator.evolves w w'
  /\ DataAggregator.spaced (Store.alerts w')
  /\ Store.alerts w' = [a].
Proof.
  cbv zeta.
  set (f := FacilityRow.mk 1 "Chicago Hub" "Chicago, IL" "hub" "active" 1000 400 150).
  set (m := MetricsRow.mk 1 150 0.9 "Down" 60 95 6900).
  set (a := Alert.mk 1 1 "equipment_down" "Equipment down at Chicago Hub" "critical"
              false 7000).
  set (w := Store.mk_world [f] [m] [a] 7200 (fun _ => (1%nat, None)) (fun _ => 0.5%Q)
              Sim.init []).
  set (w' := snd (DataAggregator.sync_alerts_with_current_data
                    (snd (DataAggregator._check_for_alerts w)))).
  assert (Hs : DataAggregator.spaced (Store.alerts w)).
  { cbn. split; [constructor | exact I]. }
  assert (Hev : DataAggregator.evolves w w').
  { apply DataAggregator.evolves_check, DataAggregator.evolves_sync,
      DataAggregator.evolves_refl. }
  split; [exact Hs |]. split; [exact Hev |].
  split; [exact (proj1 (alert_dedup_hour w w' Hs Hev)) | vm_compute; reflexivity].
Defined.

(** C1 as stated fails: a facility that is Down and whose unresolved
    equipment_down alert is two hours old gets a second unresolved
    equipment_down alert, from the periodic check and from the startup
    sync alike, with no storage fault involved. *)
Lemma alert_dedup_counterexample :
  let f := FacilityRow.mk 1 "Chicago Hub" "Chicago, IL" "hub" "active" 1000 400 150 in
  let m := MetricsRow.mk 1 150 0.9 "Down" 120 95 7100 in
  let a := Alert.mk 1 1 "equipment_down" "Equipment down at Chicago Hub" "critical"
             false 0 in
  let w := Store.mk_world [f] [m] [a] 7200 (fun _ => (1%nat, None)) (fun _ => 0.5%Q)
             Sim.init [] in
  length (DataAggregator.unresolved_alerts 1 "equipment_down" (Store.alerts w)) = 1%nat
  /\ length (DataAggregator.unresolved_alerts 1 "equipment_down"
               (Store.alerts (snd (DataAggregator._check_for_alerts w)))) = 2%nat
  /\ length (DataAggregator.unresolved_alerts 1 "equipment_down"
               (Store.alerts (snd (DataAggregator.sync_alerts_with_current_data w))))
     = 2%nat.
Proof. cbv zeta. repeat split; vm_compute; reflexivity. Qed.

(* ================================================================== *)
(** * The capacity check *)
(* ================================================================== *)

Section CapacityFacts.
Import Store DataAggregator.

Lemma nzd_ret {A : Type} (v : A) : no_zero_division (ret v).
Proof. intros w. discriminate. Qed.

Lemma nzd_bind {A B : Type} (m : M A) (k : A -> M B) :
  no_zero_division m -> (forall v, no_zero_division (k v)) ->
  no_zero_division (bind m k).
Proof.
  intros Hm Hk w. unfold bind. specialize (Hm w).
  destruct (m w) as [[v | e] w']; cbn [fst] in *; [apply Hk |].
  intros E. apply Hm. injection E as ->. reflexivity.
Qed.

Lemma nzd_for_each {X : Type} (l : list X) (body : X -> M unit) :
  (forall x, no_zero_division (body x)) -> no_zero_division (for_each l body).
Proof.
  intros Hb. induction l as [| x rest IH]; cbn [for_each].
  - apply nzd_ret.
  - apply nzd_bind; [apply Hb | intros _; exact IH].
Qed.

Lemma nzd_transaction {A : Type} (effect : world -> A * world) :
  no_zero_division (transaction effect).
Proof.
  intros w. rewrite transaction_eq. destruct (snd (env w O)); discriminate.
Qed.

Lemma nzd_loop (operation_func : M unit) (max_retries : Z) (base_delay : Q)
    (attempts : list Z) :
  no_zero_division operation_func ->
  forall r w,
    Retry.value (Retry.loop operation_func max_retries base_delay attempts r w)
    <> Raise ZeroDivisionError.
Proof.
  intros Hop. induction attempts as [| attempt rest IH]; intros r w.
  - discriminate.
  - cbn [Retry.loop]. specialize (Hop w).
    destruct (operation_func w) as [[v | e] w']; cbn [fst] in Hop;
      [discriminate |].
    destruct e as [[msg | msg] | | msg]; try discriminate.
    + destruct (Retry.is_locked msg && (attempt <? max_retries - 1));
        [| discriminate].
      unfold Random.uniform, Random.random.
      destruct (Py.ltb _ 0); [discriminate |]. apply IH.
    + contradiction.
Qed.

Lemma nzd_with_retry (operation_func : M unit) :
  no_zero_division operation_func -> no_zero_division (with_retry operation_func).
Proof.
  intros Hop w. unfold with_retry, Retry.retry_db_operation. cbn [fst].
  pose proof (nzd_loop operation_func Retry.default_max_retries
                Retry.default_base_delay (Retry.range Retry.default_max_retries)
                Hop (rand w) w) as H.
  destruct (Retry.value _) as [v | e]; [discriminate |].
  intros E. apply H. injection E as ->. reflexivity.
Qed.

Lemma nzd_open (fid : Z) (ty msg sev : string) :
  no_zero_division (open_unless_existing fid ty msg sev).
Proof.
  unfold open_unless_existing. apply nzd_bind; [apply nzd_transaction |].
  intros existing. destruct existing; cbn [negb]; [apply nzd_ret |].
  apply nzd_with_retry, nzd_transaction.
Qed.

Lemma nzd_capacity_check (facility : Facility.t) :
  no_zero_division (capacity_check facility).
Proof.
  unfold capacity_check, true_div.
  destruct (Z.ltb_spec 0 (Facility.max_capacity facility)) as [Hpos | Hle];
    [| apply nzd_ret].
  destruct (Z.eqb_spec (Facility.max_capacity facility) 0) as [E | _]; [lia |].
  apply nzd_bind; [apply nzd_ret |].
  intros utilization.
  destruct (Py.ltb 0.9 utilization); [apply nzd_open | apply nzd_ret].
Qed.

Lemma capacity_check_skip (facility : Facility.t) (w : world) :
  Facility.max_capacity facility <= 0 ->
  capacity_check facility w = (Return tt, w).
Proof.
  intros H. unfold capacity_check.
  destruct (Z.ltb_spec 0 (Facility.max_capacity facility)); [lia | reflexivity].
Qed.

End CapacityFacts.

(** C9.  In [_check_capacity_alerts] the division is made only under
    the guard max_capacity > 0: the check never ends in a division by
    zero; for a facility with max_capacity <= 0 the loop body returns at
    once, without touching the world and without raising; and the loop
    over a list that contains such a facility does for the others
    exactly what it does when the facility is left out. *)
Theorem capacity_guard (facility : Facility.t) (w : Store.world)
    (before after : list Facility.t) :
  fst (DataAggregator._check_capacity_alerts w) <> Raise ZeroDivisionError
  /\ (Facility.max_capacity facility <= 0 ->
      DataAggregator.capacity_check facility w = (Return tt, w)
      /\ Store.for_each (before ++ facility :: after) DataAggregator.capacity_check w
         = Store.for_each (before ++ after) DataAggregator.capacity_check w).
Proof.
  split.
  - apply (nzd_bind FacilityDB.get_all_active_facilities).
    + apply nzd_transaction.
    + intros facilities. apply nzd_for_each, nzd_capacity_check.
  - intros Hle. split; [apply capacity_check_skip; exact Hle |].
    rewrite !for_each_app. unfold Store.bind.
    destruct (Store.for_each before DataAggregator.capacity_check w)
      as [[[] | e] w1]; [| reflexivity].
    cbn [Store.for_each]. unfold Store.bind.
    rewrite capacity_check_skip by exact Hle. reflexivity.
Qed.

Lemma capacity_guard_witness :
  let bad := Facility.mk 2 "Gary Station" "station" 0 5 (Some 0.9%Q)
               (Some "Operational"%string) in
  let full := Facility.mk 3 "Joliet Station" "station" 100 95 (Some 0.9%Q)
                (Some "Operational"%string) in
  let w := Store.mk_world
             [FacilityRow.mk 2 "Gary Station" "Gary, IN" "station" "active" 0 5 20;
              FacilityRow.mk 3 "Joliet Station" "Joliet, IL" "station" "active"
                100 95 20]
             [MetricsRow.mk 2 20 0.9 "Operational" 0 95 0;
              MetricsRow.mk 3 20 0.9 "Operational" 0 95 0]
             [] 0 (fun _ => (1%nat, None)) (fun _ => 0.5%Q) Sim.init [] in
  FacilityDB.rows w = [bad; full]
  /\ Facility.max_capacity bad <= 0
  /\ DataAggregator.capacity_check bad w = (Return tt, w)
  /\ Store.for_each ([] ++ bad :: [full]) DataAggregator.capacity_check w
     = Store.for_each ([] ++ [full]) DataAggregator.capacity_check w
  /\ map Alert.alert_type
       (Store.alerts (snd (DataAggregator._check_capacity_alerts w)))
     = ["high_capacity"%string].
Proof.
  cbv zeta.
  set (bad := Facility.mk 2 "Gary Station" "station" 0 5 (Some 0.9%Q)
                (Some "Operational"%string)).
  set (full := Facility.mk 3 "Joliet Station" "station" 100 95 (Some 0.9%Q)
                 (Some "Operational"%string)).
  set (w := Store.mk_world
              [FacilityRow.mk 2 "Gary Station" "Gary, IN" "station" "active" 0 5 20;
               FacilityRow.mk 3 "Joliet Station" "Joliet, IL" "station" "active"
                 100 95 20]
              [MetricsRow.mk 2 20 0.9 "Operational" 0 95 0;
               MetricsRow.mk 3 20 0.9 "Operational" 0 95 0]
              [] 0 (fun _ => (1%nat, None)) (fun _ => 0.5%Q) Sim.init []).
  assert (Hle : Facility.max_capacity bad <= 0) by (cbn; lia).
  destruct (capacity_guard bad w [] [full]) as [_ Hskip].
  destruct (Hskip Hle) as [H1 H2].
  split; [vm_compute; reflexivity |].
  split; [exact Hle |]. split; [exact H1 |]. split; [exact H2 |].
  vm_compute. reflexivity.
Defined.

(* ================================================================== *)
(** * The alert ledger: resolution *)
(* ================================================================== *)

Section ResolutionFacts.
Import Store DataAggregator.


















End ResolutionFacts.

Section ResolutionPass.
Import Store DataAggregator.








End ResolutionPass.

Section GuardedPass.
Import Store DataAggregator LedgerProps.
Variables (fid : Z) (fs : list Facility.t) (before : list Alert.t).
Hypothesis Hrow :
  forall g, In g fs -> Facility.id g = fid ->
            Facility.equipment_status g = Some "Operational"%string.










Lemma status_is_eq (st : option string) (s : string) :
  status_is st s = true -> st = Some s.
Proof.
  destruct st as [x |]; cbn; [| discriminate].
  intros H. apply String.eqb_eq in H. congruence.
Qed.






End GuardedPass.

Section PrimaryKey.







End PrimaryKey.





(* ================================================================== *)
(** * Further properties of the simulator *)
(* ================================================================== *)

Section SimStatus.
Import Sim SimProps.

Lemma nth_choice {A : Type} (P : A -> Prop) (n : nat) (l : list A) (d : A) :
  P d -> List.Forall P l -> P (nth n l d).
Proof.
  intros Hd Hl. revert n. induction Hl as [| x rest Hx _ IH]; intros n.
  - destruct n; exact Hd.
  - destruct n; [exact Hx | apply IH].
Qed.

Lemma initialize_known_status (ft : string) (r : rng) :
  known_status (equipment_status (fst (_initialize_facility_state ft r))).
Proof.
  unfold _initialize_facility_state, Random.randint, Random.uniform,
    Random.choice, Random.random.
  destruct (is_hub ft); cbn [fst equipment_status];
    (apply nth_choice; [left; reflexivity |]);
    repeat (apply List.Forall_cons; [unfold known_status; auto |]);
    apply List.Forall_nil.
Qed.

Lemma equipment_phase_known_status (s : facility_state) (h : Q) (r : rng) :
  known_status (equipment_status s) ->
  known_status (equipment_status (fst (equipment_phase s h r))).
Proof.
  intros Hs. unfold equipment_phase, reduce_cooldown, _update_equipment_status,
    Random.uniform, Random.random.
  cbn [equipment_status set_equipment_change_cooldown equipment_change_cooldown].
  repeat case_if; cbn [fst equipment_status set_equipment_change_cooldown
                         set_equipment_status];
    try exact Hs; unfold known_status; auto.
Qed.

Lemma update_known_status (s : facility_state) (ft : string) (h : Q) (r : rng) :
  known_status (equipment_status s) ->
  known_status (equipment_status (fst (_update_facility_state s ft h r))).
Proof.
  intros Hs. destruct (update_equipment_fields s ft h r) as [E _].
  rewrite E. apply equipment_phase_known_status. exact Hs.
Qed.

Lemma run_updates_known_status (ft : string) (hours : list Q) :
  forall (s : facility_state) (r : rng),
    known_status (equipment_status s) ->
    known_status (equipment_status (fst (run_updates ft hours s r))).
Proof.
  induction hours as [| h hs IH]; intros s r Hs; [exact Hs |].
  cbn [run_updates].
  pose proof (update_known_status s ft h r Hs) as H1.
  destruct (_update_facility_state s ft h r) as [s' r']. apply IH. exact H1.
Qed.

End SimStatus.

(** X1.  From cold start on, whatever the elapsed hours and the random
    draws, equipment_status is Operational, Maintenance or Down: the
    simulator never reports Reduced Capacity, although its tables list
    it. *)
Theorem status_stays_known (facility_type : string) (r0 r : rng) (hours : list Q) :
  SimProps.known_status
    (Sim.equipment_status
       (fst (Sim.run_updates facility_type hours
               (fst (Sim._initialize_facility_state facility_type r0)) r))).
Proof.
  apply run_updates_known_status, initialize_known_status.
Qed.

Section SimFlapping.
Import Sim.

Lemma equipment_phase_transition (s : facility_state) (h : Q) (r : rng) :
  Random.well_formed r ->
  let s' := fst (equipment_phase s h r) in
  equipment_status s' <> equipment_status s ->
  (1 <= equipment_change_cooldown s' /\ equipment_change_cooldown s' <= 72)%Q.
Proof.
  intros Hr.
  pose proof (well_formed_tail _ Hr) as Hr1.
  pose proof (well_formed_tail _ Hr1) as Hr2.
  destruct (Hr1 O) as [Ha1 Hb1]. destruct (Hr2 O) as [Ha2 Hb2].
  unfold equipment_phase, reduce_cooldown, _update_equipment_status,
    Random.uniform, Random.random.
  cbn [equipment_status set_equipment_change_cooldown equipment_change_cooldown].
  repeat case_if; cbn [fst equipment_status equipment_change_cooldown
                         set_equipment_change_cooldown set_equipment_status];
    intros Hne; try (contradiction Hne; reflexivity); split; nra.
Qed.

Lemma equipment_phase_closed (s : facility_state) (h : Q) (r : rng) :
  (h < equipment_change_cooldown s)%Q ->
  equipment_status (fst (equipment_phase s h r)) = equipment_status s.
Proof.
  intros Hlt. unfold equipment_phase, reduce_cooldown.
  cbn [equipment_change_cooldown set_equipment_change_cooldown].
  destruct (Qle_bool (Py.max 0 (equipment_change_cooldown s - h)) 0) eqn:Hgate.
  - apply max_le_zero in Hgate. lra.
  - reflexivity.
Qed.

End SimFlapping.

(** X2.  No flapping.  When an update has changed equipment_status, the
    cool-down it leaves is between 1 and 72 hours, and any further update
    that comes before the cool-down has run out, in particular any within
    the hour, leaves the status as it is, whatever it draws. *)
Theorem no_flapping (s : Sim.facility_state) (facility_type : string)
    (h1 h2 : Q) (r1 r2 : rng) :
  Random.well_formed r1 ->
  let s1 := fst (Sim._update_facility_state s facility_type h1 r1) in
  Sim.equipment_status s1 <> Sim.equipment_status s ->
  (1 <= Sim.equipment_change_cooldown s1
   /\ Sim.equipment_change_cooldown s1 <= 72)%Q
  /\ ((h2 < Sim.equipment_change_cooldown s1)%Q ->
      Sim.equipment_status (fst (Sim._update_facility_state s1 facility_type h2 r2))
      = Sim.equipment_status s1)
  /\ ((h2 < 1)%Q ->
      Sim.equipment_status (fst (Sim._update_facility_state s1 facility_type h2 r2))
      = Sim.equipment_status s1).
Proof.
  intros Hr s1 Hne.
  destruct (update_equipment_fields s facility_type h1 r1) as [Es Ec].
  fold s1 in Es, Ec.
  assert (Hc : (1 <= Sim.equipment_change_cooldown s1
                /\ Sim.equipment_change_cooldown s1 <= 72)%Q).
  { rewrite Ec. apply equipment_phase_transition; [exact Hr |].
    rewrite <- Es. exact Hne. }
  assert (Hstay : (h2 < Sim.equipment_change_cooldown s1)%Q ->
                  Sim.equipment_status
                    (fst (Sim._update_facility_state s1 facility_type h2 r2))
                  = Sim.equipment_status s1).
  { intros Hlt.
    destruct (update_equipment_fields s1 facility_type h2 r2) as [E2 _].
    rewrite E2. apply equipment_phase_closed. exact Hlt. }
  split; [exact Hc |]. split; [exact Hstay |].
  intros H1. apply Hstay. lra.
Qed.

Lemma no_flapping_witness :
  let s := Sim.mk_state 200 0.9 "Maintenance" 95 0 0 0 0 in
  let r : rng := fun _ => 0%Q in
  let s1 := fst (Sim._update_facility_state s "hub" 1 r) in
  Random.well_formed r
  /\ Sim.equipment_status s1 <> Sim.equipment_status s
  /\ Sim.equipment_status (fst (Sim._update_facility_state s1 "hub" 0.5 r))
     = Sim.equipment_status s1.
Proof.
  cbv zeta.
  set (s := Sim.mk_state 200 0.9 "Maintenance" 95 0 0 0 0).
  set (r := fun _ : nat => 0%Q).
  assert (Hr : Random.well_formed r) by (intros n; split; unfold r; lra).
  assert (Hne : Sim.equipment_status (fst (Sim._update_facility_state s "hub" 1 r))
                <> Sim.equipment_status s) by (cbn; discriminate).
  split; [exact Hr |]. split; [exact Hne |].
  destruct (no_flapping s "hub" 1 0.5 r r Hr Hne) as (_ & _ & H).
  apply H. lra.
Defined.

Section SimZero.
Import Sim.

(** A clamp leaves a value of the interval as it is, up to [==]. *)
Lemma clamp_inside (lo hi x : Q) :
  (lo <= x)%Q -> (x <= hi)%Q -> (Py.max lo (Py.min hi x) == x)%Q.
Proof.
  intros Hlo Hhi. unfold Py.min.
  destruct (Py.ltb x hi) eqn:E1; [apply ltb_lt in E1 | apply ltb_ge in E1];
    unfold Py.max; case_ltb; lra.
Qed.

Lemma int_of_integer (x : Q) (n : Z) :
  (x == inject_Z n)%Q -> 0 <= n -> Py.int x = n.
Proof.
  intros E Hn.
  assert (H0 : (0 <= x)%Q).
  { rewrite E. change 0%Q with (inject_Z 0). rewrite <- Zle_Qle. exact Hn. }
  rewrite int_floor by exact H0. rewrite E. apply Qfloor_Z.
Qed.

Lemma equipment_phase_zero (s : facility_state) (r : rng) :
  Random.well_formed r ->
  equipment_status (fst (equipment_phase s 0 r)) = equipment_status s.
Proof.
  intros Hr. destruct (Hr O) as [H0 _].
  unfold equipment_phase, reduce_cooldown.
  cbn [equipment_change_cooldown set_equipment_change_cooldown].
  destruct (Qle_bool _ 0); [| reflexivity].
  unfold _update_equipment_status, Random.random.
  cbn [equipment_status set_equipment_change_cooldown].
  destruct (String.eqb (equipment_status s) "Operational");
    [case_ltb; [lra | reflexivity] |].
  destruct (String.eqb (equipment_status s) "Maintenance");
    [case_ltb; [lra | reflexivity] |].
  destruct (String.eqb (equipment_status s) "Down");
    [case_ltb; [lra | reflexivity] | reflexivity].
Qed.

Lemma staffing_zero (s : facility_state) (ft : string) (r : rng) :
  fst (staffing_bounds ft) <= staffing_level s <= snd (staffing_bounds ft) ->
  staffing_level (fst (_update_staffing_level s ft 0 r)) = staffing_level s.
Proof.
  intros Hs. unfold _update_staffing_level.
  change (Py.geb 0 8) with false. cbv iota.
  destruct (negb (Qeq_bool (staffing_trend s) 0)); [| reflexivity].
  cbn [fst staffing_level set_staffing_level set_staffing_trend].
  unfold staffing_bounds in Hs.
  destruct (is_hub ft); cbn [fst snd] in Hs.
  - apply int_of_integer; [| lia].
    assert (H1 : (inject_Z 80 <= inject_Z (staffing_level s))%Q)
      by (rewrite <- Zle_Qle; lia).
    assert (H2 : (inject_Z (staffing_level s) <= inject_Z 350)%Q)
      by (rewrite <- Zle_Qle; lia).
    change (inject_Z 80) with 80%Q in H1. change (inject_Z 350) with 350%Q in H2.
    rewrite clamp_inside; lra.
  - apply int_of_integer; [| lia].
    assert (H1 : (inject_Z 8 <= inject_Z (staffing_level s))%Q)
      by (rewrite <- Zle_Qle; lia).
    assert (H2 : (inject_Z (staffing_level s) <= inject_Z 35)%Q)
      by (rewrite <- Zle_Qle; lia).
    change (inject_Z 8) with 8%Q in H1. change (inject_Z 35) with 35%Q in H2.
    rewrite clamp_inside; lra.
Qed.

Lemma downtime_zero (s : facility_state) :
  0 <= downtime_minutes s <= 480 ->
  downtime_minutes (_update_downtime s 0) = downtime_minutes s.
Proof.
  intros Hd. unfold _update_downtime.
  replace (Py.int (Float.mul 0 60)) with 0 by (vm_compute; reflexivity).
  replace (Py.int (Float.mul 0 30)) with 0 by (vm_compute; reflexivity).
  repeat case_if; cbn [downtime_minutes set_downtime_minutes]; lia.
Qed.

End SimZero.

(** X3.  An update after no elapsed time changes nothing that is
    reported: for a state within its bounds and a generator that keeps its
    contract, equipment_status, staffing_level and downtime_minutes stay
    as they are, and productivity_rate and delivery_timeliness keep their
    value. *)
Theorem zero_elapsed (s : Sim.facility_state) (facility_type : string) (r : rng) :
  Random.well_formed r ->
  Sim.in_bounds facility_type s ->
  let s' := fst (Sim._update_facility_state s facility_type 0 r) in
  Sim.equipment_status s' = Sim.equipment_status s
  /\ Sim.staffing_level s' = Sim.staffing_level s
  /\ Sim.downtime_minutes s' = Sim.downtime_minutes s
  /\ (Sim.productivity_rate s' == Sim.productivity_rate s)%Q
  /\ (Sim.delivery_timeliness s' == Sim.delivery_timeliness s)%Q.
Proof.
  intros Hr (Hst & Hp & Ht & Hd) s'.
  destruct (update_equipment_fields s facility_type 0 r) as [Es _].
  fold s' in Es.
  destruct (update_downtime_field s facility_type 0 r) as (s4 & E4 & _ & Ed4).
  fold s' in E4.
  pose proof (update_unfold s facility_type 0 r) as Eu. fold s' in Eu.
  set (s1 := fst (Sim.equipment_phase s 0 r)) in Eu.
  set (r1 := snd (Sim.equipment_phase s 0 r)) in Eu.
  set (s2 := fst (Sim._update_staffing_level s1 facility_type 0 r1)) in Eu.
  set (s3 := Sim._update_productivity s2 facility_type 0) in Eu.
  set (s4' := Sim._update_timeliness s3 facility_type 0) in Eu.
  destruct (equipment_phase_frame s 0 r) as (F1 & P1 & T1 & _).
  fold s1 in F1, P1, T1.
  destruct (staffing_frame s1 facility_type 0 r1) as (P2 & _ & T2 & _).
  fold s2 in P2, T2.
  destruct (downtime_frame s4' 0) as (F4 & _ & P4 & T4 & _).
  rewrite <- Eu in F4, P4, T4.
  assert (Hstaff : Sim.staffing_level s2 = Sim.staffing_level s).
  { subst s2. rewrite staffing_zero; [exact F1 |]. rewrite F1. exact Hst. }
  split; [rewrite Es; apply equipment_phase_zero; exact Hr |].
  split; [rewrite F4; exact Hstaff |].
  split; [rewrite E4, downtime_zero by (rewrite Ed4; exact Hd); exact Ed4 |].
  split.
  - rewrite P4. unfold s4', s3.
    cbn [Sim._update_timeliness Sim._update_productivity
           Sim.productivity_rate Sim.set_delivery_timeliness
           Sim.set_productivity_rate].
    rewrite P2, P1. rewrite clamp_inside; lra.
  - rewrite T4. unfold s4'.
    cbn [Sim._update_timeliness Sim.delivery_timeliness
           Sim.set_delivery_timeliness].
    assert (E3 : Sim.delivery_timeliness s3 = Sim.delivery_timeliness s).
    { unfold s3. cbn [Sim._update_productivity Sim.delivery_timeliness
                        Sim.set_productivity_rate].
      rewrite T2, T1. reflexivity. }
    rewrite E3. rewrite clamp_inside; lra.
Qed.

Lemma zero_elapsed_witness :
  let s := Sim.mk_state 200 0.9 "Down" 95 100 0 1.5 0 in
  let r : rng := fun _ => 0%Q in
  let s' := fst (Sim._update_facility_state s "hub" 0 r) in
  Random.well_formed r /\ Sim.in_bounds "hub" s
  /\ Sim.equipment_status s' = "Down"%string
  /\ Sim.staffing_level s' = 200
  /\ Sim.downtime_minutes s' = 100.
Proof.
  cbv zeta.
  set (s := Sim.mk_state 200 0.9 "Down" 95 100 0 1.5 0).
  set (r := fun _ : nat => 0%Q).
  assert (Hr : Random.well_formed r) by (intros n; split; unfold r; lra).
  assert (Hb : Sim.in_bounds "hub" s).
  { unfold Sim.in_bounds. cbn. repeat split; try lia; try lra. }
  destruct (zero_elapsed s "hub" r Hr Hb) as (H1 & H2 & H3 & _).
  split; [exact Hr |]. split; [exact Hb |].
  split; [exact H1 |]. split; [exact H2 | exact H3].
Defined.

Section SimStaffing.
Import Sim SimProps.

(** The phases after the staffing update leave level and trend alone. *)
Lemma update_staffing_fields (s : facility_state) (ft : string) (h : Q) (r : rng) :
  let s2 := fst (_update_staffing_level (fst (equipment_phase s h r)) ft h
                   (snd (equipment_phase s h r))) in
  let s' := fst (_update_facility_state s ft h r) in
  staffing_level s' = staffing_level s2 /\ staffing_trend s' = staffing_trend s2.
Proof.
  cbv zeta. rewrite update_unfold.
  set (s2 := fst (_update_staffing_level _ ft h _)).
  unfold _update_downtime.
  repeat case_if; cbn; split; reflexivity.
Qed.

(** Below eight elapsed hours a vanishing trend makes the staffing
    update the identity. *)
Lemma staffing_idle (s : facility_state) (ft : string) (h : Q) (r : rng) :
  (h < 8)%Q -> Qeq_bool (staffing_trend s) 0 = true ->
  _update_staffing_level s ft h r = (s, r).
Proof.
  intros Hh Ht. unfold _update_staffing_level.
  assert (Hg : Py.geb h 8 = false).
  { unfold Py.geb. destruct (Qle_bool 8 h) eqn:E; [| reflexivity].
    apply Qle_bool_iff in E. lra. }
  rewrite Hg, Ht. reflexivity.
Qed.

Lemma update_staffing_idle (s : facility_state) (ft : string) (h : Q) (r : rng) :
  (h < 8)%Q -> Qeq_bool (staffing_trend s) 0 = true ->
  let s' := fst (_update_facility_state s ft h r) in
  staffing_level s' = staffing_level s /\ staffing_trend s' = staffing_trend s.
Proof.
  intros Hh Ht. cbv zeta.
  destruct (update_staffing_fields s ft h r) as [E1 E2].
  destruct (equipment_phase_frame s h r) as (F1 & _ & _ & _ & F2).
  rewrite staffing_idle in E1, E2 by (rewrite ?F2; assumption).
  cbn [fst] in E1, E2. split; congruence.
Qed.

Lemma run_staffing_idle (ft : string) (hours : list Q) :
  Forall (fun h => (h < 8)%Q) hours ->
  forall (s : facility_state) (r : rng),
    Qeq_bool (staffing_trend s) 0 = true ->
    let s' := fst (run_updates ft hours s r) in
    staffing_level s' = staffing_level s /\ staffing_trend s' = staffing_trend s.
Proof.
  induction 1 as [| h hs Hh _ IH]; intros s r Ht; [split; reflexivity |].
  cbn [run_updates].
  destruct (update_staffing_idle s ft h r Hh Ht) as [E1 E2].
  destruct (_update_facility_state s ft h r) as [s1 r1]. cbn [fst] in E1, E2.
  destruct (IH s1 r1) as [I1 I2]; [rewrite E2; exact Ht |].
  cbv zeta in I1, I2. split; congruence.
Qed.

Lemma trend_step (s : facility_state) (ft : string) (h : Q) (r : rng) :
  (- trend_bound ft <= staffing_trend s /\ staffing_trend s <= trend_bound ft)%Q ->
  let s' := fst (_update_staffing_level s ft h r) in
  (- trend_bound ft <= staffing_trend s' /\ staffing_trend s' <= trend_bound ft)%Q.
Proof.
  intros Hb. unfold _update_staffing_level, trend_bound, Random.uniform,
    Random.random in *.
  destruct (is_hub ft);
    repeat case_if;
    cbn [fst staffing_trend set_staffing_trend set_staffing_level];
    try exact Hb;
    try match goal with
        | |- context [Py.max ?lo (Py.min ?hi ?x)] =>
            destruct (clamp_range lo hi x ltac:(lra)) as [C1 C2]
        end;
    split; lra.
Qed.

Lemma update_trend_bounded (s : facility_state) (ft : string) (h : Q) (r : rng) :
  (- trend_bound ft <= staffing_trend s /\ staffing_trend s <= trend_bound ft)%Q ->
  let s' := fst (_update_facility_state s ft h r) in
  (- trend_bound ft <= staffing_trend s' /\ staffing_trend s' <= trend_bound ft)%Q.
Proof.
  intros Hb. cbv zeta.
  destruct (update_staffing_fields s ft h r) as [_ E]. rewrite E.
  apply trend_step.
  destruct (equipment_phase_frame s h r) as (_ & _ & _ & _ & F). rewrite F.
  exact Hb.
Qed.

Lemma run_trend_bounded (ft : string) (hours : list Q) :
  forall (s : facility_state) (r : rng),
    (- trend_bound ft <= staffing_trend s /\ staffing_trend s <= trend_bound ft)%Q ->
    let s' := fst (run_updates ft hours s r) in
    (- trend_bound ft <= staffing_trend s' /\ staffing_trend s' <= trend_bound ft)%Q.
Proof.
  induction hours as [| h hs IH]; intros s r Hb; [exact Hb |].
  cbn [run_updates].
  pose proof (update_trend_bounded s ft h r Hb) as H1.
  destruct (_update_facility_state s ft h r) as [s1 r1]. apply IH. exact H1.
Qed.

Lemma initialize_trend (ft : string) (r : rng) :
  staffing_trend (fst (_initialize_facility_state ft r)) = 0%Q.
Proof.
  unfold _initialize_facility_state, Random.randint, Random.uniform,
    Random.choice, Random.random.
  destruct (is_hub ft); reflexivity.
Qed.

End SimStaffing.

(** X4.  From cold start, through any run of updates that each come
    less than eight hours after the one before, staffing_level keeps its
    initial value and staffing_trend stays 0, whatever is drawn. *)
Theorem staffing_frozen_below_eight_hours (facility_type : string) (r0 r : rng)
    (hours : list Q) :
  Forall (fun h => (h < 8)%Q) hours ->
  let s0 := fst (Sim._initialize_facility_state facility_type r0) in
  let s := fst (Sim.run_updates facility_type hours s0 r) in
  Sim.staffing_level s = Sim.staffing_level s0 /\ Sim.staffing_trend s = 0%Q.
Proof.
  intros Hh s0 s.
  destruct (run_staffing_idle facility_type hours Hh s0 r) as [E1 E2].
  - unfold s0. rewrite initialize_trend. reflexivity.
  - fold s in E1, E2. split; [exact E1 |].
    rewrite E2. apply initialize_trend.
Qed.

Lemma staffing_frozen_witness :
  let r : rng := fun _ => 0.01%Q in
  let s0 := fst (Sim._initialize_facility_state "station" r) in
  Forall (fun h => (h < 8)%Q) [1; 7.5; 0.25]%Q
  /\ Sim.staffing_level (fst (Sim.run_updates "station" [1; 7.5; 0.25]%Q s0 r))
     = Sim.staffing_level s0.
Proof.
  cbv zeta.
  assert (Hh : Forall (fun h => (h < 8)%Q) [1; 7.5; 0.25]%Q)
    by (repeat constructor; lra).
  split; [exact Hh |].
  exact (proj1 (staffing_frozen_below_eight_hours "station" (fun _ => 0.01%Q)
                  (fun _ => 0.01%Q) [1; 7.5; 0.25]%Q Hh)).
Defined.

(** X5.  From cold start on, whatever the elapsed hours and the draws,
    staffing_trend stays within [-5,5] for a hub and within [-2,2] for a
    station. *)
Theorem trend_stays_bounded (facility_type : string) (r0 r : rng) (hours : list Q) :
  let s := fst (Sim.run_updates facility_type hours
                  (fst (Sim._initialize_facility_state facility_type r0)) r) in
  (- SimProps.trend_bound facility_type <= Sim.staffing_trend s
   /\ Sim.staffing_trend s <= SimProps.trend_bound facility_type)%Q.
Proof.
  apply run_trend_bounded. rewrite initialize_trend.
  unfold SimProps.trend_bound. destruct (Sim.is_hub facility_type); split; lra.
Qed.

Section SimSaturation.
Import Sim.

Lemma int_at_least (a : Z) (x : Q) :
  0 <= a -> (inject_Z a <= x)%Q -> a <= Py.int x.
Proof.
  intros Ha Hx.
  assert (H0 : (0 <= x)%Q).
  { apply Qle_trans with (inject_Z a); [| exact Hx].
    change 0%Q with (inject_Z 0). rewrite <- Zle_Qle. exact Ha. }
  rewrite int_floor by exact H0.
  rewrite <- (Qfloor_Z a). apply Qfloor_resp_le. exact Hx.
Qed.

End SimSaturation.

(** X6.  The downtime counter saturates: an update of sixteen hours or
    more that ends Operational brings downtime_minutes to 0, and one of
    eight hours or more that ends Down brings it to 480, from any value
    within [0,480]. *)
Theorem downtime_saturates (s : Sim.facility_state) (facility_type : string)
    (hours_elapsed : Q) (r : rng) :
  0 <= Sim.downtime_minutes s <= 480 ->
  let s' := fst (Sim._update_facility_state s facility_type hours_elapsed r) in
  (Sim.equipment_status s' = "Operational"%string -> (16 <= hours_elapsed)%Q ->
   Sim.downtime_minutes s' = 0)
  /\ (Sim.equipment_status s' = "Down"%string -> (8 <= hours_elapsed)%Q ->
      Sim.downtime_minutes s' = 480).
Proof.
  intros Hd s'.
  destruct (update_downtime_field s facility_type hours_elapsed r)
    as (s4 & Es & Est & Ed).
  fold s' in Es, Est.
  destruct (downtime_cases s4 hours_elapsed) as (Hdown & Hop & _).
  split.
  - intros E Hh. rewrite Es, Hop by congruence. rewrite Ed.
    assert (480 <= Py.int (Float.mul hours_elapsed 30))
      by (apply int_at_least; [lia |];
          apply (mul_ge_integer 16 30); try lia;
          [change (inject_Z 16) with 16%Q; lra | apply Qle_refl]).
    lia.
  - intros E Hh. rewrite Es, Hdown by congruence. rewrite Ed.
    assert (480 <= Py.int (Float.mul hours_elapsed 60))
      by (apply int_at_least; [lia |];
          apply (mul_ge_integer 8 60); try lia;
          [change (inject_Z 8) with 8%Q; lra | apply Qle_refl]).
    lia.
Qed.

Lemma downtime_saturates_witness :
  let s := Sim.mk_state 200 0.9 "Operational" 95 300 30 0 0 in
  let s' := fst (Sim._update_facility_state s "hub" 16 (fun _ => 0.5%Q)) in
  0 <= Sim.downtime_minutes s <= 480
  /\ Sim.equipment_status s' = "Operational"%string
  /\ (16 <= 16)%Q
  /\ Sim.downtime_minutes s' = 0.
Proof.
  cbv zeta.
  set (s := Sim.mk_state 200 0.9 "Operational" 95 300 30 0 0).
  assert (Hd : 0 <= Sim.downtime_minutes s <= 480) by (cbn; lia).
  assert (E : Sim.equipment_status
                (fst (Sim._update_facility_state s "hub" 16 (fun _ => 0.5%Q)))
              = "Operational"%string) by (vm_compute; reflexivity).
  assert (Hh : (16 <= 16)%Q) by lra.
  split; [exact Hd |]. split; [exact E |]. split; [exact Hh |].
  exact (proj1 (downtime_saturates s "hub" 16 (fun _ => 0.5%Q) Hd) E Hh).
Defined.

Section ProviderReport.
Import Sim.

(** A successful call, spelled out. *)
Lemma get_success (p : provider) (fid : Z) (ft : string) (now : Q) (r : rng) :
  Py.ltb (r O) (failure_rate p) = false ->
  let start :=
    match facility_states p !! fid with
    | Some s => (s, Random.tail r)
    | None => _initialize_facility_state ft (Random.tail r)
    end in
  let hours :=
    Float.div (now - default (now - 3600)%Q (last_update_time p !! fid)) 3600 in
  let next := _update_facility_state (fst start) ft hours (snd start) in
  get_facility_metrics p fid ft now r
  = (Some (Metrics.mk fid (staffing_level (fst next)) (productivity_rate (fst next))
             (equipment_status (fst next)) (downtime_minutes (fst next))
             (delivery_timeliness (fst next))
             (Qfloor (now - inject_Z (60 * ((fid * 17) mod 60))))),
     mk_provider (failure_rate p) (<[fid := fst next]> (facility_states p))
       (<[fid := now]> (last_update_time p)),
     snd next).
Proof.
  intros H. cbv zeta. unfold get_facility_metrics, Random.random. rewrite H.
  destruct (match facility_states p !! fid with
            | Some s => (s, Random.tail r)
            | None => _initialize_facility_state ft (Random.tail r)
            end) as [s0 r0].
  cbn [fst snd].
  destruct (_update_facility_state s0 ft _ r0) as [s1 r1]. reflexivity.
Qed.

Lemma get_some_draw (p : provider) (fid : Z) (ft : string) (now : Q) (r : rng) :
  fst (fst (get_facility_metrics p fid ft now r)) <> None ->
  Py.ltb (r O) (failure_rate p) = false.
Proof.
  intros H. destruct (Py.ltb (r O) (failure_rate p)) eqn:E; [| reflexivity].
  rewrite get_unavailable in H by exact E. contradiction H. reflexivity.
Qed.

End ProviderReport.

(** X7.  A call of [get_facility_metrics] that returns a sample has
    stored, under the facility's id, exactly the state the sample reports
    and has set the facility's last update to the time of the call; the
    state and last update of every other facility, and the failure rate,
    are as before; and the timestamp of the sample, a whole second,
    lies less than 59 minutes and one second before the time of the
    call and not after it. *)
Theorem report_matches_store (p : Sim.provider) (facility_id : Z)
    (facility_type : string) (now : Q) (r : rng) (sample : Sim.Metrics.t) :
  let call := Sim.get_facility_metrics p facility_id facility_type now r in
  fst (fst call) = Some sample ->
  let p' := snd (fst call) in
  (exists state,
      Sim.facility_states p' !! facility_id = Some state
      /\ Sim.Metrics.facility_id sample = facility_id
      /\ Sim.Metrics.staffing_level sample = Sim.staffing_level state
      /\ Sim.Metrics.productivity_rate sample = Sim.productivity_rate state
      /\ Sim.Metrics.equipment_status sample = Sim.equipment_status state
      /\ Sim.Metrics.downtime_minutes sample = Sim.downtime_minutes state
      /\ Sim.Metrics.delivery_timeliness sample = Sim.delivery_timeliness state)
  /\ Sim.last_update_time p' !! facility_id = Some now
  /\ (forall other, other <> facility_id ->
        Sim.facility_states p' !! other = Sim.facility_states p !! other
        /\ Sim.last_update_time p' !! other = Sim.last_update_time p !! other)
  /\ Sim.failure_rate p' = Sim.failure_rate p
  /\ (now - 3541 < inject_Z (Sim.Metrics.timestamp sample)
      /\ inject_Z (Sim.Metrics.timestamp sample) <= now)%Q.
Proof.
  intros call Hsome p'. subst call p'.
  assert (Hdraw : Py.ltb (r O) (Sim.failure_rate p) = false).
  { apply (get_some_draw p facility_id facility_type now r).
    rewrite Hsome. discriminate. }
  rewrite (get_success p facility_id facility_type now r Hdraw) in *.
  remember (Qfloor (now - inject_Z (60 * ((facility_id * 17) mod 60)))) as ts
    eqn:Ets.
  cbn [fst snd] in *. injection Hsome as <-.
  cbn [Sim.facility_states Sim.last_update_time Sim.failure_rate
         Sim.Metrics.facility_id Sim.Metrics.staffing_level
         Sim.Metrics.productivity_rate Sim.Metrics.equipment_status
         Sim.Metrics.downtime_minutes Sim.Metrics.delivery_timeliness
         Sim.Metrics.timestamp].
  split.
  { eexists. split; [apply lookup_insert_eq |]. repeat split. }
  split; [apply lookup_insert_eq |].
  split.
  { intros other Hne. split; apply lookup_insert_ne; congruence. }
  split; [reflexivity |].
  assert (Hmod : 0 <= (facility_id * 17) mod 60 < 60)
    by (apply Z.mod_pos_bound; lia).
  assert (H0 : (inject_Z 0 <= inject_Z (60 * ((facility_id * 17) mod 60)))%Q)
    by (rewrite <- Zle_Qle; lia).
  assert (H1 : (inject_Z (60 * ((facility_id * 17) mod 60)) <= inject_Z 3540)%Q)
    by (rewrite <- Zle_Qle; lia).
  change (inject_Z 0) with 0%Q in H0. change (inject_Z 3540) with 3540%Q in H1.
  pose proof (Qfloor_le (now - inject_Z (60 * ((facility_id * 17) mod 60)))) as F1.
  pose proof (Qlt_floor (now - inject_Z (60 * ((facility_id * 17) mod 60)))) as F2.
  rewrite <- Ets in F1, F2.
  rewrite inject_Z_plus in F2. change (inject_Z 1) with 1%Q in F2.
  split; lra.
Qed.

Lemma report_matches_store_witness :
  let s := Sim.mk_state 200 0.9 "Operational" 95 0 0 0 0 in
  let other := Sim.mk_state 20 0.9 "Down" 95 60 3 0 0 in
  let p := Sim.mk_provider 0.05 {[ 7 := s; 8 := other ]}
             {[ 7 := 1000%Q; 8 := 1000%Q ]} in
  let r : rng := fun _ => 0.5%Q in
  let call := Sim.get_facility_metrics p 7 "hub" 1600 r in
  (exists sample, fst (fst call) = Some sample)
  /\ Sim.facility_states (snd (fst call)) !! 8 = Some other
  /\ Sim.last_update_time (snd (fst call)) !! 7 = Some 1600%Q.
Proof.
  cbv zeta.
  set (s := Sim.mk_state 200 0.9 "Operational" 95 0 0 0 0).
  set (other := Sim.mk_state 20 0.9 "Down" 95 60 3 0 0).
  set (p := Sim.mk_provider 0.05 {[ 7 := s; 8 := other ]}
              {[ 7 := 1000%Q; 8 := 1000%Q ]}).
  set (r := fun _ : nat => 0.5%Q).
  destruct (fst (fst (Sim.get_facility_metrics p 7 "hub" 1600 r))) as [sample |] eqn:E;
    [| vm_compute in E; discriminate].
  destruct (report_matches_store p 7 "hub" 1600 r sample E)
    as (_ & Hlast & Hframe & _).
  split; [exists sample; reflexivity |].
  split; [| exact Hlast].
  rewrite (proj1 (Hframe 8 ltac:(lia))). reflexivity.
Defined.

(** X8.  The first call for a facility, one the provider holds neither a
    state nor a last update for, starts from the cold-start state drawn
    for its type and evolves it by exactly one hour. *)
Theorem first_call_one_hour (p : Sim.provider) (facility_id : Z)
    (facility_type : string) (now : Q) (r : rng) :
  Sim.facility_states p !! facility_id = None ->
  Sim.last_update_time p !! facility_id = None ->
  let call := Sim.get_facility_metrics p facility_id facility_type now r in
  fst (fst call) <> None ->
  exists hours,
    (hours == 1)%Q
    /\ let cold := Sim._initialize_facility_state facility_type (Random.tail r) in
       Sim.facility_states (snd (fst call)) !! facility_id
       = Some (fst (Sim._update_facility_state (fst cold) facility_type hours
                      (snd cold))).
Proof.
  intros Hs Ht call Hsome. subst call.
  pose proof (get_some_draw p facility_id facility_type now r Hsome) as Hdraw.
  rewrite (get_success p facility_id facility_type now r Hdraw).
  rewrite Hs, Ht. cbn [default from_option fst snd Sim.facility_states].
  exists (Float.div (now - (now - 3600)) 3600). split.
  - unfold Float.div.
    assert (Ha : (Float.round (now - (now - 3600)) == inject_Z 3600)%Q)
      by (apply round_integer; [lia | change (inject_Z 3600) with 3600%Q; ring]).
    assert (Hb : (Float.round 3600 == inject_Z 3600)%Q)
      by (apply round_integer; [lia | reflexivity]).
    apply (round_integer 1); [lia |]. rewrite Ha, Hb. reflexivity.
  - cbv zeta. apply lookup_insert_eq.
Qed.

Lemma first_call_one_hour_witness :
  let r : rng := fun _ => 0.5%Q in
  let call := Sim.get_facility_metrics Sim.init 7 "station" 5000 r in
  Sim.facility_states Sim.init !! 7 = None
  /\ Sim.last_update_time Sim.init !! 7 = None
  /\ fst (fst call) <> None
  /\ exists state, Sim.facility_states (snd (fst call)) !! 7 = Some state.
Proof.
  cbv zeta.
  set (r := fun _ : nat => 0.5%Q).
  assert (Hs : Sim.facility_states Sim.init !! 7 = None) by reflexivity.
  assert (Ht : Sim.last_update_time Sim.init !! 7 = None) by reflexivity.
  assert (Hsome : fst (fst (Sim.get_facility_metrics Sim.init 7 "station" 5000 r))
                  <> None) by (vm_compute; discriminate).
  split; [exact Hs |]. split; [exact Ht |]. split; [exact Hsome |].
  destruct (first_call_one_hour Sim.init 7 "station" 5000 r Hs Ht Hsome)
    as (hours & _ & Hstate).
  eexists. exact Hstate.
Defined.

(* ================================================================== *)
(** * Further properties of the retrying wrapper *)
(* ================================================================== *)

Section RetryBudget.
Context {W A : Type}.
Implicit Types (op : Retry.operation W A) (w : W) (r : rng).

Lemma invocations_after (evs : list Retry.event) (res : Retry.result W A) :
  Retry.invocations (Retry.after evs res)
  = (length (List.filter Retry.is_invoke evs) + Retry.invocations res)%nat.
Proof.
  unfold Retry.invocations, Retry.after. cbn [Retry.trace].
  rewrite List.filter_app, length_app. reflexivity.
Qed.

Lemma delays_after (evs : list Retry.event) (res : Retry.result W A) :
  Retry.delays (Retry.after evs res)
  = (length (List.filter Retry.is_sleep evs) + Retry.delays res)%nat.
Proof.
  unfold Retry.delays, Retry.after. cbn [Retry.trace].
  rewrite List.filter_app, length_app. reflexivity.
Qed.

Lemma loop_budget op (base_delay : Q) (m : nat) :
  forall (k : nat) r w,
    let res := Retry.loop op (Z.of_nat (k + m)) base_delay
                 (map Z.of_nat (seq k m)) r w in
    (Retry.invocations res <= m)%nat
    /\ (Retry.delays res <= pred (Retry.invocations res))%nat
    /\ (m <> O -> (1 <= Retry.invocations res)%nat).
Proof.
  induction m as [| m IH]; intros k r w; cbv zeta.
  - cbn. repeat split; lia.
  - cbn [seq map Retry.loop].
    destruct (op w) as [[v | e] w']; [cbn; repeat split; lia |].
    destruct e as [[msg | msg] | | msg]; try (cbn; repeat split; lia).
    destruct (Retry.is_locked msg); cbn [andb]; [| cbn; repeat split; lia].
    destruct (Z.of_nat k <? Z.of_nat (k + S m) - 1) eqn:Hlast;
      [| cbn; repeat split; lia].
    apply Z.ltb_lt in Hlast.
    unfold Random.uniform, Random.random.
    destruct (Py.ltb _ 0); [cbn; repeat split; lia |].
    rewrite invocations_after, delays_after.
    cbn [List.filter Retry.is_invoke Retry.is_sleep length].
    replace (Z.of_nat (k + S m)) with (Z.of_nat (S k + m)) by lia.
    destruct (IH (S k) (Random.tail r) w') as (I1 & I2 & I3).
    cbv zeta in I1, I2, I3.
    assert (Hm : m <> O) by lia. specialize (I3 Hm).
    repeat split; lia.
Qed.

(** With at least one attempt to make, the loop does not fall off its
    end: the last attempt returns or raises. *)
Lemma range_value op (base_delay : Q) (m : nat) :
  forall (k : nat) r w,
    Retry.value (Retry.loop op (Z.of_nat (k + S m)) base_delay
                   (map Z.of_nat (seq k (S m))) r w) <> Return None.
Proof.
  induction m as [| m IH]; intros k r w.
  - cbn [seq map Retry.loop].
    destruct (op w) as [[v | e] w']; [cbn; discriminate |].
    destruct e as [[msg | msg] | | msg]; try (cbn; discriminate).
    replace (Z.of_nat k <? Z.of_nat (k + 1) - 1) with false
      by (symmetry; apply Z.ltb_ge; lia).
    rewrite andb_false_r. cbn. discriminate.
  - change (map Z.of_nat (seq k (S (S m))))
      with (Z.of_nat k :: map Z.of_nat (seq (S k) (S m))).
    cbn [Retry.loop].
    destruct (op w) as [[v | e] w']; [cbn; discriminate |].
    destruct e as [[msg | msg] | | msg]; try (cbn; discriminate).
    destruct (Retry.is_locked msg && _); [| cbn; discriminate].
    unfold Random.uniform, Random.random.
    destruct (Py.ltb _ 0); [cbn; discriminate |].
    unfold Retry.after. cbn [Retry.value].
    replace (Z.of_nat (k + S (S m))) with (Z.of_nat (S k + S m)) by lia.
    apply IH.
Qed.

(** When every attempt hits the locked database, every attempt of the
    range is made. *)
Lemma loop_exhausts op (base_delay : Q) :
  (0 <= base_delay)%Q ->
  (forall w, exists e, fst (op w) = Raise e /\ Retry.transient e = true) ->
  forall (m k : nat) r w,
    Random.well_formed r ->
    let res := Retry.loop op (Z.of_nat (k + S m)) base_delay
                 (map Z.of_nat (seq k (S m))) r w in
    Retry.invocations res = S m
    /\ Retry.delays res = m
    /\ exists e, Retry.value res = Raise e /\ Retry.transient e = true.
Proof.
  intros Hb Hbusy. induction m as [| m IH]; intros k r w Hr; cbv zeta.
  - cbn [seq map].
    destruct (Hbusy w) as (e & E & T).
    destruct (op w) as [o w'] eqn:Op. cbn [fst] in E. subst o.
    rewrite (loop_raise _ _ _ _ _ _ _ _ _ Op).
    + cbn. repeat split. exists e. split; [reflexivity | exact T].
    + rewrite T. cbn [andb]. apply Z.ltb_ge. lia.
  - cbn [seq map].
    destruct (Hbusy w) as (e & E & T).
    destruct (op w) as [o w'] eqn:Op. cbn [fst] in E. subst o.
    rewrite (loop_retry _ _ _ _ _ _ _ _ _ Hb Hr Op T) by lia.
    rewrite invocations_after, delays_after.
    cbn [List.filter Retry.is_invoke Retry.is_sleep length].
    replace (Z.of_nat (k + S (S m))) with (Z.of_nat (S k + S m)) by lia.
    change (Z.of_nat (S k) :: map Z.of_nat (seq (S (S k)) m))
      with (map Z.of_nat (seq (S k) (S m))).
    destruct (IH (S k) (Random.tail r) w' (well_formed_tail _ Hr)) as (I1 & I2 & I3).
    cbv zeta in I1, I2, I3. rewrite I1, I2.
    split; [reflexivity |]. split; [reflexivity |]. exact I3.
Qed.

Lemma sleep_budget_nonneg (max_retries : Z) (base_delay : Q) (attempts : list Z) :
  (0 <= base_delay)%Q ->
  (0 <= RetryProps.sleep_budget max_retries base_delay attempts)%Q.
Proof.
  intros Hb. induction attempts as [| a rest IH]; cbn [RetryProps.sleep_budget].
  - lra.
  - assert (Hp : (0 <= 2 ^ a)%Q) by (apply Qpower_0_le; lra).
    destruct (a <? max_retries - 1); nra.
Qed.

Lemma total_sleep_app (evs evs' : list Retry.event) :
  (RetryProps.total_sleep (evs ++ evs')
   == RetryProps.total_sleep evs + RetryProps.total_sleep evs')%Q.
Proof.
  induction evs as [| [n | d] rest IH]; cbn [app RetryProps.total_sleep].
  - ring.
  - exact IH.
  - rewrite IH. ring.
Qed.

Lemma loop_sleep op (max_retries : Z) (base_delay : Q) (attempts : list Z) :
  (0 <= base_delay)%Q ->
  forall r w,
    Random.well_formed r ->
    (RetryProps.total_sleep
       (Retry.trace (Retry.loop op max_retries base_delay attempts r w))
     <= RetryProps.sleep_budget max_retries base_delay attempts)%Q.
Proof.
  intros Hb. induction attempts as [| attempt rest IH]; intros r w Hr.
  - cbn. lra.
  - pose proof (sleep_budget_nonneg max_retries base_delay rest Hb) as Hrest.
    assert (Hp : (0 <= 2 ^ attempt)%Q) by (apply Qpower_0_le; lra).
    assert (Hhere : (0 <= (if attempt <? max_retries - 1
                           then base_delay * 2 ^ attempt + 0.1 else 0))%Q)
      by (destruct (attempt <? max_retries - 1); nra).
    cbn [Retry.loop RetryProps.sleep_budget].
    destruct (op w) as [[v | e] w']; [cbn; lra |].
    destruct e as [[msg | msg] | | msg]; try (cbn; lra).
    destruct (Retry.is_locked msg); cbn [andb]; [| cbn; lra].
    destruct (attempt <? max_retries - 1); [| cbn; lra].
    destruct (uniform_range 0 0.1 r Hr ltac:(lra)) as [Hj0 Hj1].
    unfold Random.uniform, Random.random in *. cbn [fst] in Hj0, Hj1.
    destruct (Py.ltb _ 0); [cbn; lra |].
    unfold Retry.after. cbn [Retry.trace app RetryProps.total_sleep].
    specialize (IH (Random.tail r) w' (well_formed_tail _ Hr)). lra.
Qed.

End RetryBudget.

(** X9.  Whatever the operation does, the wrapper invokes it at most
    max_retries times and sleeps only between two invocations.  With
    max_retries >= 1 it invokes it at least once and ends inside the
    loop: it returns what an invocation returned or raises.  With
    max_retries <= 0 it falls off the end of the loop at once, having
    neither invoked the operation nor touched the state. *)
Theorem retry_budget {W A : Type} (operation_func : Retry.operation W A)
    (max_retries : Z) (base_delay : Q) (r : rng) (w : W) :
  let res := Retry.retry_db_operation operation_func max_retries base_delay r w in
  (Retry.invocations res <= Z.to_nat max_retries)%nat
  /\ (Retry.delays res <= pred (Retry.invocations res))%nat
  /\ (1 <= max_retries ->
      (1 <= Retry.invocations res)%nat
      /\ ((exists v, Retry.value res = Return (Some v))
          \/ (exists e, Retry.value res = Raise e)))
  /\ (max_retries <= 0 -> res = Retry.mk_result (Return None) w r []).
Proof.
  cbv zeta. unfold Retry.retry_db_operation, Retry.range.
  destruct (Z_le_gt_dec max_retries 0) as [Hle | Hpos].
  - replace (Z.to_nat max_retries) with O by lia. cbn.
    split; [lia |]. split; [lia |]. split; [lia | reflexivity].
  - destruct (loop_budget operation_func base_delay (Z.to_nat max_retries) O r w)
      as (H1 & H2 & H3).
    cbv zeta in H1, H2, H3.
    replace (Z.of_nat (0 + Z.to_nat max_retries)) with max_retries in H1, H2, H3
      by lia.
    split; [exact H1 |]. split; [exact H2 |]. split; [| intros Hle; lia].
    intros _. split; [apply H3; lia |].
    destruct (Z.to_nat max_retries) as [| m] eqn:E; [lia |].
    pose proof (range_value operation_func base_delay m O r w) as Hv.
    replace (Z.of_nat (0 + S m)) with max_retries in Hv by lia.
    destruct (Retry.value _) as [[v |] | e].
    + left. exists v. reflexivity.
    + exfalso. apply Hv. reflexivity.
    + right. exists e. reflexivity.
Qed.

Lemma retry_budget_witness :
  let flaky : Retry.operation nat unit :=
    fun n => (Raise (Sqlite (OperationalError "database is locked")), S n) in
  1 <= 5
  /\ (Retry.invocations (Retry.retry_db_operation flaky 5 0.1 (fun _ => 0.5%Q) O)
      <= 5)%nat
  /\ (1 <= Retry.invocations
             (Retry.retry_db_operation flaky 5 0.1 (fun _ => 0.5%Q) O))%nat
  /\ 0 <= 0
  /\ Retry.retry_db_operation flaky 0 0.1 (fun _ => 0.5%Q) O
     = Retry.mk_result (Return None) O (fun _ => 0.5%Q) [].
Proof.
  cbv zeta.
  set (flaky := fun n : nat =>
                  (@Raise unit (Sqlite (OperationalError "database is locked")), S n)).
  destruct (retry_budget flaky 5 0.1 (fun _ => 0.5%Q) O) as (H1 & _ & H3 & _).
  destruct (retry_budget flaky 0 0.1 (fun _ => 0.5%Q) O) as (_ & _ & _ & H4).
  assert (H5 : 1 <= 5) by lia. assert (H0 : 0 <= 0) by lia.
  split; [exact H5 |]. split; [exact H1 |]. split; [exact (proj1 (H3 H5)) |].
  split; [exact H0 | exact (H4 H0)].
Defined.

(** X10.  For every max_retries >= 1: an operation that raises the
    locked-database error on every attempt is invoked exactly max_retries
    times, with max_retries - 1 sleeps, and what reaches the caller is
    that error. *)
Theorem retry_exhausts {W A : Type} (operation_func : Retry.operation W A)
    (max_retries : Z) (base_delay : Q) (r : rng) (w : W) :
  1 <= max_retries -> (0 <= base_delay)%Q -> Random.well_formed r ->
  (forall w', exists e,
      fst (operation_func w') = Raise e /\ Retry.transient e = true) ->
  let res := Retry.retry_db_operation operation_func max_retries base_delay r w in
  Z.of_nat (Retry.invocations res) = max_retries
  /\ Z.of_nat (Retry.delays res) = max_retries - 1
  /\ exists e, Retry.value res = Raise e /\ Retry.transient e = true.
Proof.
  intros Hn Hb Hr Hbusy. cbv zeta. unfold Retry.retry_db_operation, Retry.range.
  destruct (Z.to_nat max_retries) as [| m] eqn:E; [lia |].
  destruct (loop_exhausts operation_func base_delay Hb Hbusy m O r w Hr)
    as (H1 & H2 & H3).
  cbv zeta in H1, H2, H3.
  replace (Z.of_nat (0 + S m)) with max_retries in H1, H2, H3 by lia.
  rewrite H1, H2. split; [lia |]. split; [lia | exact H3].
Qed.

Lemma retry_exhausts_witness :
  let busy : Retry.operation nat unit :=
    fun n => (Raise (Sqlite (OperationalError "database is locked")), S n) in
  let r : rng := fun _ => 0.5%Q in
  1 <= 5 /\ (0 <= 0.1)%Q /\ Random.well_formed r
  /\ Z.of_nat (Retry.invocations (Retry.retry_db_operation busy 5 0.1 r O)) = 5
  /\ Z.of_nat (Retry.delays (Retry.retry_db_operation busy 5 0.1 r O)) = 5 - 1.
Proof.
  cbv zeta.
  set (busy := fun n : nat =>
                 (@Raise unit (Sqlite (OperationalError "database is locked")), S n)).
  set (r := fun _ : nat => 0.5%Q).
  assert (Hn : 1 <= 5) by lia.
  assert (Hb : (0 <= 0.1)%Q) by lra.
  assert (Hr : Random.well_formed r) by (intros n; split; unfold r; lra).
  destruct (retry_exhausts busy 5 0.1 r O Hn Hb Hr) as (H1 & H2 & _).
  { intros w'. eexists. split; reflexivity. }
  repeat split; assumption.
Defined.

(** X11.  The time slept is bounded: for a non-negative base delay the
    sleeps of one call add up to at most the back-off plus the whole
    jitter window of every attempt but the last, which for the default
    arguments (3 attempts, base 0.1 s) is half a second. *)
Theorem retry_sleep_bound {W A : Type} (operation_func : Retry.operation W A)
    (max_retries : Z) (base_delay : Q) (r : rng) (w : W) :
  (0 <= base_delay)%Q -> Random.well_formed r ->
  (RetryProps.total_sleep
     (Retry.trace (Retry.retry_db_operation operation_func max_retries base_delay r w))
   <= RetryProps.sleep_budget max_retries base_delay (Retry.range max_retries))%Q
  /\ (RetryProps.sleep_budget Retry.default_max_retries Retry.default_base_delay
        (Retry.range Retry.default_max_retries) == 0.5)%Q.
Proof.
  intros Hb Hr. split.
  - apply loop_sleep; assumption.
  - vm_compute. reflexivity.
Qed.

Lemma retry_sleep_bound_witness :
  let busy : Retry.operation nat unit :=
    fun n => (Raise (Sqlite (OperationalError "database is locked")), S n) in
  let r : rng := fun _ => 0.5%Q in
  (0 <= 0.1)%Q /\ Random.well_formed r
  /\ (RetryProps.total_sleep (Retry.trace (Retry.retry_db_operation busy 3 0.1 r O))
      <= RetryProps.sleep_budget 3 0.1 (Retry.range 3))%Q.
Proof.
  cbv zeta.
  set (busy := fun n : nat =>
                 (@Raise unit (Sqlite (OperationalError "database is locked")), S n)).
  set (r := fun _ : nat => 0.5%Q).
  assert (Hb : (0 <= 0.1)%Q) by lra.
  assert (Hr : Random.well_formed r) by (intros n; split; unfold r; lra).
  split; [exact Hb |]. split; [exact Hr |].
  exact (proj1 (retry_sleep_bound busy 3 0.1 r O Hb Hr)).
Defined.

(* ================================================================== *)
(** * Further properties of the alert ledger and the metrics table *)
(* ================================================================== *)

Section RetryOutcome.
Import Store.

(** The retried operation, with the outcome: it returned because an
    attempt returned, and raised after failed attempts only. *)
Lemma with_retry_outcome (P Q : world -> Prop) (operation_func : M unit) :
  (forall w, P w ->
     match operation_func w with
     | (Return _, w') => Q w'
     | (Raise _, w') => P w'
     end) ->
  (forall w r, P w -> P (set_rand r w)) ->
  (forall w r, Q w -> Q (set_rand r w)) ->
  forall w, P w ->
    match fst (with_retry operation_func w) with
    | Return _ => Q (snd (with_retry operation_func w))
    | Raise _ => P (snd (with_retry operation_func w))
    end.
Proof.
  intros Hop HP HQ w Hw. unfold with_retry, Retry.retry_db_operation.
  pose proof (loop_invariant P Q operation_func Retry.default_max_retries
                Retry.default_base_delay Hop
                (Retry.range Retry.default_max_retries) (rand w) w Hw) as H.
  pose proof (range_value operation_func Retry.default_base_delay 2 O (rand w) w)
    as Hsome.
  change (map Z.of_nat (seq 0 3)) with (Retry.range Retry.default_max_retries)
    in Hsome.
  change (Z.of_nat (0 + 3)) with Retry.default_max_retries in Hsome.
  cbv zeta in H. cbn [fst snd].
  destruct (Retry.value _) as [[v |] | e].
  - apply HQ. exact H.
  - contradiction Hsome. reflexivity.
  - apply HP. exact H.
Qed.

End RetryOutcome.

Section StableAlerts.
Import Store DataAggregator LedgerProps.
Variable I : world -> Prop.
Hypothesis HI : alert_pass_stable I.

Lemma stable_query {A : Type} (read : world -> A) :
  preserves I (transaction (fun w => (read w, w))).
Proof.
  destruct HI as (Ht & _). apply preserves_transaction; [exact Ht |].
  intros w H. exact H.
Qed.

Lemma stable_open (fid : Z) (ty msg sev : string) :
  aggregator_kind ty sev = true ->
  preserves I (open_unless_existing fid ty msg sev).
Proof.
  intros Hk. destruct HI as (Ht & Hr & Ha & _). unfold open_unless_existing.
  apply preserves_bind; [apply stable_query |].
  intros existing. destruct existing; cbn [negb]; [apply preserves_ret |].
  unfold AlertsDB.insert_alert. apply preserves_with_retry; [| exact Hr].
  unfold AlertsDB._insert. apply preserves_transaction; [exact Ht |].
  intros w Hw. cbn [snd]. apply Ha; [exact Hw | exact Hk | reflexivity].
Qed.

Lemma stable_resolve_equipment (fid : Z) :
  preserves I (_resolve_equipment_alerts_for_facility fid).
Proof.
  destruct HI as (Ht & _ & _ & Hm). unfold _resolve_equipment_alerts_for_facility.
  apply preserves_try; [| intros e; apply preserves_ret].
  apply preserves_transaction; [exact Ht |].
  intros w H. cbn [snd]. apply Hm; [apply only_resolves_cond | exact H].
Qed.

Lemma stable_resolve_alert (alert_id : Z) :
  preserves I (AlertsDB.resolve_alert alert_id).
Proof.
  destruct HI as (Ht & _ & _ & Hm). unfold AlertsDB.resolve_alert.
  apply preserves_transaction; [exact Ht |].
  intros w H. cbn [snd]. apply Hm; [apply only_resolves_cond | exact H].
Qed.

Lemma stable_productivity_check (facility : Facility.t) :
  preserves I (productivity_check facility).
Proof.
  unfold productivity_check.
  destruct (Facility.productivity_rate facility) as [rate |];
    [| apply preserves_ret].
  destruct (Py.ltb rate 0.7); [apply stable_open; reflexivity | apply preserves_ret].
Qed.

Lemma stable_equipment_branch (facility : Facility.t) :
  preserves I
    (if status_is (Facility.equipment_status facility) "Down" then
       open_unless_existing (Facility.id facility) "equipment_down"
         ("Equipment down at " +:+ Facility.name facility)%string "critical"
     else if status_is (Facility.equipment_status facility) "Maintenance" then
       open_unless_existing (Facility.id facility) "equipment_maintenance"
         ("Equipment under maintenance at " +:+ Facility.name facility)%string
         "warning"
     else if status_is (Facility.equipment_status facility) "Operational" then
       _resolve_equipment_alerts_for_facility (Facility.id facility)
     else ret tt).
Proof.
  repeat case_if;
    first [apply stable_open; reflexivity | apply stable_resolve_equipment
          | apply preserves_ret].
Qed.

Lemma stable_capacity_check (facility : Facility.t) :
  preserves I (capacity_check facility).
Proof.
  unfold capacity_check, true_div.
  destruct (0 <? Facility.max_capacity facility); [| apply preserves_ret].
  apply preserves_bind.
  - destruct (Facility.max_capacity facility =? 0); intros w H; exact H.
  - intros utilization.
    destruct (Py.ltb 0.9 utilization);
      [apply stable_open; reflexivity | apply preserves_ret].
Qed.

Lemma stable_pass (body : Facility.t -> M unit) :
  (forall facility, preserves I (body facility)) ->
  preserves I (bind FacilityDB.get_all_active_facilities
                 (fun facilities => for_each facilities body)).
Proof.
  intros Hb. apply preserves_bind; [apply stable_query |].
  intros facilities. apply preserves_for_each. exact Hb.
Qed.

Lemma stable_check_for_alerts : preserves I _check_for_alerts.
Proof.
  unfold _check_for_alerts.
  apply preserves_try; [| intros e; apply preserves_ret].
  apply preserves_bind; [apply stable_pass, stable_productivity_check |].
  intros _.
  apply preserves_bind; [apply stable_pass, stable_equipment_branch |].
  intros _. apply stable_pass, stable_capacity_check.
Qed.

Lemma stable_sync : preserves I sync_alerts_with_current_data.
Proof.
  unfold sync_alerts_with_current_data.
  apply preserves_try; [| intros e; apply preserves_ret].
  apply stable_pass. intros facility. unfold sync_facility.
  apply preserves_bind; [apply stable_equipment_branch |].
  intros _. apply stable_productivity_check.
Qed.

End StableAlerts.

Section StableCollection.
Import Store DataAggregator LedgerProps.
Variable I : world -> Prop.
Hypothesis HI : collection_stable I.

Lemma stable_get_metrics (fid : Z) (ft : string) :
  preserves I (DataService.get_facility_metrics fid ft).
Proof.
  destruct HI as (_ & Hr & Hp & _).
  intros w H. unfold DataService.get_facility_metrics.
  destruct (Sim.get_facility_metrics _ _ _ _ _) as [[m p] r]. cbn [snd].
  apply Hr, Hp, H.
Qed.

Lemma stable_collect (facilities : list Facility.t) :
  forall batch, preserves I (collect facilities batch).
Proof.
  induction facilities as [| f rest IH]; intros batch; cbn [collect].
  - apply preserves_ret.
  - apply preserves_bind.
    + apply preserves_try; [apply stable_get_metrics |].
      intros e. apply preserves_ret.
    + intros metrics. apply IH.
Qed.

Lemma stable_metrics_write (c : sink_call) (operation_func : M unit) :
  preserves I operation_func ->
  preserves I (fun w => with_retry operation_func (record_call c w)).
Proof.
  destruct HI as (_ & Hr & _ & _ & Hc). intros Hop w Hw.
  apply (preserves_with_retry I); [exact Hop | exact Hr |].
  apply Hc, Hw.
Qed.

Lemma stable_insert_batch (batch : list Sim.Metrics.t) :
  preserves I (insert_batch batch).
Proof.
  pose proof HI as (Ht & _ & _ & Hm & _).
  unfold insert_batch. destruct batch as [| m rest]; [apply preserves_ret |].
  apply preserves_try.
  - apply (stable_metrics_write (BatchInsert (m :: rest))).
    apply preserves_batch_insert; assumption.
  - intros e. unfold individual_inserts. apply preserves_for_each.
    intros metrics. apply preserves_try; [| intros e2; apply preserves_ret].
    apply (stable_metrics_write (InsertOne metrics)).
    apply preserves_transaction; [exact Ht |].
    intros w0 H. cbn [snd]. apply Hm, H.
Qed.

Lemma stable_collect_facility_metrics : preserves I _collect_facility_metrics.
Proof.
  destruct HI as (Ht & _). unfold _collect_facility_metrics.
  apply preserves_bind.
  - apply preserves_transaction; [exact Ht | intros w H; exact H].
  - intros facilities. apply preserves_bind; [apply stable_collect |].
    intros batch. apply stable_insert_batch.
Qed.

End StableCollection.

Section LedgerHistory.
Import Store DataAggregator LedgerProps.

Lemma closed_alert_pass (J : list Alert.t -> Prop) :
  ledger_closed J -> alert_pass_stable (fun w => J (alerts w)).
Proof.
  intros [Ha Hm]. repeat split.
  - intros w H. exact H.
  - intros w r H. exact H.
  - intros w x H Hk Hr. cbn [alerts set_alerts]. apply Ha; assumption.
  - intros w f Hf H. cbn [alerts set_alerts]. apply Hm; assumption.
Qed.

Lemma closed_collection (J : list Alert.t -> Prop) :
  collection_stable (fun w => J (alerts w)).
Proof. repeat split; intros; assumption. Qed.

(** A closed property of the ledger holds along every evolution. *)
Lemma evolves_closed (J : list Alert.t -> Prop) (w w' : world) :
  ledger_closed J -> evolves w w' -> J (alerts w) -> J (alerts w').
Proof.
  intros HJ. pose proof (closed_alert_pass J HJ) as Hs.
  pose proof (closed_collection J) as Hc.
  induction 1 as [w | w w' _ IH | w w' _ IH | w w' _ IH | alert_id w w' _ IH
                 | w w1 w' Halerts _ IH]; intros Hw.
  - exact Hw.
  - apply IH. apply (stable_check_for_alerts _ Hs w Hw).
  - apply IH. apply (stable_sync _ Hs w Hw).
  - apply IH. unfold collect_data_once.
    apply (preserves_try (fun w0 => J (alerts w0))); [| intros e; apply preserves_ret
                                                      | exact Hw].
    apply preserves_bind; [apply stable_collect_facility_metrics; exact Hc |].
    intros _. apply stable_check_for_alerts; exact Hs.
  - apply IH. apply (stable_resolve_alert _ Hs alert_id w Hw).
  - apply IH. rewrite Halerts. exact Hw.
Qed.

Lemma continues_refl (l : list Alert.t) : continues l l.
Proof.
  exists l, []. split; [symmetry; apply app_nil_r |].
  induction l as [| a rest IH]; constructor; [left; reflexivity | exact IH].
Qed.

Lemma resolve_resolve (a : Alert.t) : Alert.resolve (Alert.resolve a) = Alert.resolve a.
Proof. reflexivity. Qed.

Lemma continues_closed (l : list Alert.t) : ledger_closed (continues l).
Proof.
  split.
  - intros l' x (kept & added & E & Hk) _ _.
    exists kept, (added ++ [x]). split; [| exact Hk].
    rewrite E, <- app_assoc. reflexivity.
  - intros l' f Hf (kept & added & E & Hk).
    exists (map f kept), (map f added). split; [rewrite E; apply map_app |].
    clear E. induction Hk as [| a a' l0 kept0 Ha _ IH]; cbn [map]; constructor;
      [| exact IH].
    destruct (Hf a') as [E | E]; rewrite E; destruct Ha as [-> | ->];
      auto using resolve_resolve.
Qed.

Lemma kinds_closed : ledger_closed (Forall aggregator_alert).
Proof.
  split.
  - intros l x Hl Hx _. apply List.Forall_app. split; [exact Hl |].
    constructor; [exact Hx | constructor].
  - intros l f Hf Hl. apply List.Forall_map.
    eapply List.Forall_impl; [| exact Hl].
    intros a Ha. destruct (Hf a) as [E | E]; rewrite E; exact Ha.
Qed.

End LedgerHistory.

(** X12.  The ledger is append-only.  Through any succession of checks,
    syncs, turns of the collection loop and resolutions, the alerts that
    were there are still there, at the same place, each unchanged or
    changed in its resolved flag alone; ids, facilities, types, messages,
    severities and creation times are never rewritten and no alert is
    deleted or reopened. *)
Theorem ledger_history_kept (w w' : Store.world) :
  DataAggregator.evolves w w' ->
  LedgerProps.continues (Store.alerts w) (Store.alerts w').
Proof.
  intros Hev.
  apply (evolves_closed (LedgerProps.continues (Store.alerts w)) w w').
  - apply continues_closed.
  - exact Hev.
  - apply continues_refl.
Qed.

Lemma ledger_history_kept_witness :
  let old := Alert.mk 1 7 "equipment_down" "Equipment down at Hub" "critical"
               false 0 in
  let w := Store.mk_world
             [FacilityRow.mk 7 "Hub" "Chicago, IL" "hub" "active" 1000 950 150]
             [MetricsRow.mk 7 150 0.5 "Operational" 0 95 90]
             [old] 100 (fun _ => (1%nat, None)) (fun _ => 0.5%Q) Sim.init [] in
  let w' := snd (DataAggregator._check_for_alerts w) in
  DataAggregator.evolves w w'
  /\ LedgerProps.continues (Store.alerts w) (Store.alerts w')
  /\ map Alert.resolved (Store.alerts w') = [true; false; false].
Proof.
  cbv zeta.
  set (old := Alert.mk 1 7 "equipment_down" "Equipment down at Hub" "critical"
                false 0).
  set (w := Store.mk_world
              [FacilityRow.mk 7 "Hub" "Chicago, IL" "hub" "active" 1000 950 150]
              [MetricsRow.mk 7 150 0.5 "Operational" 0 95 90]
              [old] 100 (fun _ => (1%nat, None)) (fun _ => 0.5%Q) Sim.init []).
  assert (Hev : DataAggregator.evolves w (snd (DataAggregator._check_for_alerts w)))
    by (apply DataAggregator.evolves_check, DataAggregator.evolves_refl).
  split; [exact Hev |]. split; [exact (ledger_history_kept _ _ Hev) |].
  vm_compute. reflexivity.
Defined.

(** X13.  The aggregator writes four kinds of alert and each with one
    severity: low_productivity, equipment_maintenance and high_capacity
    as warnings, equipment_down as critical.  A ledger that holds only
    such alerts (the empty one does) holds only such alerts after any
    succession of checks, syncs, turns and resolutions. *)
Theorem ledger_kinds (w w' : Store.world) :
  DataAggregator.evolves w w' ->
  Forall LedgerProps.aggregator_alert (Store.alerts w) ->
  Forall LedgerProps.aggregator_alert (Store.alerts w').
Proof.
  intros Hev. apply (evolves_closed _ w w' kinds_closed Hev).
Qed.

Lemma ledger_kinds_witness :
  let w := Store.mk_world
             [FacilityRow.mk 7 "Hub" "Chicago, IL" "hub" "active" 1000 950 150]
             [MetricsRow.mk 7 150 0.5 "Down" 30 95 90]
             [] 100 (fun _ => (1%nat, None)) (fun _ => 0.5%Q) Sim.init [] in
  let w' := snd (DataAggregator._check_for_alerts w) in
  DataAggregator.evolves w w'
  /\ Forall LedgerProps.aggregator_alert (Store.alerts w)
  /\ Forall LedgerProps.aggregator_alert (Store.alerts w')
  /\ map Alert.alert_type (Store.alerts w')
     = ["low_productivity"; "equipment_down"; "high_capacity"].
Proof.
  cbv zeta.
  set (w := Store.mk_world
              [FacilityRow.mk 7 "Hub" "Chicago, IL" "hub" "active" 1000 950 150]
              [MetricsRow.mk 7 150 0.5 "Down" 30 95 90]
              [] 100 (fun _ => (1%nat, None)) (fun _ => 0.5%Q) Sim.init []).
  assert (Hev : DataAggregator.evolves w (snd (DataAggregator._check_for_alerts w)))
    by (apply DataAggregator.evolves_check, DataAggregator.evolves_refl).
  assert (H0 : Forall LedgerProps.aggregator_alert (Store.alerts w))
    by apply List.Forall_nil.
  split; [exact Hev |]. split; [exact H0 |].
  split; [exact (ledger_kinds _ _ Hev H0) |].
  vm_compute. reflexivity.
Defined.

(** X14.  The alert passes keep to the alerts table: the periodic
    check, the startup sync and a resolution from the dashboard leave
    the facilities table, the stored metrics, the rows of the facility
    query, the simulator's state and the calls made to the metrics sink
    as they were, whatever faults occur. *)
Theorem alert_passes_frame (w : Store.world) (alert_id : Z) :
  LedgerProps.same_metrics_side w (snd (DataAggregator._check_for_alerts w))
  /\ LedgerProps.same_metrics_side w
       (snd (DataAggregator.sync_alerts_with_current_data w))
  /\ LedgerProps.same_metrics_side w (snd (AlertsDB.resolve_alert alert_id w)).
Proof.
  assert (Hs : LedgerProps.alert_pass_stable (LedgerProps.same_metrics_side w))
    by (repeat split; intros;
        match goal with
        | H : LedgerProps.same_metrics_side _ _ |- _ => apply H
        end).
  assert (H0 : LedgerProps.same_metrics_side w w) by (repeat split).
  split; [| split].
  - apply (stable_check_for_alerts _ Hs w H0).
  - apply (stable_sync _ Hs w H0).
  - apply (stable_resolve_alert _ Hs alert_id w H0).
Qed.

(** X15.  The metrics collection writes to the metrics table only: it
    leaves the facilities table and the alerts table as they were,
    whatever faults occur.  (The rows of the facility query, which join
    each facility with its latest metrics, are another matter: they
    change when a sample is stored.) *)
Theorem collection_frame (w : Store.world) :
  LedgerProps.same_alert_side w (snd (DataAggregator._collect_facility_metrics w)).
Proof.
  assert (Hs : LedgerProps.collection_stable (LedgerProps.same_alert_side w)).
  { repeat split; intros;
      match goal with
      | H : LedgerProps.same_alert_side _ _ |- _ => apply H
      end. }
  apply (stable_collect_facility_metrics _ Hs w).
  split; reflexivity.
Qed.

Section CollectionOutcome.
Import Store DataAggregator LedgerProps.

Lemma collect_returns (facilities : list Facility.t) :
  forall batch w, exists b, fst (collect facilities batch w) = Return b.
Proof.
  induction facilities as [| f rest IH]; intros batch w; cbn [collect].
  - exists batch. reflexivity.
  - unfold bind, try, DataService.get_facility_metrics.
    destruct (Sim.get_facility_metrics _ _ _ _ _) as [[m p] r]. apply IH.
Qed.

Lemma insert_batch_returns (batch : list Sim.Metrics.t) (w : world) :
  fst (insert_batch batch w) = Return tt.
Proof.
  unfold insert_batch. destruct batch as [| m rest]; [reflexivity |].
  unfold try.
  destruct (_batch_insert_metrics (m :: rest) w) as [[[] | e] w1];
    [reflexivity |].
  apply individual_inserts_calls.
Qed.

(** A retried write to the metrics table: when it returns, the rows of
    one attempt are there, once; when it raises, none is. *)
Lemma retried_rows (operation_func : M unit) (R : list MetricsRow.t -> Prop)
    (w : world) :
  (forall w0,
      match operation_func w0 with
      | (Return _, w') =>
          exists rows, facility_metrics w' = facility_metrics w0 ++ rows /\ R rows
      | (Raise _, w') => facility_metrics w' = facility_metrics w0
      end) ->
  match fst (with_retry operation_func w) with
  | Return _ =>
      exists rows,
        facility_metrics (snd (with_retry operation_func w))
        = facility_metrics w ++ rows /\ R rows
  | Raise _ =>
      facility_metrics (snd (with_retry operation_func w)) = facility_metrics w
  end.
Proof.
  intros Hop.
  apply (with_retry_outcome
           (fun w0 => facility_metrics w0 = facility_metrics w)
           (fun w0 => exists rows,
                facility_metrics w0 = facility_metrics w ++ rows /\ R rows)).
  - intros w0 Hm. specialize (Hop w0).
    destruct (operation_func w0) as [[v | e] w'].
    + destruct Hop as (rows & E & HR). exists rows. rewrite E, Hm. split; auto.
    + congruence.
  - intros w0 r H. exact H.
  - intros w0 r H. exact H.
  - reflexivity.
Qed.

Lemma insert_statement_rows (m : Sim.Metrics.t) (w0 : world) :
  match insert_statement m w0 with
  | (Return _, w') =>
      exists rows,
        facility_metrics w' = facility_metrics w0 ++ rows
        /\ exists now, rows = [MetricsRow.of_sample m now]
  | (Raise _, w') => facility_metrics w' = facility_metrics w0
  end.
Proof.
  unfold insert_statement. rewrite transaction_eq.
  destruct (snd (env w0 O)); cbn [fst snd]; [reflexivity |].
  eexists. split; [reflexivity |]. eexists. reflexivity.
Qed.

Lemma statements_rows (batch : list Sim.Metrics.t) :
  forall w0,
    match fst (for_each batch insert_statement w0) with
    | Return _ =>
        exists rows,
          facility_metrics (snd (for_each batch insert_statement w0))
          = facility_metrics w0 ++ rows
          /\ stored_all rows batch
    | Raise _ => True
    end.
Proof.
  induction batch as [| m rest IH]; intros w0; cbn [for_each].
  - exists []. split; [symmetry; apply app_nil_r | constructor].
  - unfold bind at 1 2. pose proof (insert_statement_rows m w0) as Hm.
    destruct (insert_statement m w0) as [[[] | e] w1]; [| exact I].
    destruct Hm as (rows1 & E1 & now & ->).
    specialize (IH w1).
    destruct (fst (for_each rest insert_statement w1)); [| exact I].
    destruct IH as (rows & E & Hs).
    exists (MetricsRow.of_sample m now :: rows). split.
    + rewrite E, E1, <- app_assoc. reflexivity.
    + constructor; [exists now; reflexivity | exact Hs].
Qed.

Lemma batch_insert_rows (batch : list Sim.Metrics.t) (w0 : world) :
  match _batch_insert batch w0 with
  | (Return _, w') =>
      exists rows,
        facility_metrics w' = facility_metrics w0 ++ rows /\ stored_all rows batch
  | (Raise _, w') => facility_metrics w' = facility_metrics w0
  end.
Proof.
  unfold _batch_insert. pose proof (statements_rows batch w0) as H.
  destruct (for_each batch insert_statement w0) as [[v | e] w'];
    cbn [fst snd] in *; [exact H | reflexivity].
Qed.

Lemma stored_all_from (rows : list MetricsRow.t) (batch : list Sim.Metrics.t) :
  stored_all rows batch -> stored_from rows batch.
Proof.
  induction 1 as [| row m rows batch (now & ->) _ IH].
  - apply stored_nil.
  - apply stored_keep. exact IH.
Qed.

Lemma individual_inserts_rows (batch : list Sim.Metrics.t) :
  forall w, exists rows,
    facility_metrics (snd (individual_inserts batch w))
    = facility_metrics w ++ rows
    /\ stored_from rows batch.
Proof.
  unfold individual_inserts.
  induction batch as [| m rest IH]; intros w.
  - exists []. split; [symmetry; apply app_nil_r | constructor].
  - cbn [for_each]. unfold bind at 1, try at 1, MetricsDB.insert_metrics at 1.
    pose proof (retried_rows (MetricsDB._insert m)
                  (fun rows => exists now, rows = [MetricsRow.of_sample m now])
                  (record_call (InsertOne m) w) (insert_statement_rows m)) as Hw.
    destruct (with_retry _ (record_call (InsertOne m) w)) as [[[] | e] w1];
      cbn [fst snd ret] in *.
    + destruct Hw as (rows1 & Hw & now & ->). destruct (IH w1) as (rows & E & Hs).
      exists (MetricsRow.of_sample m now :: rows). split.
      * rewrite E, Hw. cbn [facility_metrics record_call].
        rewrite <- app_assoc. reflexivity.
      * apply stored_keep. exact Hs.
    + destruct (IH w1) as (rows & E & Hs).
      exists rows. split.
      * rewrite E, Hw. reflexivity.
      * apply stored_skip. exact Hs.
Qed.

End CollectionOutcome.

(** X16.  The metrics collection raises in one case only: when its
    facility query fails, and then nothing else has happened.  Once the
    query has returned, no failure of the simulator or of the inserts
    reaches the caller. *)
Theorem collection_raises_only_on_query (w : Store.world) :
  match snd (Store.env w O) with
  | Some e => DataAggregator._collect_facility_metrics w
              = (Raise (Sqlite e), Store.tick w)
  | None => fst (DataAggregator._collect_facility_metrics w) = Return tt
  end.
Proof.
  unfold DataAggregator._collect_facility_metrics, Store.bind,
    FacilityDB.get_all_active_facilities.
  rewrite transaction_eq.
  destruct (snd (Store.env w O)) as [e |]; [reflexivity |]. cbn [fst snd].
  destruct (collect_returns (FacilityDB.rows (Store.tick w)) [] (Store.tick w))
    as [b Hb].
  destruct (DataAggregator.collect _ _ _) as [o w1]. cbn [fst] in Hb. subst o.
  apply insert_batch_returns.
Qed.

(** X17.  No sample is stored twice.  Whatever faults occur, the rows
    that the insertion of a batch adds to the metrics table are samples
    of the batch, in its order, each at most once; and when the batch
    insert returns they are all of them, one row per sample. *)
Theorem no_sample_stored_twice (metrics_batch : list Sim.Metrics.t)
    (w : Store.world) :
  exists rows,
    Store.facility_metrics (snd (DataAggregator.insert_batch metrics_batch w))
    = Store.facility_metrics w ++ rows
    /\ LedgerProps.stored_from rows metrics_batch
    /\ (fst (DataAggregator._batch_insert_metrics metrics_batch w) = Return tt ->
        LedgerProps.stored_all rows metrics_batch).
Proof.
  unfold DataAggregator.insert_batch.
  destruct metrics_batch as [| m rest].
  - exists []. split; [symmetry; apply app_nil_r |]. split; constructor.
  - unfold Store.try, DataAggregator._batch_insert_metrics.
    pose proof (retried_rows (DataAggregator._batch_insert (m :: rest))
                  (fun rows => LedgerProps.stored_all rows (m :: rest))
                  (Store.record_call (BatchInsert (m :: rest)) w)
                  (batch_insert_rows (m :: rest))) as Hw.
    destruct (Store.with_retry _ (Store.record_call (BatchInsert (m :: rest)) w))
      as [[[] | e] w1]; cbn [fst snd] in *.
    + destruct Hw as (rows & Hw & Hall). exists rows.
      split; [exact Hw |]. split; [apply stored_all_from; exact Hall |].
      intros _. exact Hall.
    + destruct (individual_inserts_rows (m :: rest) w1) as (rows & E & Hs).
      exists rows. split; [rewrite E, Hw; reflexivity |].
      split; [exact Hs |]. intros H. discriminate H.
Qed.

Section AlertRoundTrips.
Import Store DataAggregator.

Lemma matches_self (fid : Z) (ty msg sev : string) (id created now : Z) :
  now - 3600 < created ->
  AlertsDB.matches_existing fid ty AlertsDB.default_hours now
    (Alert.mk id fid ty msg sev false created) = true.
Proof.
  intros H. unfold AlertsDB.matches_existing, AlertsDB.default_hours.
  cbn [Alert.facility_id Alert.alert_type Alert.resolved Alert.created_at].
  rewrite Z.eqb_refl, String.eqb_refl. cbn [andb negb].
  apply Z.ltb_lt. lia.
Qed.

(** What [insert_alert] leaves behind: the ledger as it was, or with
    one new unresolved alert of the pair at its end. *)
Lemma insert_alert_cases (fid : Z) (ty msg sev : string) (w : world) :
  let w1 := snd (AlertsDB.insert_alert fid ty msg sev w) in
  alerts w1 = alerts w
  \/ exists id created,
       clock w <= created
       /\ alerts w1 = alerts w ++ [Alert.mk id fid ty msg sev false created].
Proof.
  cbv zeta. unfold AlertsDB.insert_alert.
  destruct (with_retry_cases
              (fun w0 => alerts w0 = alerts w /\ clock w <= clock w0)
              (fun w0 => exists id created,
                 clock w <= created
                 /\ alerts w0 = alerts w ++ [Alert.mk id fid ty msg sev false created])
              (AlertsDB._insert fid ty msg sev)) with (w := w) as [[H _] | H].
  - intros w0 [Ha Hc]. unfold AlertsDB._insert. rewrite transaction_eq.
    pose proof (clock_tick w0) as Ht.
    destruct (snd (env w0 O)); cbn [fst snd].
    + split; [exact Ha | lia].
    + exists (AlertsDB.next_id (alerts (tick w0))), (clock (tick w0)).
      split; [lia |]. cbn [alerts set_alerts]. rewrite <- Ha. reflexivity.
  - intros w0 r H. exact H.
  - intros w0 r H. exact H.
  - split; [reflexivity | lia].
  - left. exact H.
  - right. exact H.
Qed.

End AlertRoundTrips.

(** X18.  Insert, then look up.  When a guarded insert has opened an
    alert, a second guarded insert for the same facility and type whose
    check runs less than an hour after the first call began opens
    nothing, whatever its message and severity. *)
Theorem reopen_suppressed (facility_id : Z) (alert_type message severity : string)
    (message' severity' : string) (w : Store.world) :
  let w1 := snd (DataAggregator.open_unless_existing facility_id alert_type
                   message severity w) in
  Store.alerts w1 <> Store.alerts w ->
  Store.clock (Store.tick w1) - Store.clock w < 3600 ->
  Store.alerts (snd (DataAggregator.open_unless_existing facility_id alert_type
                       message' severity' w1))
  = Store.alerts w1.
Proof.
  cbv zeta. intros Hopened Hsoon.
  assert (Hnew : exists id created,
             Store.clock w <= created
             /\ Store.alerts (snd (DataAggregator.open_unless_existing facility_id
                                     alert_type message severity w))
                = Store.alerts w
                    ++ [Alert.mk id facility_id alert_type message severity false
                          created]).
  { revert Hopened. clear Hsoon.
    unfold DataAggregator.open_unless_existing at 1 2, Store.bind,
      AlertsDB.check_existing_alert.
    rewrite transaction_eq.
    destruct (snd (Store.env w O)); cbn [fst snd];
      [intros H; contradiction H; reflexivity |].
    destruct (existsb _ _); cbn [negb];
      [intros H; contradiction H; reflexivity |].
    intros H.
    destruct (insert_alert_cases facility_id alert_type message severity
                (Store.tick w)) as [E | (id & created & Hc & E)].
    - contradiction H.
    - exists id, created. pose proof (clock_tick w). split; [lia | exact E]. }
  destruct Hnew as (id & created & Hc & E).
  set (w1 := snd (DataAggregator.open_unless_existing facility_id alert_type
                    message severity w)) in *.
  unfold DataAggregator.open_unless_existing, Store.bind,
    AlertsDB.check_existing_alert.
  rewrite transaction_eq.
  destruct (snd (Store.env w1 O)); cbn [fst snd]; [reflexivity |].
  change (Store.alerts (Store.tick w1)) with (Store.alerts w1).
  rewrite E, existsb_app. cbn [existsb].
  rewrite matches_self by lia.
  cbn [orb]. rewrite orb_true_r. cbn [negb]. exact E.
Qed.

Lemma reopen_suppressed_witness :
  let w := Store.mk_world [] [] [] 100 (fun _ => (60%nat, None)) (fun _ => 0.5%Q)
             Sim.init [] in
  let w1 := snd (DataAggregator.open_unless_existing 7 "equipment_down"
                   "Equipment down at Hub" "critical" w) in
  Store.alerts w1 <> Store.alerts w
  /\ Store.clock (Store.tick w1) - Store.clock w < 3600
  /\ Store.alerts (snd (DataAggregator.open_unless_existing 7 "equipment_down"
                          "again" "warning" w1))
     = Store.alerts w1.
Proof.
  cbv zeta.
  set (w := Store.mk_world [] [] [] 100 (fun _ => (60%nat, None)) (fun _ => 0.5%Q)
              Sim.init []).
  assert (H1 : Store.alerts (snd (DataAggregator.open_unless_existing 7
                                    "equipment_down" "Equipment down at Hub"
                                    "critical" w))
               <> Store.alerts w) by (vm_compute; discriminate).
  assert (H2 : Store.clock (Store.tick
                 (snd (DataAggregator.open_unless_existing 7 "equipment_down"
                         "Equipment down at Hub" "critical" w)))
               - Store.clock w < 3600) by (vm_compute; reflexivity).
  split; [exact H1 |]. split; [exact H2 |].
  exact (reopen_suppressed 7 "equipment_down" "Equipment down at Hub" "critical"
           "again" "warning" w H1 H2).
Defined.

(** X19.  Resolve, then look up.  Resolving the equipment alerts of a
    facility never raises.  If its transaction fails the ledger is as it
    was; if not, no look-up for an equipment alert of that facility finds
    one afterwards, whatever the look-back, while the unresolved alerts
    of every other facility and of every other type are the same as
    before. *)
Theorem resolve_then_lookup (facility_id : Z) (w : Store.world) :
  let w1 := snd (DataAggregator._resolve_equipment_alerts_for_facility
                   facility_id w) in
  fst (DataAggregator._resolve_equipment_alerts_for_facility facility_id w)
  = Return tt
  /\ match snd (Store.env w O) with
     | Some _ => Store.alerts w1 = Store.alerts w
     | None =>
         (forall alert_type hours now,
             DataAggregator.is_equipment_type alert_type = true ->
             existsb (AlertsDB.matches_existing facility_id alert_type hours now)
               (Store.alerts w1) = false)
         /\ (forall g alert_type,
                g <> facility_id
                \/ DataAggregator.is_equipment_type alert_type = false ->
                DataAggregator.unresolved_alerts g alert_type (Store.alerts w1)
                = DataAggregator.unresolved_alerts g alert_type (Store.alerts w))
     end.
Proof.
  cbv zeta. unfold DataAggregator._resolve_equipment_alerts_for_facility, Store.try.
  rewrite transaction_eq.
  destruct (snd (Store.env w O)); cbn [fst snd]; [split; reflexivity |].
  split; [reflexivity |].
  change (Store.alerts (Store.tick w)) with (Store.alerts w).
  cbn [Store.alerts Store.set_alerts].
  generalize (Store.alerts w) as l. intros l. split.
  - intros ty hours now Hty.
    induction l as [| a rest IH]; [reflexivity |]. cbn [map existsb].
    rewrite IH, orb_false_r. clear IH.
    destruct ((Alert.facility_id a =? facility_id)
              && DataAggregator.is_equipment_type (Alert.alert_type a)
              && negb (Alert.resolved a)) eqn:Hsel.
    + unfold AlertsDB.matches_existing.
      cbn [Alert.resolve Alert.resolved negb]. rewrite andb_false_r. reflexivity.
    + destruct (AlertsDB.matches_existing facility_id ty hours now a) eqn:Hm;
        [| reflexivity].
      unfold AlertsDB.matches_existing in Hm.
      apply andb_prop in Hm as [Hm _]. apply andb_prop in Hm as [Hm Hr].
      apply andb_prop in Hm as [Hf Ht]. apply String.eqb_eq in Ht.
      rewrite Hf, Ht, Hty, Hr in Hsel. discriminate Hsel.
  - intros g ty Hother. unfold DataAggregator.unresolved_alerts.
    induction l as [| a rest IH]; [reflexivity |]. cbn [map List.filter].
    rewrite IH. clear IH.
    destruct ((Alert.facility_id a =? facility_id)
              && DataAggregator.is_equipment_type (Alert.alert_type a)
              && negb (Alert.resolved a)) eqn:Hsel; [| reflexivity].
    apply andb_prop in Hsel as [Hsel Hr]. apply andb_prop in Hsel as [Hf Hk].
    apply Z.eqb_eq in Hf.
    assert (Hno : DataAggregator.unresolved_of g ty a = false).
    { unfold DataAggregator.unresolved_of.
      destruct Hother as [Hg | Hty].
      - replace (Alert.facility_id a =? g) with false; [reflexivity |].
        symmetry. apply Z.eqb_neq. congruence.
      - destruct (String.eqb_spec (Alert.alert_type a) ty) as [Et | Et].
        + congruence.
        + rewrite andb_false_r. reflexivity. }
    assert (Hno' : DataAggregator.unresolved_of g ty (Alert.resolve a) = false).
    { unfold DataAggregator.unresolved_of. cbn [Alert.resolve Alert.resolved negb].
      apply andb_false_r. }
    rewrite Hno, Hno'. reflexivity.
Qed.

(* ================================================================== *)
(** * Weather and traffic reports *)
(* ================================================================== *)

Section ReportFacts.

Lemma get_cases {V : Type} (P : V -> Prop) (key : string)
    (table : list (string * V)) (default : V) :
  P default -> List.Forall (fun kv => P (snd kv)) table ->
  P (Lookup.get key table default).
Proof.
  intros Hd Ht. induction Ht as [| [k v] rest Hv _ IH]; cbn [Lookup.get].
  - exact Hd.
  - destruct (String.eqb key k); [exact Hv | exact IH].
Qed.

Lemma choice_in {A : Type} (P : A -> Prop) (d : A) (l : list A) (r : rng) :
  P d -> List.Forall P l -> P (fst (Random.choice d l r)).
Proof.
  intros Hd Hl. unfold Random.choice, Random.random. cbn [fst].
  apply nth_choice; assumption.
Qed.

Lemma choice_tail {A : Type} (d : A) (l : list A) (r : rng) :
  snd (Random.choice d l r) = Random.tail r.
Proof. reflexivity. Qed.

Lemma randint_tail (a b : Z) (r : rng) : snd (Random.randint a b r) = Random.tail r.
Proof. reflexivity. Qed.

Lemma uniform_tail (a b : Q) (r : rng) : snd (Random.uniform a b r) = Random.tail r.
Proof. reflexivity. Qed.

(** None of the incidents a provider can pick speaks of a closure in
    capitals; only the full closure does. *)
Lemma picked_incident_no_closure (route_id : string) (r : rng) :
  Str.contains "CLOSURE"
    (fst (Random.choice ""%string
            (Lookup.get route_id MockTrafficProvider.route_specific_incidents
               MockTrafficProvider.default_route_incidents) r)) = false.
Proof.
  apply (get_cases
           (fun l => Str.contains "CLOSURE" (fst (Random.choice ""%string l r))
                     = false)).
  - apply (choice_in (fun s => Str.contains "CLOSURE" s = false));
      [reflexivity |].
    repeat (apply List.Forall_cons; [reflexivity |]). apply List.Forall_nil.
  - repeat (apply List.Forall_cons;
            [apply (choice_in (fun s => Str.contains "CLOSURE" s = false));
             [reflexivity |];
             repeat (apply List.Forall_cons; [reflexivity |]); apply List.Forall_nil
            |]).
    apply List.Forall_nil.
Qed.

Lemma minor_incident_no_closure (r : rng) :
  Str.contains "CLOSURE"
    (fst (Random.choice ""%string MockTrafficProvider.minor_incidents r)) = false.
Proof.
  apply (choice_in (fun s => Str.contains "CLOSURE" s = false)); [reflexivity |].
  repeat (apply List.Forall_cons; [reflexivity |]). apply List.Forall_nil.
Qed.

Lemma corridor_three (route_id : string) (default : list string) :
  length default = 3%nat ->
  length (Lookup.get route_id MockTrafficProvider.corridor_alternatives default)
  = 3%nat.
Proof.
  intros Hd. apply (get_cases (fun l => length l = 3%nat)); [exact Hd |].
  repeat (apply List.Forall_cons; [reflexivity |]). apply List.Forall_nil.
Qed.

End ReportFacts.

(** The shape of a weather report, as the provider builds it. *)
Lemma weather_report_shapes (self : MockWeatherProvider.t) (location : string)
    (r : rng) (d : WeatherData.t) :
  Random.well_formed r ->
  fst (MockWeatherProvider.get_weather_data self location r) = Some d ->
  WeatherData.location d = location
  /\ In (WeatherData.conditions d) MockWeatherProvider.conditions
  /\ (WeatherData.alerts d <> []
      <-> In (WeatherData.conditions d) ["Snow"; "Storm"; "Fog"]%string)
  /\ (length (WeatherData.alerts d) <= 1)%nat
  /\ (WeatherData.visibility d = "Poor"%string
      <-> In (WeatherData.conditions d) ["Fog"; "Storm"]%string)
  /\ (WeatherData.visibility d = "Good"%string
      \/ WeatherData.visibility d = "Poor"%string)
  /\ (-10 <= WeatherData.temperature d <= 35)%Q
  /\ (0 <= WeatherData.wind_speed d <= 25)%Q.
Proof.
  intros Hr. unfold MockWeatherProvider.get_weather_data.
  destruct (Random.random r) as [u r1] eqn:E1.
  assert (Hr1 : Random.well_formed r1)
    by (injection E1 as _ <-; apply well_formed_tail; exact Hr).
  destruct (Py.ltb u _); [cbn; discriminate |].
  pose proof (choice_in (fun c => In c MockWeatherProvider.conditions)
                "Clear"%string MockWeatherProvider.conditions r1) as Hcond.
  pose proof (choice_tail "Clear"%string MockWeatherProvider.conditions r1) as Hr2.
  destruct (Random.choice _ _ r1) as [cond r2]. cbn [fst snd] in Hcond, Hr2.
  assert (Hwf2 : Random.well_formed r2)
    by (rewrite Hr2; apply well_formed_tail; exact Hr1).
  pose proof (uniform_range (-10) 35 r2 Hwf2 ltac:(lra)) as Ht.
  pose proof (uniform_tail (-10) 35 r2) as Hr3.
  destruct (Random.uniform (-10) 35 r2) as [t r3]. cbn [fst snd] in Ht, Hr3.
  assert (Hwf3 : Random.well_formed r3)
    by (rewrite Hr3; apply well_formed_tail; exact Hwf2).
  pose proof (uniform_range 0 25 r3 Hwf3 ltac:(lra)) as Hw.
  destruct (Random.uniform 0 25 r3) as [ws r4]. cbn [fst] in Hw.
  cbn [fst]. intros [= <-].
  cbn [WeatherData.location WeatherData.conditions WeatherData.alerts
       WeatherData.visibility WeatherData.temperature WeatherData.wind_speed].
  assert (Hin : In cond MockWeatherProvider.conditions).
  { apply Hcond; [left; reflexivity |].
    apply List.Forall_forall. intros c Hc. exact Hc. }
  split; [reflexivity |]. split; [exact Hin |].
  split; [| split; [| split; [| split; [| split; [exact Ht | exact Hw]]]]];
    clear - Hin;
    repeat (destruct Hin as [<- | Hin]); try contradiction; cbn;
    try lia; try (split; intros H; intuition (try discriminate; try congruence));
    try (left; reflexivity); try (right; reflexivity).
Qed.

(** X20.  A weather report is coherent.  The condition is one of the
    six the provider knows; the report carries an alert exactly when the
    condition is Snow, Storm or Fog, and then exactly one; visibility is
    Poor exactly for Fog and Storm and Good otherwise (so snow comes
    with an alert and good visibility); the temperature lies in
    [-10, 35] and the wind speed in [0, 25]; the location is the one
    asked for. *)
Theorem weather_report_coherent (self : MockWeatherProvider.t) (location : string)
    (r : rng) (d : WeatherData.t) :
  Random.well_formed r ->
  fst (MockWeatherProvider.get_weather_data self location r) = Some d ->
  WeatherData.location d = location
  /\ In (WeatherData.conditions d) MockWeatherProvider.conditions
  /\ (WeatherData.alerts d <> []
      <-> In (WeatherData.conditions d) ["Snow"; "Storm"; "Fog"]%string)
  /\ (length (WeatherData.alerts d) <= 1)%nat
  /\ (WeatherData.visibility d = "Poor"%string
      <-> In (WeatherData.conditions d) ["Fog"; "Storm"]%string)
  /\ (WeatherData.visibility d = "Good"%string
      \/ WeatherData.visibility d = "Poor"%string)
  /\ (-10 <= WeatherData.temperature d <= 35)%Q
  /\ (0 <= WeatherData.wind_speed d <= 25)%Q.
Proof. exact (weather_report_shapes self location r d). Qed.

Lemma weather_report_coherent_witness :
  let r : rng := fun _ => 0.5%Q in
  let report := fst (MockWeatherProvider.get_weather_data
                       (MockWeatherProvider.init true) "Chicago" r) in
  Random.well_formed r
  /\ exists d, report = Some d
               /\ WeatherData.conditions d = "Snow"%string
               /\ WeatherData.alerts d <> []
               /\ WeatherData.visibility d <> "Poor"%string.
Proof.
  cbv zeta. set (r := fun _ : nat => 0.5%Q).
  assert (Hr : Random.well_formed r) by (intros n; split; unfold r; lra).
  split; [exact Hr |].
  destruct (fst (MockWeatherProvider.get_weather_data
                   (MockWeatherProvider.init true) "Chicago" r))
    as [d |] eqn:E; [| vm_compute in E; discriminate E].
  exists d. split; [reflexivity |].
  destruct (weather_report_coherent (MockWeatherProvider.init true) "Chicago" r d
              Hr E) as (_ & _ & Ha & _ & Hv & _).
  assert (Hc : WeatherData.conditions d = "Snow"%string)
    by (vm_compute in E; injection E as <-; reflexivity).
  split; [exact Hc |]. rewrite Hc in Ha, Hv. split.
  - apply Ha. left. reflexivity.
  - intros Hp. apply Hv in Hp. destruct Hp as [Hp | [Hp | []]]; discriminate Hp.
Defined.

(** The four shapes of a traffic report. *)
Lemma traffic_report_shapes (self : MockTrafficProvider.t) (route_id : string)
    (r : rng) (d : TrafficData.t) :
  Random.well_formed r ->
  fst (MockTrafficProvider.get_traffic_data self route_id r) = Some d ->
  TrafficData.route_id d
  = Lookup.get route_id (MockTrafficProvider.highways self)
      ("Route " +:+ route_id)%string
  /\ ((TrafficData.congestion_level d = "Clear"%string
       /\ TrafficData.incidents d = []
       /\ TrafficData.estimated_delay_minutes d = 0
       /\ TrafficData.alternative_routes d = [])
      \/ (TrafficData.congestion_level d = "Severe"%string
          /\ TrafficData.incidents d = [MockTrafficProvider.full_closure]
          /\ 240 <= TrafficData.estimated_delay_minutes d <= 480
          /\ length (TrafficData.alternative_routes d) = 3%nat)
      \/ (TrafficData.congestion_level d = "Heavy"%string
          /\ (exists incident, TrafficData.incidents d = [incident]
                               /\ Str.contains "CLOSURE" incident = false)
          /\ 30 <= TrafficData.estimated_delay_minutes d <= 120
          /\ length (TrafficData.alternative_routes d) = 3%nat)
      \/ (TrafficData.congestion_level d = "Moderate"%string
          /\ (exists incident, TrafficData.incidents d = [incident]
                               /\ Str.contains "CLOSURE" incident = false)
          /\ 5 <= TrafficData.estimated_delay_minutes d <= 30
          /\ TrafficData.alternative_routes d = MockTrafficProvider.minor_advice)).
Proof.
  intros Hr. unfold MockTrafficProvider.get_traffic_data.
  destruct (Random.random r) as [u r1] eqn:E1.
  assert (Hr1 : Random.well_formed r1)
    by (injection E1 as _ <-; apply well_formed_tail; exact Hr).
  destruct (Py.ltb u _); [cbn; discriminate |].
  unfold MockTrafficProvider.draw_issue.
  destruct (Random.random r1) as [issue_chance r2] eqn:E2.
  assert (Hr2 : Random.well_formed r2)
    by (injection E2 as _ <-; apply well_formed_tail; exact Hr1).
  destruct (Py.ltb issue_chance 0.05).
  { pose proof (randint_range 240 480 r2 Hr2 ltac:(lia)) as Hd.
    destruct (Random.randint 240 480 r2) as [delay r3]. cbn [fst] in Hd.
    cbn [fst]. intros [= <-]. split; [reflexivity |]. right. left.
    cbn [TrafficData.congestion_level TrafficData.incidents
         TrafficData.estimated_delay_minutes TrafficData.alternative_routes].
    split; [reflexivity |]. split; [reflexivity |]. split; [exact Hd |].
    unfold MockTrafficProvider.choose_alternatives.
    replace (Str.contains "CLOSURE" MockTrafficProvider.full_closure) with true
      by reflexivity.
    apply corridor_three. reflexivity. }
  destruct (Py.ltb issue_chance 0.12).
  { pose proof (picked_incident_no_closure route_id r2) as Hi.
    pose proof (choice_tail ""%string
                  (Lookup.get route_id MockTrafficProvider.route_specific_incidents
                     MockTrafficProvider.default_route_incidents) r2) as Ht.
    destruct (Random.choice _ _ r2) as [incident r3]. cbn [fst snd] in Hi, Ht.
    assert (Hr3 : Random.well_formed r3)
      by (rewrite Ht; apply well_formed_tail; exact Hr2).
    pose proof (randint_range 30 120 r3 Hr3 ltac:(lia)) as Hd.
    destruct (Random.randint 30 120 r3) as [delay r4]. cbn [fst] in Hd.
    cbn [fst]. intros [= <-]. split; [reflexivity |]. right. right. left.
    cbn [TrafficData.congestion_level TrafficData.incidents
         TrafficData.estimated_delay_minutes TrafficData.alternative_routes].
    split; [reflexivity |].
    split; [exists incident; split; [reflexivity | exact Hi] |].
    split; [exact Hd |].
    unfold MockTrafficProvider.choose_alternatives. rewrite Hi.
    replace ("Heavy" =? "Heavy")%string with true by reflexivity.
    apply corridor_three. reflexivity. }
  destruct (Py.ltb issue_chance 0.25).
  { pose proof (minor_incident_no_closure r2) as Hi.
    pose proof (choice_tail ""%string MockTrafficProvider.minor_incidents r2) as Ht.
    destruct (Random.choice _ _ r2) as [incident r3]. cbn [fst snd] in Hi, Ht.
    assert (Hr3 : Random.well_formed r3)
      by (rewrite Ht; apply well_formed_tail; exact Hr2).
    pose proof (randint_range 5 30 r3 Hr3 ltac:(lia)) as Hd.
    destruct (Random.randint 5 30 r3) as [delay r4]. cbn [fst] in Hd.
    cbn [fst]. intros [= <-]. split; [reflexivity |]. right. right. right.
    cbn [TrafficData.congestion_level TrafficData.incidents
         TrafficData.estimated_delay_minutes TrafficData.alternative_routes].
    split; [reflexivity |].
    split; [exists incident; split; [reflexivity | exact Hi] |].
    split; [exact Hd |].
    unfold MockTrafficProvider.choose_alternatives. rewrite Hi. reflexivity. }
  cbn [fst]. intros [= <-]. split; [reflexivity |]. left.
  repeat split.
Qed.

(** X21.  A traffic report is of one of four shapes.  Clear: no
    incident, no delay, no alternative.  Severe: the full closure alone,
    240 to 480 minutes, three alternatives.  Heavy: one incident that is
    no closure, 30 to 120 minutes, three alternatives.  Moderate: one
    incident that is no closure, 5 to 30 minutes, and the standing
    advice as alternatives. *)
Theorem traffic_report_coherent (self : MockTrafficProvider.t) (route_id : string)
    (r : rng) (d : TrafficData.t) :
  Random.well_formed r ->
  fst (MockTrafficProvider.get_traffic_data self route_id r) = Some d ->
  TrafficData.route_id d
  = Lookup.get route_id (MockTrafficProvider.highways self)
      ("Route " +:+ route_id)%string
  /\ ((TrafficData.congestion_level d = "Clear"%string
       /\ TrafficData.incidents d = []
       /\ TrafficData.estimated_delay_minutes d = 0
       /\ TrafficData.alternative_routes d = [])
      \/ (TrafficData.congestion_level d = "Severe"%string
          /\ TrafficData.incidents d = [MockTrafficProvider.full_closure]
          /\ 240 <= TrafficData.estimated_delay_minutes d <= 480
          /\ length (TrafficData.alternative_routes d) = 3%nat)
      \/ (TrafficData.congestion_level d = "Heavy"%string
          /\ (exists incident, TrafficData.incidents d = [incident]
                               /\ Str.contains "CLOSURE" incident = false)
          /\ 30 <= TrafficData.estimated_delay_minutes d <= 120
          /\ length (TrafficData.alternative_routes d) = 3%nat)
      \/ (TrafficData.congestion_level d = "Moderate"%string
          /\ (exists incident, TrafficData.incidents d = [incident]
                               /\ Str.contains "CLOSURE" incident = false)
          /\ 5 <= TrafficData.estimated_delay_minutes d <= 30
          /\ TrafficData.alternative_routes d = MockTrafficProvider.minor_advice)).
Proof. exact (traffic_report_shapes self route_id r d). Qed.

Lemma traffic_report_coherent_witness :
  let r : rng := fun n => match n with 1%nat => 0.01%Q | _ => 0.5%Q end in
  let report := fst (MockTrafficProvider.get_traffic_data
                       (MockTrafficProvider.init true) "I-80 Chicago↔Denver" r) in
  Random.well_formed r
  /\ exists d, report = Some d
               /\ TrafficData.congestion_level d = "Severe"%string
               /\ TrafficData.route_id d = "I-80 Chicago → Denver Corridor"%string
               /\ 240 <= TrafficData.estimated_delay_minutes d <= 480.
Proof.
  cbv zeta.
  set (r := fun n : nat => match n with 1%nat => 0.01%Q | _ => 0.5%Q end).
  assert (Hr : Random.well_formed r)
    by (intros [| [| n]]; split; unfold r; lra).
  split; [exact Hr |].
  destruct (fst (MockTrafficProvider.get_traffic_data
                   (MockTrafficProvider.init true) "I-80 Chicago↔Denver" r))
    as [d |] eqn:E; [| vm_compute in E; discriminate E].
  exists d. split; [reflexivity |].
  destruct (traffic_report_coherent (MockTrafficProvider.init true)
              "I-80 Chicago↔Denver" r d Hr E) as (Hroute & Hshape).
  assert (Hc : TrafficData.congestion_level d = "Severe"%string)
    by (vm_compute in E; injection E as <-; reflexivity).
  split; [exact Hc |]. split; [rewrite Hroute; reflexivity |].
  rewrite Hc in Hshape.
  destruct Hshape as [(H & _) | [(_ & _ & H & _) | [(H & _) | (H & _)]]];
    try discriminate H.
  exact H.
Defined.

Ltac fallback_done :=
  repeat split; intros; try discriminate; try tauto; try lra;
  try (match goal with H : _ /\ _ |- _ => destruct H; lra end);
  try (match goal with H : ?x <> ?x |- _ => contradiction H; reflexivity end).

(** X22.  The fallback.  A call returns nothing exactly when both
    providers fail, which is when the first draw is below the primary's
    failure rate and the second below the secondary's (0.1 and 0.05 for
    weather, 0.15 and 0.08 for traffic).  It prints nothing exactly when
    the primary answers, one WARNING line when the secondary had to, and
    one ERROR line when neither did; the secondary is not consulted
    after a primary answer. *)
Theorem fallback_rule (name : string) (r : rng) :
  (let '(data, r', printed) :=
     DataServiceFallback.get_weather_with_fallback name r in
   (data = None <-> (r O < 0.1 /\ r 1%nat < 0.05)%Q)
   /\ (printed = [] <-> ~ (r O < 0.1)%Q)
   /\ (data = None ->
       printed = [("ERROR: All weather providers failed for " +:+ name)%string])
   /\ (data <> None -> (r O < 0.1)%Q ->
       printed
       = [("WARNING: Using secondary weather provider for " +:+ name)%string])
   /\ (~ (r O < 0.1)%Q ->
       (data, r') = MockWeatherProvider.get_weather_data
                      DataServiceFallback.primary_weather name r))
  /\ (let '(data, r', printed) :=
        DataServiceFallback.get_traffic_with_fallback name r in
      (data = None <-> (r O < 0.15 /\ r 1%nat < 0.08)%Q)
      /\ (printed = [] <-> ~ (r O < 0.15)%Q)
      /\ (data = None ->
          printed
          = [("ERROR: All traffic providers failed for route " +:+ name)%string])
      /\ (data <> None -> (r O < 0.15)%Q ->
          printed
          = [("WARNING: Using secondary traffic provider for route "
                +:+ name)%string])
      /\ (~ (r O < 0.15)%Q ->
          (data, r') = MockTrafficProvider.get_traffic_data
                         DataServiceFallback.primary_traffic name r)).
Proof.
  split.
  - unfold DataServiceFallback.get_weather_with_fallback.
    unfold MockWeatherProvider.get_weather_data at 1.
    cbn [Random.random MockWeatherProvider.failure_rate
         DataServiceFallback.primary_weather MockWeatherProvider.init].
    destruct (Py.ltb (r O) 0.1) eqn:E0.
    + apply ltb_lt in E0.
      unfold MockWeatherProvider.get_weather_data at 1.
      cbn [Random.random MockWeatherProvider.failure_rate
           DataServiceFallback.secondary_weather MockWeatherProvider.init].
      change (Random.tail r O) with (r 1%nat).
      destruct (Py.ltb (r 1%nat) 0.05) eqn:E1.
      * apply ltb_lt in E1. fallback_done.
      * apply ltb_ge in E1.
        destruct (Random.choice _ _ _) as [cond r2].
        destruct (Random.uniform (-10) 35 r2) as [t r3].
        destruct (Random.uniform 0 25 r3) as [ws r4].
        fallback_done.
    + apply ltb_ge in E0.
      destruct (Random.choice _ _ _) as [cond r2] eqn:Ec.
      destruct (Random.uniform (-10) 35 r2) as [t r3] eqn:Et.
      destruct (Random.uniform 0 25 r3) as [ws r4] eqn:Ew.
      repeat split; intros; try discriminate; try tauto; try lra;
        try (match goal with H : _ /\ _ |- _ => destruct H; lra end).
      unfold MockWeatherProvider.get_weather_data.
      cbn [Random.random MockWeatherProvider.failure_rate
           DataServiceFallback.primary_weather MockWeatherProvider.init].
      replace (Py.ltb (r O) 0.1) with false by (symmetry; apply ltb_ge; exact E0).
      rewrite Ec, Et, Ew. reflexivity.
  - unfold DataServiceFallback.get_traffic_with_fallback.
    unfold MockTrafficProvider.get_traffic_data at 1.
    cbn [Random.random MockTrafficProvider.failure_rate
         DataServiceFallback.primary_traffic MockTrafficProvider.init].
    destruct (Py.ltb (r O) 0.15) eqn:E0.
    + apply ltb_lt in E0.
      unfold MockTrafficProvider.get_traffic_data at 1.
      cbn [Random.random MockTrafficProvider.failure_rate
           DataServiceFallback.secondary_traffic MockTrafficProvider.init].
      change (Random.tail r O) with (r 1%nat).
      destruct (Py.ltb (r 1%nat) 0.08) eqn:E1.
      * apply ltb_lt in E1. fallback_done.
      * apply ltb_ge in E1.
        destruct (MockTrafficProvider.draw_issue _ _) as [[[inc sev] delay] r2].
        fallback_done.
    + apply ltb_ge in E0.
      destruct (MockTrafficProvider.draw_issue _ _) as [[[inc sev] delay] r2] eqn:Ed.
      repeat split; intros; try discriminate; try tauto; try lra;
        try (match goal with H : _ /\ _ |- _ => destruct H; lra end).
      unfold MockTrafficProvider.get_traffic_data.
      cbn [Random.random MockTrafficProvider.failure_rate
           DataServiceFallback.primary_traffic MockTrafficProvider.init].
      replace (Py.ltb (r O) 0.15) with false by (symmetry; apply ltb_ge; exact E0).
      rewrite Ed. reflexivity.
Qed.

(* ================================================================== *)
(** * Recommendations *)
(* ================================================================== *)

Section AdvisoryFacts.
Import RecommendationEngine.

Lemma weather_data_rng (self : MockWeatherProvider.t) (location : string) (r : rng) :
  Random.well_formed r ->
  Random.well_formed (snd (MockWeatherProvider.get_weather_data self location r)).
Proof.
  intros Hr. unfold MockWeatherProvider.get_weather_data, Random.choice,
    Random.uniform, Random.random.
  destruct (Py.ltb _ _); cbn [snd]; repeat apply well_formed_tail; exact Hr.
Qed.

Lemma traffic_data_rng (self : MockTrafficProvider.t) (route_id : string) (r : rng) :
  Random.well_formed r ->
  Random.well_formed (snd (MockTrafficProvider.get_traffic_data self route_id r)).
Proof.
  intros Hr. unfold MockTrafficProvider.get_traffic_data,
    MockTrafficProvider.draw_issue, Random.choice, Random.randint, Random.random.
  destruct (Py.ltb _ _); cbn [snd]; [apply well_formed_tail; exact Hr |].
  repeat (destruct (Py.ltb _ _)); cbn [snd];
    repeat apply well_formed_tail; exact Hr.
Qed.

(** What a fallback call hands on: a well-formed generator, at most one
    printed line, and a report that one of the providers made. *)
Lemma weather_fallback_spec (location : string) (r : rng) :
  Random.well_formed r ->
  let x := DataServiceFallback.get_weather_with_fallback location r in
  Random.well_formed (snd (fst x))
  /\ (length (snd x) <= 1)%nat
  /\ forall d, fst (fst x) = Some d ->
       exists self r0, Random.well_formed r0
         /\ fst (MockWeatherProvider.get_weather_data self location r0) = Some d.
Proof.
  intros Hr. cbv zeta. unfold DataServiceFallback.get_weather_with_fallback.
  pose proof (weather_data_rng DataServiceFallback.primary_weather location r Hr)
    as H1.
  destruct (MockWeatherProvider.get_weather_data
              DataServiceFallback.primary_weather location r) as [[d1 |] r1] eqn:E1;
    cbn [fst snd] in *.
  - split; [exact H1 |]. split; [cbn; lia |].
    intros d [= <-]. exists DataServiceFallback.primary_weather, r.
    split; [exact Hr |]. rewrite E1. reflexivity.
  - pose proof (weather_data_rng DataServiceFallback.secondary_weather location r1
                  H1) as H2.
    destruct (MockWeatherProvider.get_weather_data
                DataServiceFallback.secondary_weather location r1)
      as [[d2 |] r2] eqn:E2; cbn [fst snd] in *.
    + split; [exact H2 |]. split; [cbn; lia |].
      intros d [= <-]. exists DataServiceFallback.secondary_weather, r1.
      split; [exact H1 |]. rewrite E2. reflexivity.
    + split; [exact H2 |]. split; [cbn; lia |]. intros d H. discriminate H.
Qed.

Lemma traffic_fallback_spec (route_id : string) (r : rng) :
  Random.well_formed r ->
  let x := DataServiceFallback.get_traffic_with_fallback route_id r in
  Random.well_formed (snd (fst x))
  /\ (length (snd x) <= 1)%nat
  /\ forall d, fst (fst x) = Some d ->
       exists self r0, Random.well_formed r0
         /\ fst (MockTrafficProvider.get_traffic_data self route_id r0) = Some d.
Proof.
  intros Hr. cbv zeta. unfold DataServiceFallback.get_traffic_with_fallback.
  pose proof (traffic_data_rng DataServiceFallback.primary_traffic route_id r Hr)
    as H1.
  destruct (MockTrafficProvider.get_traffic_data
              DataServiceFallback.primary_traffic route_id r) as [[d1 |] r1] eqn:E1;
    cbn [fst snd] in *.
  - split; [exact H1 |]. split; [cbn; lia |].
    intros d [= <-]. exists DataServiceFallback.primary_traffic, r.
    split; [exact Hr |]. rewrite E1. reflexivity.
  - pose proof (traffic_data_rng DataServiceFallback.secondary_traffic route_id r1
                  H1) as H2.
    destruct (MockTrafficProvider.get_traffic_data
                DataServiceFallback.secondary_traffic route_id r1)
      as [[d2 |] r2] eqn:E2; cbn [fst snd] in *.
    + split; [exact H2 |]. split; [cbn; lia |].
      intros d [= <-]. exists DataServiceFallback.secondary_traffic, r1.
      split; [exact H1 |]. rewrite E2. reflexivity.
    + split; [exact H2 |]. split; [cbn; lia |]. intros d H. discriminate H.
Qed.

(** The highway rule, on a report of a provider. *)
Lemma traffic_check_shapes (self : MockTrafficProvider.t) (route_id : string)
    (r : rng) (d : TrafficData.t) :
  Random.well_formed r ->
  fst (MockTrafficProvider.get_traffic_data self route_id r) = Some d ->
  match traffic_check (Some d) with
  | [] => TrafficData.congestion_level d = "Clear"%string
          \/ TrafficData.congestion_level d = "Moderate"%string
          \/ (TrafficData.congestion_level d = "Heavy"%string
              /\ TrafficData.estimated_delay_minutes d = 30)
  | [rec] =>
      field "location" rec = Some (TrafficData.route_id d)
      /\ ((TrafficData.congestion_level d = "Severe"%string
           /\ field "type" rec = Some "highway_closure"%string
           /\ field "priority" rec = Some "high"%string)
          \/ (TrafficData.congestion_level d = "Heavy"%string
              /\ 30 < TrafficData.estimated_delay_minutes d
              /\ field "type" rec = Some "highway_incident"%string
              /\ field "priority" rec = Some "medium"%string))
  | _ => False
  end.
Proof.
  intros Hr E.
  destruct (traffic_report_shapes self route_id r d Hr E)
    as (_ & [(Hc & Hi & Hd & _) | [(Hc & Hi & Hd & _)
            | [(Hc & (inc & Hi & Hn) & Hd & _) | (Hc & _ & Hd & _)]]]);
    unfold traffic_check.
  - rewrite Hd. cbn. left. exact Hc.
  - replace (30 <? TrafficData.estimated_delay_minutes d) with true
      by (symmetry; apply Z.ltb_lt; lia).
    replace (120 <? TrafficData.estimated_delay_minutes d) with true
      by (symmetry; apply Z.ltb_lt; lia).
    rewrite Hi. split; [reflexivity |]. left. split; [exact Hc |].
    split; reflexivity.
  - destruct (Z.ltb_spec 30 (TrafficData.estimated_delay_minutes d)) as [Hlt | Hge].
    + replace (120 <? TrafficData.estimated_delay_minutes d) with false
        by (symmetry; apply Z.ltb_ge; lia).
      rewrite Hi. cbn [existsb]. rewrite Hn. cbn [orb].
      split; [reflexivity |]. right. split; [exact Hc |]. split; [exact Hlt |].
      split; reflexivity.
    + right. right. split; [exact Hc | lia].
  - replace (30 <? TrafficData.estimated_delay_minutes d) with false
      by (symmetry; apply Z.ltb_ge; lia).
    right. left. exact Hc.
Qed.

(** The weather rule, on a report of a provider. *)
Lemma weather_check_shapes (self : MockWeatherProvider.t) (location : string)
    (alternatives : list string * list string) (r : rng) (d : WeatherData.t) :
  Random.well_formed r ->
  fst (MockWeatherProvider.get_weather_data self location r) = Some d ->
  match weather_check location alternatives (Some d) with
  | [] => In (WeatherData.conditions d) ["Clear"; "Cloudy"; "Rain"]%string
  | [rec] =>
      field "type" rec = Some "weather_advisory"%string
      /\ field "location" rec = Some location
      /\ ((field "priority" rec = Some "high"%string
           /\ In (WeatherData.conditions d) ["Snow"; "Storm"]%string)
          \/ (field "priority" rec = Some "medium"%string
              /\ WeatherData.conditions d = "Fog"%string))
  | _ => False
  end.
Proof.
  intros Hr E.
  destruct (weather_report_shapes self location r d Hr E)
    as (_ & Hin & Ha & _).
  unfold weather_check. destruct (WeatherData.alerts d) as [| a rest].
  - assert (Hno : ~ In (WeatherData.conditions d) ["Snow"; "Storm"; "Fog"]%string)
      by (intros H; apply Ha in H; apply H; reflexivity).
    clear Ha. unfold MockWeatherProvider.conditions in Hin. cbn [In] in *.
    intuition.
  - assert (Hyes : In (WeatherData.conditions d) ["Snow"; "Storm"; "Fog"]%string)
      by (apply Ha; discriminate).
    split; [reflexivity |]. split; [reflexivity |].
    destruct Hyes as [Hc | [Hc | [Hc | []]]].
    + left. split; [| left; exact Hc]. cbn [field String.eqb Ascii.eqb Bool.eqb].
      rewrite <- Hc. reflexivity.
    + left. split; [| right; left; exact Hc].
      cbn [field String.eqb Ascii.eqb Bool.eqb]. rewrite <- Hc. reflexivity.
    + right. split; [| symmetry; exact Hc].
      cbn [field String.eqb Ascii.eqb Bool.eqb]. rewrite <- Hc. reflexivity.
Qed.

End AdvisoryFacts.

(** X23.  The staffing rule.  Every staffing recommendation comes from a
    facility with recorded staffing that is a hub below 120 people or a
    station below 15; it names that facility, and its priority is high
    only for a hub below 100.  Conversely every such facility gets one,
    and no facility gets two.  A facility without metrics, or of another
    type, gets none. *)
Theorem staffing_rule (all_facilities : list RecommendationEngine.StaffRow.t) :
  (forall rec, In rec (RecommendationEngine.staffing_block all_facilities) ->
     exists facility n,
       In facility all_facilities
       /\ RecommendationEngine.StaffRow.staffing_level facility = Some n
       /\ RecommendationEngine.field "type" rec = Some "staffing_shortage"%string
       /\ RecommendationEngine.field "source_facility" rec
          = Some (RecommendationEngine.StaffRow.name facility)
       /\ ((RecommendationEngine.StaffRow.facility_type facility = "hub"%string
            /\ n < 120
            /\ RecommendationEngine.field "priority" rec
               = Some (if (n <? 100)%Z then "high"%string else "medium"%string))
           \/ (RecommendationEngine.StaffRow.facility_type facility = "station"%string
               /\ n < 15
               /\ RecommendationEngine.field "priority" rec = Some "medium"%string)))
  /\ (forall facility n,
        In facility all_facilities ->
        RecommendationEngine.StaffRow.staffing_level facility = Some n ->
        (RecommendationEngine.StaffRow.facility_type facility = "hub"%string
         /\ n < 120)
        \/ (RecommendationEngine.StaffRow.facility_type facility = "station"%string
            /\ n < 15) ->
        exists rec,
          In rec (RecommendationEngine.staffing_block all_facilities)
          /\ RecommendationEngine.field "source_facility" rec
             = Some (RecommendationEngine.StaffRow.name facility))
  /\ (length (RecommendationEngine.staffing_block all_facilities)
      <= length all_facilities)%nat.
Proof.
  unfold RecommendationEngine.staffing_block. split; [| split].
  - intros rec Hrec. apply List.in_flat_map in Hrec as (facility & Hf & Hrec).
    unfold RecommendationEngine.staffing_check in Hrec.
    destruct (RecommendationEngine.StaffRow.staffing_level facility) as [n |] eqn:En;
      [| contradiction].
    exists facility, n. split; [exact Hf |]. split; [exact En |].
    revert Hrec.
    destruct (String.eqb_spec (RecommendationEngine.StaffRow.facility_type facility)
                "hub") as [Eh | Eh]; cbn [andb].
    + destruct (Z.ltb_spec n 120) as [Hlt | Hge].
      * intros [<- | []]. split; [reflexivity |]. split; [reflexivity |].
        left. split; [exact Eh |]. split; [exact Hlt | reflexivity].
      * rewrite Eh. cbn. contradiction.
    + destruct (String.eqb_spec (RecommendationEngine.StaffRow.facility_type facility)
                  "station") as [Es | Es]; cbn [andb]; [| contradiction].
      destruct (Z.ltb_spec n 15) as [Hlt | Hge]; [| contradiction].
      intros [<- | []]. split; [reflexivity |]. split; [reflexivity |].
      right. split; [exact Es |]. split; [exact Hlt | reflexivity].
  - intros facility n Hf En Hlow.
    assert (Hone : exists rec,
               In rec (RecommendationEngine.staffing_check facility)
               /\ RecommendationEngine.field "source_facility" rec
                  = Some (RecommendationEngine.StaffRow.name facility)).
    { unfold RecommendationEngine.staffing_check. rewrite En.
      destruct Hlow as [[Et Hn] | [Et Hn]]; rewrite Et.
      - replace (n <? 120) with true by (symmetry; apply Z.ltb_lt; exact Hn).
        cbn [String.eqb Ascii.eqb Bool.eqb andb].
        eexists. split; [left; reflexivity | reflexivity].
      - replace (n <? 15) with true by (symmetry; apply Z.ltb_lt; exact Hn).
        cbn [String.eqb Ascii.eqb Bool.eqb andb].
        eexists. split; [left; reflexivity | reflexivity]. }
    destruct Hone as (rec & Hin & Hname). exists rec. split; [| exact Hname].
    apply List.in_flat_map. exists facility. split; assumption.
  - induction all_facilities as [| f rest IH]; cbn [flat_map length]; [lia |].
    rewrite length_app.
    assert (H1 : (length (RecommendationEngine.staffing_check f) <= 1)%nat).
    { unfold RecommendationEngine.staffing_check.
      destruct (RecommendationEngine.StaffRow.staffing_level f); [| cbn; lia].
      destruct (_ && _); [cbn; lia |]. destruct (_ && _); cbn; lia. }
    lia.
Qed.

(** X24.  The highway rule, from provider to recommendation.  A report
    of a provider leads to at most one recommendation.  A closure
    (Severe) always leads to one, of type highway_closure and high
    priority; a Heavy report leads to a highway_incident of medium
    priority unless its delay is exactly 30 minutes; Clear and Moderate
    reports lead to none.  So high priority goes to closures only. *)
Theorem highway_recommendation_rule (self : MockTrafficProvider.t)
    (route_id : string) (r : rng) (d : TrafficData.t) :
  Random.well_formed r ->
  fst (MockTrafficProvider.get_traffic_data self route_id r) = Some d ->
  match RecommendationEngine.traffic_check (Some d) with
  | [] => TrafficData.congestion_level d = "Clear"%string
          \/ TrafficData.congestion_level d = "Moderate"%string
          \/ (TrafficData.congestion_level d = "Heavy"%string
              /\ TrafficData.estimated_delay_minutes d = 30)
  | [rec] =>
      RecommendationEngine.field "location" rec = Some (TrafficData.route_id d)
      /\ ((TrafficData.congestion_level d = "Severe"%string
           /\ RecommendationEngine.field "type" rec = Some "highway_closure"%string
           /\ RecommendationEngine.field "priority" rec = Some "high"%string)
          \/ (TrafficData.congestion_level d = "Heavy"%string
              /\ 30 < TrafficData.estimated_delay_minutes d
              /\ RecommendationEngine.field "type" rec
                 = Some "highway_incident"%string
              /\ RecommendationEngine.field "priority" rec = Some "medium"%string))
  | _ => False
  end.
Proof. exact (traffic_check_shapes self route_id r d). Qed.

Lemma highway_recommendation_rule_witness :
  let r : rng := fun n => match n with 1%nat => 0.01%Q | _ => 0.5%Q end in
  let report := fst (MockTrafficProvider.get_traffic_data
                       (MockTrafficProvider.init true) "I-80 Chicago↔Denver" r) in
  Random.well_formed r
  /\ exists d, report = Some d
       /\ match RecommendationEngine.traffic_check (Some d) with
          | [rec] => RecommendationEngine.field "type" rec
                     = Some "highway_closure"%string
          | _ => False
          end.
Proof.
  cbv zeta.
  set (r := fun n : nat => match n with 1%nat => 0.01%Q | _ => 0.5%Q end).
  assert (Hr : Random.well_formed r)
    by (intros [| [| n]]; split; unfold r; lra).
  split; [exact Hr |].
  destruct (fst (MockTrafficProvider.get_traffic_data
                   (MockTrafficProvider.init true) "I-80 Chicago↔Denver" r))
    as [d |] eqn:E; [| vm_compute in E; discriminate E].
  exists d. split; [reflexivity |].
  pose proof (highway_recommendation_rule (MockTrafficProvider.init true)
                "I-80 Chicago↔Denver" r d Hr E) as H.
  assert (Hc : TrafficData.congestion_level d = "Severe"%string)
    by (vm_compute in E; injection E as <-; reflexivity).
  destruct (RecommendationEngine.traffic_check (Some d)) as [| rec [| rec' rest]].
  - rewrite Hc in H. destruct H as [H | [H | [H _]]]; discriminate H.
  - destruct H as (_ & [(_ & H & _) | (H & _)]); [exact H |].
    rewrite Hc in H. discriminate H.
  - exact H.
Defined.

(** X25.  The weather rule, from provider to recommendation.  A report
    of a provider leads to at most one advisory: none for Clear, Cloudy
    and Rain, one of high priority for Snow and Storm, one of medium
    priority for Fog; the advisory carries the location of the loop,
    whatever the alternatives on offer. *)
Theorem weather_recommendation_rule (self : MockWeatherProvider.t)
    (location : string) (alternatives : list string * list string) (r : rng)
    (d : WeatherData.t) :
  Random.well_formed r ->
  fst (MockWeatherProvider.get_weather_data self location r) = Some d ->
  match RecommendationEngine.weather_check location alternatives (Some d) with
  | [] => In (WeatherData.conditions d) ["Clear"; "Cloudy"; "Rain"]%string
  | [rec] =>
      RecommendationEngine.field "type" rec = Some "weather_advisory"%string
      /\ RecommendationEngine.field "location" rec = Some location
      /\ ((RecommendationEngine.field "priority" rec = Some "high"%string
           /\ In (WeatherData.conditions d) ["Snow"; "Storm"]%string)
          \/ (RecommendationEngine.field "priority" rec = Some "medium"%string
              /\ WeatherData.conditions d = "Fog"%string))
  | _ => False
  end.
Proof. exact (weather_check_shapes self location alternatives r d). Qed.

Lemma weather_recommendation_rule_witness :
  let r : rng := fun _ => 0.5%Q in
  let report := fst (MockWeatherProvider.get_weather_data
                       (MockWeatherProvider.init true) "Chicago" r) in
  Random.well_formed r
  /\ exists d, report = Some d
       /\ match RecommendationEngine.weather_check "Chicago" ([], []) (Some d) with
          | [rec] => RecommendationEngine.field "priority" rec = Some "high"%string
          | _ => False
          end.
Proof.
  cbv zeta. set (r := fun _ : nat => 0.5%Q).
  assert (Hr : Random.well_formed r) by (intros n; split; unfold r; lra).
  split; [exact Hr |].
  destruct (fst (MockWeatherProvider.get_weather_data
                   (MockWeatherProvider.init true) "Chicago" r))
    as [d |] eqn:E; [| vm_compute in E; discriminate E].
  exists d. split; [reflexivity |].
  pose proof (weather_recommendation_rule (MockWeatherProvider.init true)
                "Chicago" ([], []) r d Hr E) as H.
  assert (Hc : WeatherData.conditions d = "Snow"%string)
    by (vm_compute in E; injection E as <-; reflexivity).
  destruct (RecommendationEngine.weather_check "Chicago" ([], []) (Some d))
    as [| rec [| rec' rest]].
  - rewrite Hc in H. destruct H as [H | [H | [H | []]]]; discriminate H.
  - destruct H as (_ & _ & [(H & _) | (_ & H)]); [exact H |].
    rewrite Hc in H. discriminate H.
  - exact H.
Defined.

Section AdvisoryLoops.
Import RecommendationEngine AdvisoryProps.

Lemma weather_check_ranked (location : string)
    (alternatives : list string * list string) (r : rng) :
  Random.well_formed r ->
  let x := DataServiceFallback.get_weather_with_fallback location r in
  (length (weather_check location alternatives (fst (fst x))) <= 1)%nat
  /\ Forall well_ranked (weather_check location alternatives (fst (fst x))).
Proof.
  intros Hr. cbv zeta.
  destruct (weather_fallback_spec location r Hr) as (_ & _ & Hfrom).
  cbv zeta in Hfrom.
  destruct (fst (fst (DataServiceFallback.get_weather_with_fallback location r)))
    as [d |]; [| split; [cbn; lia | apply List.Forall_nil]].
  destruct (Hfrom d eq_refl) as (self & r0 & Hr0 & E).
  pose proof (weather_check_shapes self location alternatives r0 d Hr0 E) as H.
  destruct (weather_check location alternatives (Some d)) as [| rec [| rec' rest]].
  - split; [cbn; lia | apply List.Forall_nil].
  - split; [cbn; lia |]. apply List.Forall_cons; [| apply List.Forall_nil].
    destruct H as (Ht & _ & [(Hp & _) | (Hp & _)]); left; split; auto.
  - contradiction.
Qed.

Lemma traffic_check_ranked (route_id : string) (r : rng) :
  Random.well_formed r ->
  let x := DataServiceFallback.get_traffic_with_fallback route_id r in
  (length (traffic_check (fst (fst x))) <= 1)%nat
  /\ Forall well_ranked (traffic_check (fst (fst x))).
Proof.
  intros Hr. cbv zeta.
  destruct (traffic_fallback_spec route_id r Hr) as (_ & _ & Hfrom).
  cbv zeta in Hfrom.
  destruct (fst (fst (DataServiceFallback.get_traffic_with_fallback route_id r)))
    as [d |]; [| split; [cbn; lia | apply List.Forall_nil]].
  destruct (Hfrom d eq_refl) as (self & r0 & Hr0 & E).
  pose proof (traffic_check_shapes self route_id r0 d Hr0 E) as H.
  destruct (traffic_check (Some d)) as [| rec [| rec' rest]].
  - split; [cbn; lia | apply List.Forall_nil].
  - split; [cbn; lia |]. apply List.Forall_cons; [| apply List.Forall_nil].
    destruct H as (_ & [(_ & Ht & Hp) | (_ & _ & Ht & Hp)]).
    + right. left. split; assumption.
    + right. right. split; assumption.
  - contradiction.
Qed.

Lemma weather_loop_bounded
    (locations : list (string * (list string * list string))) :
  forall r, Random.well_formed r ->
    bounded_by (length locations) (weather_loop locations r).
Proof.
  induction locations as [| [location alternatives] rest IH]; intros r Hr.
  - split; [cbn; lia |]. split; [cbn; lia |]. split; [exact Hr |].
    apply List.Forall_nil.
  - cbn [weather_loop length].
    destruct (weather_fallback_spec location r Hr) as (Hr1 & Hp & _).
    destruct (weather_check_ranked location alternatives r Hr) as (Hlen & Hrank).
    cbv zeta in Hr1, Hp, Hlen, Hrank.
    destruct (DataServiceFallback.get_weather_with_fallback location r)
      as [[weather r1] printed]. cbn [fst snd] in Hr1, Hp, Hlen, Hrank.
    destruct (IH r1 Hr1) as (I1 & I2 & I3 & I4).
    destruct (weather_loop rest r1) as [[recs r2] printed'].
    cbn [fst snd] in I1, I2, I3, I4.
    unfold bounded_by. cbn [fst snd]. rewrite !length_app.
    split; [lia |]. split; [lia |]. split; [exact I3 |].
    apply List.Forall_app. split; assumption.
Qed.

Lemma traffic_loop_bounded (routes : list Z) :
  forall r, Random.well_formed r ->
    bounded_by (length routes) (traffic_loop routes r).
Proof.
  induction routes as [| i rest IH]; intros r Hr.
  - split; [cbn; lia |]. split; [cbn; lia |]. split; [exact Hr |].
    apply List.Forall_nil.
  - cbn [traffic_loop length].
    destruct (traffic_fallback_spec ("route-" +:+ pretty i) r Hr) as (Hr1 & Hp & _).
    destruct (traffic_check_ranked ("route-" +:+ pretty i) r Hr) as (Hlen & Hrank).
    cbv zeta in Hr1, Hp, Hlen, Hrank.
    destruct (DataServiceFallback.get_traffic_with_fallback _ r)
      as [[traffic r1] printed]. cbn [fst snd] in Hr1, Hp, Hlen, Hrank.
    destruct (IH r1 Hr1) as (I1 & I2 & I3 & I4).
    destruct (traffic_loop rest r1) as [[recs r2] printed'].
    cbn [fst snd] in I1, I2, I3, I4.
    unfold bounded_by. cbn [fst snd]. rewrite !length_app.
    split; [lia |]. split; [lia |]. split; [exact I3 |].
    apply List.Forall_app. split; assumption.
Qed.

End AdvisoryLoops.

(** X26.  The weather and highway blocks of the engine, end to end.
    For any well-formed generator they produce at most eight
    recommendations (three locations, five routes) and print at most
    eight lines; every recommendation is a weather_advisory of high or
    medium priority, a highway_closure of high priority or a
    highway_incident of medium priority; the generator they hand on is
    well-formed again. *)
Theorem advisories_rule (r : rng) :
  Random.well_formed r ->
  AdvisoryProps.bounded_by 8 (RecommendationEngine.advisories r).
Proof.
  intros Hr. unfold RecommendationEngine.advisories.
  destruct (weather_loop_bounded RecommendationEngine.weather_locations r Hr)
    as (W1 & W2 & W3 & W4).
  destruct (RecommendationEngine.weather_loop _ r) as [[wrecs r1] printed].
  cbn [fst snd] in W1, W2, W3, W4.
  destruct (traffic_loop_bounded [1; 2; 3; 4; 5] r1 W3) as (T1 & T2 & T3 & T4).
  destruct (RecommendationEngine.traffic_loop _ r1) as [[trecs r2] printed'].
  cbn [fst snd] in T1, T2, T3, T4.
  unfold AdvisoryProps.bounded_by. cbn [fst snd]. rewrite !length_app.
  cbn [length RecommendationEngine.weather_locations] in W1, W2, T1, T2.
  split; [lia |]. split; [lia |]. split; [exact T3 |].
  apply List.Forall_app. split; assumption.
Qed.

Lemma advisories_rule_witness :
  let r : rng := fun _ => 0.5%Q in
  Random.well_formed r
  /\ AdvisoryProps.bounded_by 8 (RecommendationEngine.advisories r)
  /\ length (fst (fst (RecommendationEngine.advisories r))) = 3%nat.
Proof.
  cbv zeta. set (r := fun _ : nat => 0.5%Q).
  assert (Hr : Random.well_formed r) by (intros n; split; unfold r; lra).
  split; [exact Hr |]. split; [exact (advisories_rule r Hr) |].
  vm_compute. reflexivity.
Defined.
